(** * Order emergency classification (datastep-backend)

    A shallow embedding of
    [src/model/order_classification/order_classification_model.py]:
    the text normalizer, the responsible-unit resolver, the rate-limit
    retry around the language-model chain, the Domyland HTTP helpers and the
    orchestrator [get_emergency_class], followed by the properties of the
    design document that are settled on them. *)

From Stdlib Require Import Ascii String.
From Stdlib Require Import ZArith List Bool Lia DecimalString.
Import ListNotations.
Open Scope Z_scope.
Set Warnings "-register-all".

(* ================================================================== *)
(** * Python strings *)

(** A Python [str] is a sequence of Unicode code points. *)
Definition str := list Z.

(** String literals of the source are written as Rocq strings (UTF-8 bytes)
    and decoded to code points. *)
Fixpoint utf8 (pending : nat) (acc : Z) (s : string) : str :=
  match s with
  | EmptyString => []
  | String a s' =>
      let b := Z.of_N (N_of_ascii a) in
      match pending with
      | O =>
          if b <? 128 then b :: utf8 0 0 s'
          else if b <? 224 then utf8 1 (Z.land b 31) s'
          else if b <? 240 then utf8 2 (Z.land b 15) s'
          else utf8 3 (Z.land b 7) s'
      | S O => Z.lor (Z.shiftl acc 6) (Z.land b 63) :: utf8 0 0 s'
      | S p => utf8 p (Z.lor (Z.shiftl acc 6) (Z.land b 63)) s'
      end
  end.

Definition py (s : string) : str := utf8 0 0 s.

Definition SP : Z := 32.
Definition LF : Z := 10.

(** [str.isspace] on one code point, which is also the class [\s] of [re] on
    [str] patterns: U+0009..U+000D, U+001C..U+0020, U+0085, U+00A0, U+1680,
    U+2000..U+200A, U+2028, U+2029, U+202F, U+205F, U+3000. *)
Definition isspace (c : Z) : bool :=
  ((9 <=? c) && (c <=? 13)) || ((28 <=? c) && (c <=? 32))
  || (c =? 133) || (c =? 160) || (c =? 5760)
  || ((8192 <=? c) && (c <=? 8202))
  || (c =? 8232) || (c =? 8233) || (c =? 8239) || (c =? 8287) || (c =? 12288).

Fixpoint str_eqb (a b : str) : bool :=
  match a, b with
  | [], [] => true
  | x :: a', y :: b' => (x =? y) && str_eqb a' b'
  | _, _ => false
  end.

(** [s.startswith(p)] *)
Fixpoint prefixb (p s : str) : bool :=
  match p, s with
  | [], _ => true
  | a :: p', b :: s' => (a =? b) && prefixb p' s'
  | _ :: _, [] => false
  end.

(** [p in s] on strings: [p] occurs as a contiguous substring of [s]. *)
Fixpoint contains (p s : str) : bool :=
  prefixb p s || match s with [] => false | _ :: s' => contains p s' end.

(** [s.replace(old, new)] for a non-empty [old] (both call sites pass a
    non-empty literal): occurrences are found left to right and do not
    overlap; [skip] counts the characters of the current occurrence still to
    be dropped. *)
Fixpoint replace_from (old new : str) (skip : nat) (s : str) : str :=
  match s with
  | [] => []
  | c :: s' =>
      match skip with
      | S k => replace_from old new k s'
      | O =>
          if prefixb old s
          then new ++ replace_from old new (length old - 1) s'
          else c :: replace_from old new 0 s'
      end
  end.

Definition replace (old new s : str) : str := replace_from old new 0 s.

(** [s.strip()] with no argument removes leading and trailing whitespace. *)
Fixpoint lstrip (s : str) : str :=
  match s with
  | c :: s' => if isspace c then lstrip s' else s
  | [] => []
  end.

Definition rstrip (s : str) : str := rev (lstrip (rev s)).
Definition strip (s : str) : str := rstrip (lstrip s).

(** [str(n)] and [f"{n}"] for an [int]. *)
Definition str_of_int (n : Z) : str := py (NilEmpty.string_of_int (Z.to_int n)).

(* ================================================================== *)
(** * The text normalizer *)

(** The regular expression [http\S+] matches at the head of [s]: the four
    letters and at least one more character that is not whitespace. *)
Definition HTTP : str := Eval vm_compute in py "http".

Definition url_at (s : str) : bool :=
  prefixb HTTP s
  && match skipn 4 s with c :: _ => negb (isspace c) | [] => false end.

(** [re.sub(r"http\S+", " ", s)]: the scan goes left to right; a match is
    replaced by one space and, [\S+] being greedy, runs to the next
    whitespace character or the end ([in_match] is set while the scan is
    inside a match, whose characters are dropped). *)
Fixpoint sub_urls (in_match : bool) (s : str) : str :=
  match s with
  | [] => []
  | c :: s' =>
      if in_match then
        if isspace c then c :: sub_urls false s' else sub_urls true s'
      else if url_at s then SP :: sub_urls true s'
      else c :: sub_urls false s'
  end.

(** [re.sub(r"\s+", " ", s)]: every maximal run of whitespace becomes one
    space ([in_run] is set while the scan is inside a run). *)
Fixpoint sub_spaces (in_run : bool) (s : str) : str :=
  match s with
  | [] => []
  | c :: s' =>
      if isspace c then
        if in_run then sub_spaces true s' else SP :: sub_spaces true s'
      else c :: sub_spaces false s'
  end.

Definition PHOTO_PLACEHOLDER : str := Eval vm_compute in py "Прикрепите фото:".

Definition _normalize_resident_request_string (query : str) : str :=
  let removed_line_breaks_query := replace [LF] [SP] query in
  let removed_photos_query :=
    replace PHOTO_PLACEHOLDER [SP] removed_line_breaks_query in
  let removed_urls_query := sub_urls false removed_photos_query in
  let fixed_spaces_query := sub_spaces false removed_urls_query in
  fixed_spaces_query.

(* ================================================================== *)
(** * Values, exceptions and the data model *)

(** Python values that travel as JSON: request bodies, decoded responses and
    the dictionaries stored in the history record. *)
Inductive PyVal : Type :=
| VNone
| VBool (b : bool)
| VInt (n : Z)
| VStr (s : str)
| VList (l : list PyVal)
| VDict (items : list (str * PyVal)).

(** The exceptions the module distinguishes: fastapi's [HTTPException], openai's
    [RateLimitError], and every other [Exception] with its [str(error)]. *)
Inductive Exn : Type :=
| HTTPException (status_code : Z) (detail : str)
| RateLimitError (msg : str)
| OtherError (msg : str).

Inductive Outcome (A : Type) : Type :=
| Returns (a : A)
| Raises (e : Exn).
Arguments Returns {A} a.
Arguments Raises {A} e.

(** fastapi's [status] constants used by the module. *)
Definition HTTP_400_BAD_REQUEST : Z := 400.
Definition HTTP_409_CONFLICT : Z := 409.
Definition HTTP_422_UNPROCESSABLE_ENTITY : Z := 422.
Definition HTTP_500_INTERNAL_SERVER_ERROR : Z := 500.
Definition HTTP_501_NOT_IMPLEMENTED : Z := 501.

Definition DOMYLAND_API_BASE_URL : str := py "https://sud-api.domyland.ru".
Definition DOMYLAND_APP_NAME : str := py "Datastep".
Definition RESPONSIBLE_DEPT_ID : Z := 38.
Definition AI_USER_ID : Z := 15698.
Definition ORDER_PROCESSED_BY_AI_MESSAGE : str :=
  Eval vm_compute in py "ИИ классифицировал эту заявку как аварийную".
Definition WAIT_TIME_IN_SEC : Z := 60.
Definition EMERGENCY_LABEL : str := Eval vm_compute in py "аварийная".

(** Modelled from the spec: the declaration of
    [scheme.order_classification.uds_scheme.UDS] is not among the sources. A
    responsible unit is a unit id and the address substrings it is
    responsible for. The resolver reads [int(uds_data.user_id)]; the
    identifier is kept as the integer it denotes. *)
Module UDS.

Record t : Type := { user_id : Z; address_list : list str }.

End UDS.

(** Modelled from the spec: the declarations of the [scheme] package are not
    among the sources. [OrderDetails] is kept as far as the orchestrator
    reads it: the service form ([service.orderForm]), whose fields have a
    type, a title and a value, and the order summary ([order.summary]), whose
    fields have a title and a value. The request carries the alert id, alert
    type id, timestamp and the order data; the configuration carries the
    owning user id, the two switches and the prompt. *)
Record OrderForm : Type := { type : str; title : str; value : option str }.
Record OrderDetails : Type :=
  { service_orderForm : list OrderForm; order_summary : list OrderForm }.

Record OrderData : Type := { orderId : Z; orderStatusId : Z }.
Record OrderClassificationRequest : Type :=
  { alertId : str; alertTypeId : Z; timestamp : Z; data : OrderData }.

Record OrderClassificationConfig : Type :=
  { user_id : Z;
    is_use_emergency_classification : bool;
    is_use_order_updating : bool;
    emergency_prompt : str }.

(** Modelled from the spec: the declaration of [OrderClassificationRecord],
    the history record, is not among the sources. Its fields are the ones
    the orchestrator assigns. The orchestrator creates it with the five alert
    and order fields; every other field starts at its default ([None], and
    [False] for the error flag); [id] and [client] are filled in by the
    store. *)
Record OrderClassificationRecord : Type :=
  { id : option Z;
    client : option str;
    alert_id : str;
    alert_type_id : Z;
    alert_timestamp : Z;
    order_id : Z;
    order_status_id : Z;
    order_details : option OrderDetails;
    order_query : option str;
    order_address : option str;
    order_normalized_query : option str;
    order_emergency : option str;
    is_emergency : option bool;
    uds_id : option str;
    order_update_request : option PyVal;
    order_update_response : option PyVal;
    is_error : bool;
    comment : option str }.

Definition set_id v r :=
  let '(Build_OrderClassificationRecord _ a1 a2 a3 a4 a5 a6 a7 a8 a9 a10 a11 a12 a13 a14 a15 a16 a17) := r in
  Build_OrderClassificationRecord v a1 a2 a3 a4 a5 a6 a7 a8 a9 a10 a11 a12 a13 a14 a15 a16 a17.
Definition set_client v r :=
  let '(Build_OrderClassificationRecord a0 _ a2 a3 a4 a5 a6 a7 a8 a9 a10 a11 a12 a13 a14 a15 a16 a17) := r in
  Build_OrderClassificationRecord a0 v a2 a3 a4 a5 a6 a7 a8 a9 a10 a11 a12 a13 a14 a15 a16 a17.
Definition set_order_details v r :=
  let '(Build_OrderClassificationRecord a0 a1 a2 a3 a4 a5 a6 _ a8 a9 a10 a11 a12 a13 a14 a15 a16 a17) := r in
  Build_OrderClassificationRecord a0 a1 a2 a3 a4 a5 a6 v a8 a9 a10 a11 a12 a13 a14 a15 a16 a17.
Definition set_order_query v r :=
  let '(Build_OrderClassificationRecord a0 a1 a2 a3 a4 a5 a6 a7 _ a9 a10 a11 a12 a13 a14 a15 a16 a17) := r in
  Build_OrderClassificationRecord a0 a1 a2 a3 a4 a5 a6 a7 v a9 a10 a11 a12 a13 a14 a15 a16 a17.
Definition set_order_address v r :=
  let '(Build_OrderClassificationRecord a0 a1 a2 a3 a4 a5 a6 a7 a8 _ a10 a11 a12 a13 a14 a15 a16 a17) := r in
  Build_OrderClassificationRecord a0 a1 a2 a3 a4 a5 a6 a7 a8 v a10 a11 a12 a13 a14 a15 a16 a17.
Definition set_order_normalized_query v r :=
  let '(Build_OrderClassificationRecord a0 a1 a2 a3 a4 a5 a6 a7 a8 a9 _ a11 a12 a13 a14 a15 a16 a17) := r in
  Build_OrderClassificationRecord a0 a1 a2 a3 a4 a5 a6 a7 a8 a9 v a11 a12 a13 a14 a15 a16 a17.
Definition set_order_emergency v r :=
  let '(Build_OrderClassificationRecord a0 a1 a2 a3 a4 a5 a6 a7 a8 a9 a10 _ a12 a13 a14 a15 a16 a17) := r in
  Build_OrderClassificationRecord a0 a1 a2 a3 a4 a5 a6 a7 a8 a9 a10 v a12 a13 a14 a15 a16 a17.
Definition set_is_emergency v r :=
  let '(Build_OrderClassificationRecord a0 a1 a2 a3 a4 a5 a6 a7 a8 a9 a10 a11 _ a13 a14 a15 a16 a17) := r in
  Build_OrderClassificationRecord a0 a1 a2 a3 a4 a5 a6 a7 a8 a9 a10 a11 v a13 a14 a15 a16 a17.
Definition set_uds_id v r :=
  let '(Build_OrderClassificationRecord a0 a1 a2 a3 a4 a5 a6 a7 a8 a9 a10 a11 a12 _ a14 a15 a16 a17) := r in
  Build_OrderClassificationRecord a0 a1 a2 a3 a4 a5 a6 a7 a8 a9 a10 a11 a12 v a14 a15 a16 a17.
Definition set_order_update_request v r :=
  let '(Build_OrderClassificationRecord a0 a1 a2 a3 a4 a5 a6 a7 a8 a9 a10 a11 a12 a13 _ a15 a16 a17) := r in
  Build_OrderClassificationRecord a0 a1 a2 a3 a4 a5 a6 a7 a8 a9 a10 a11 a12 a13 v a15 a16 a17.
Definition set_order_update_response v r :=
  let '(Build_OrderClassificationRecord a0 a1 a2 a3 a4 a5 a6 a7 a8 a9 a10 a11 a12 a13 a14 _ a16 a17) := r in
  Build_OrderClassificationRecord a0 a1 a2 a3 a4 a5 a6 a7 a8 a9 a10 a11 a12 a13 a14 v a16 a17.
Definition set_is_error v r :=
  let '(Build_OrderClassificationRecord a0 a1 a2 a3 a4 a5 a6 a7 a8 a9 a10 a11 a12 a13 a14 a15 _ a17) := r in
  Build_OrderClassificationRecord a0 a1 a2 a3 a4 a5 a6 a7 a8 a9 a10 a11 a12 a13 a14 a15 v a17.
Definition set_comment v r :=
  let '(Build_OrderClassificationRecord a0 a1 a2 a3 a4 a5 a6 a7 a8 a9 a10 a11 a12 a13 a14 a15 a16 _) := r in
  Build_OrderClassificationRecord a0 a1 a2 a3 a4 a5 a6 a7 a8 a9 a10 a11 a12 a13 a14 a15 a16 v.

(** ** HTTP exchanges with the order-management system *)

Inductive Method : Type := GET | POST | PUT.

Record HttpRequest : Type :=
  { method : Method; url : str; json_body : option PyVal; headers : PyVal }.

(** A [requests] response: [response.ok], [response.status_code],
    [response.text] and what [response.json()] gives (the decoded body, or
    the exception raised on a body that is not JSON). *)
Record Response : Type :=
  { ok : bool; status_code : Z; text : str; json : Outcome PyVal }.

(** What a run does to the outside, in order. *)
Inductive Event : Type :=
| EvHttp (req : HttpRequest)
| EvChain (prompt client_ query : str)
| EvSleep (seconds : Z)
| EvSave (record : OrderClassificationRecord) (client_ : str).

Definition is_http (e : Event) : bool :=
  match e with EvHttp _ => true | _ => false end.
Definition is_chain (e : Event) : bool :=
  match e with EvChain _ _ _ => true | _ => false end.
Definition is_save (e : Event) : bool :=
  match e with EvSave _ _ => true | _ => false end.

(** The update endpoints of the order-management system: the order status
    update ([PUT .../orders/<id>/status]) and the internal chat message
    ([POST .../order-comments]). *)
Definition is_status_update (e : Event) : bool :=
  match e with
  | EvHttp {| method := PUT |} => true
  | _ => false
  end.
Definition is_chat_post (e : Event) : bool :=
  match e with
  | EvHttp {| method := POST; url := u |} =>
      str_eqb u (DOMYLAND_API_BASE_URL ++ py "/order-comments")
  | _ => false
  end.
Definition is_update_call (e : Event) : bool :=
  is_status_update e || is_chat_post e.

(* ================================================================== *)
(** * What the module imports *)

(** The interpreter's string and value operations and the constants and
    declarations the module imports from files that are outside the modelled
    module ([infra.env], [infra.vysota_uds_list], the [scheme] package and
    the configuration repository). They are parameters of the development:
    nothing is assumed about them. *)
Class Imports : Type :=
  { (** [str.lower] *)
    lower : str -> str;
    (** how a decoded JSON value prints inside an f-string *)
    repr : PyVal -> str;
    (** [infra.env] *)
    DOMYLAND_AUTH_EMAIL : str;
    DOMYLAND_AUTH_PASSWORD : str;
    DOMYLAND_AUTH_TENANT_NAME : str;
    (** the [UDS] objects built from [UDS_LIST] *)
    RESPONSIBLE_UDS_LIST : list UDS.t;
    (** [OrderStatusID.PENDING], [OrderStatusID.IN_PROGRESS],
        [AlertTypeID.NEW_ORDER] (integer enumerations) *)
    PENDING : Z;
    IN_PROGRESS : Z;
    NEW_ORDER : Z;
    (** [SummaryType.TEXT], [SummaryTitle.COMMENT], [SummaryTitle.OBJECT] *)
    TEXT : str;
    COMMENT : str;
    OBJECT : str;
    (** the [OrderDetails] model validated from the decoded response, or
        the validation error *)
    parse_order_details : PyVal -> Outcome OrderDetails;
    DEFAULT_CONFIG_USER_ID : Z;
    (** [str(error)] of the [RecursionError] the interpreter raises when a
        call exceeds its recursion limit *)
    RECURSION_ERROR_MESSAGE : str }.

(** The outside of a run: the order-management system answers the [k]-th
    HTTP request of the run, the language-model chain answers the [k]-th
    attempt, and the configuration repository holds at most one default
    configuration per client ([get_default_config]). *)
Record World : Type :=
  { http : nat -> HttpRequest -> Outcome Response;
    chain_run : nat -> str -> str -> str -> Outcome str;
    get_default_config : str -> option OrderClassificationConfig }.

(* ================================================================== *)
(** * The history store *)

(** Modelled from the spec: [order_classification_history_model]
    ([get_saved_record_by_order_id], [save_order_classification_record]) is
    not among the sources. The design document gives the store two
    operations, [findByOrderId(orderId, tenant) -> record | absent] and
    [save(record, tenant) -> record]. The model reads them in the simplest
    way: a record that carries the identifier of a stored record replaces
    it, any other record is added under a fresh identifier, and a save
    always returns. The design document also asks for at most one record
    per order and tenant; this store does not enforce it, so what a save
    does to a store that already holds a record of the order is an
    assumption of the model and not a fact of the code. *)
Definition Store : Type := list OrderClassificationRecord.

Definition opt_str_eqb (a : option str) (b : str) : bool :=
  match a with Some s => str_eqb s b | None => false end.

Definition get_saved_record_by_order_id
    (db : Store) (order_id_ : Z) (client_ : str)
  : option OrderClassificationRecord :=
  find (fun r => (order_id r =? order_id_) && opt_str_eqb (client r) client_) db.

Definition next_id (db : Store) : Z :=
  1 + fold_right (fun r m => match id r with Some i => Z.max i m | None => m end) 0 db.

Definition has_id (i : Z) (r : OrderClassificationRecord) : bool :=
  match id r with Some j => i =? j | None => false end.

Definition save_order_classification_record
    (db : Store) (record : OrderClassificationRecord) (client_ : str)
  : Store * OrderClassificationRecord :=
  let record := set_client (Some client_) record in
  match id record with
  | Some i =>
      if existsb (has_id i) db
      then (map (fun r => if has_id i r then record else r) db, record)
      else (db ++ [record], record)
  | None =>
      let record := set_id (Some (next_id db)) record in
      (db ++ [record], record)
  end.

(* ================================================================== *)
(** * Computations: state and exceptions *)

(** The state a run threads: the history record under construction (a
    mutable object of the orchestrator, visible to its exception handler),
    the store and the trace of events so far. *)
Record State : Type :=
  { history_record : OrderClassificationRecord;
    db : Store;
    trace : list Event }.

(** A computation returns or raises an [Exception]. [Interrupted] stands
    for the end of the program on a [BaseException] that is not an
    [Exception] (an interrupt of the process), which the handlers of the
    module, written for [Exception], do not catch; no operation of the
    module ends that way of its own, and the lemmas on them say so. *)
Inductive Result (A : Type) : Type :=
| Ret (a : A)
| Raise (e : Exn)
| Interrupted.
Arguments Ret {A} a.
Arguments Raise {A} e.
Arguments Interrupted {A}.

Definition M (A : Type) : Type := State -> Result A * State.

Definition ret {A} (a : A) : M A := fun st => (Ret a, st).
Definition raise {A} (e : Exn) : M A := fun st => (Raise e, st).
Definition bind {A B} (c : M A) (k : A -> M B) : M B :=
  fun st =>
    match c st with
    | (Ret a, st') => k a st'
    | (Raise e, st') => (Raise e, st')
    | (Interrupted, st') => (Interrupted, st')
    end.

Notation "x <- c ;; k" := (bind c (fun x => k))
  (at level 61, c at next level, right associativity).
Notation "c ;;; k" := (bind c (fun _ => k))
  (at level 61, right associativity).

(** [try: c except Exception as error: handler(error)] *)
Definition try_except {A} (c : M A) (handler : Exn -> M A) : M A :=
  fun st =>
    match c st with
    | (Raise e, st') => handler e st'
    | other => other
    end.

Definition lift {A} (o : Outcome A) : M A :=
  match o with Returns a => ret a | Raises e => raise e end.

Definition emit (e : Event) : M unit :=
  fun st =>
    (Ret tt, {| history_record := history_record st; db := db st;
                trace := trace st ++ [e] |}).

(** An assignment to an attribute of [history_record]. *)
Definition assign (f : OrderClassificationRecord -> OrderClassificationRecord)
  : M unit :=
  fun st =>
    (Ret tt, {| history_record := f (history_record st); db := db st;
                trace := trace st |}).

Definition when_ (b : bool) (c : M unit) : M unit := if b then c else ret tt.

Definition count_events (p : Event -> bool) (t : list Event) : nat :=
  length (filter p t).

(* ================================================================== *)
(** * The module *)

Section Pipeline.

Context {I : Imports} (W : World).

Definition fstring (parts : list str) : str := concat parts.

(** [requests.get], [requests.post], [requests.put]: the request is sent
    (an event of the run) and the outside answers or the call raises. *)
Definition requests (m : Method) (url_ : str) (body : option PyVal)
    (headers_ : PyVal) : M Response :=
  fun st =>
    let k := count_events is_http (trace st) in
    let req :=
      {| method := m; url := url_; json_body := body; headers := headers_ |} in
    (emit (EvHttp req) ;;; lift (http W k req)) st.

(** [value[key]] on a decoded JSON value: [KeyError] on a dictionary without
    the key, [TypeError] on a value that is not a dictionary (messages of
    CPython 3.11). *)
Definition subscript (v : PyVal) (key : str) : M PyVal :=
  match v with
  | VDict items =>
      match find (fun kv => str_eqb (fst kv) key) items with
      | Some kv => ret (snd kv)
      | None => raise (OtherError (fstring [py "'"; key; py "'"]))
      end
  | VList _ =>
      raise (OtherError (py "list indices must be integers or slices, not str"))
  | VStr _ =>
      raise (OtherError (py "string indices must be integers, not 'str'"))
  | VNone => raise (OtherError (py "'NoneType' object is not subscriptable"))
  | VBool _ => raise (OtherError (py "'bool' object is not subscriptable"))
  | VInt _ => raise (OtherError (py "'int' object is not subscriptable"))
  end.

(** [auth_token] is [None] by default; the operations pass the value that
    [_get_auth_token] returned, which is [None] when the token of the
    response is the JSON [null]. *)
Definition _get_domyland_headers (auth_token : PyVal) : PyVal :=
  match auth_token with
  | VNone => VDict [(py "AppName", VStr DOMYLAND_APP_NAME)]
  | _ =>
      VDict [(py "AppName", VStr DOMYLAND_APP_NAME);
             (py "Authorization", auth_token)]
  end.

Definition _get_auth_token : M PyVal :=
  let req_body :=
    VDict [(py "email", VStr DOMYLAND_AUTH_EMAIL);
           (py "password", VStr DOMYLAND_AUTH_PASSWORD);
           (py "tenantName", VStr DOMYLAND_AUTH_TENANT_NAME)] in
  response <- requests POST (fstring [DOMYLAND_API_BASE_URL; py "/auth"])
                (Some req_body) (_get_domyland_headers VNone) ;;
  if negb (ok response) then
    raise (HTTPException (status_code response)
             (fstring [py "Domyland Auth: "; text response]))
  else
    response_data <- lift (json response) ;;
    auth_token <- subscript response_data (py "token") ;;
    ret auth_token.

Definition _get_order_details_by_id (order_id_ : Z) : M OrderDetails :=
  auth_token <- _get_auth_token ;;
  response <- requests GET
                (fstring [DOMYLAND_API_BASE_URL;
                          py "/initial-data/dispatcher/order-info/";
                          str_of_int order_id_])
                None (_get_domyland_headers auth_token) ;;
  response_data <- lift (json response) ;;
  if negb (ok response) then
    raise (HTTPException (status_code response)
             (fstring [py "OrderDetails GET: "; repr response_data]))
  else
    order_details_ <- lift (parse_order_details response_data) ;;
    ret order_details_.

(** The loop returns at the first address of the first unit that the order
    address contains, both in lower case. *)
Definition uds_matches (order_address_ : str) (uds_data : UDS.t) : bool :=
  existsb (fun uds_address => contains (lower uds_address) (lower order_address_))
    (UDS.address_list uds_data).

Fixpoint responsible_users_ids_in (uds_list : list UDS.t) (order_address_ : str)
  : option (list Z) :=
  match uds_list with
  | [] => None
  | uds_data :: rest =>
      let uds_user_id := UDS.user_id uds_data in
      if uds_matches order_address_ uds_data then Some [uds_user_id]
      else responsible_users_ids_in rest order_address_
  end.

Definition _get_responsible_users_ids_by_order_address (order_address_ : str)
  : option (list Z) :=
  responsible_users_ids_in RESPONSIBLE_UDS_LIST order_address_.

Definition _update_order_status_details
    (order_id_ responsible_dept_id order_status_id_ : Z)
    (responsible_users_ids inspector_users_ids : list Z)
  : M (PyVal * PyVal) :=
  auth_token <- _get_auth_token ;;
  let req_body :=
    VDict [(py "responsibleDeptId", VInt responsible_dept_id);
           (py "orderStatusId", VInt order_status_id_);
           (py "responsibleUserIds", VList (map VInt responsible_users_ids));
           (py "inspectorIds", VList (map VInt inspector_users_ids))] in
  response <- requests PUT
                (fstring [DOMYLAND_API_BASE_URL; py "/orders/";
                          str_of_int order_id_; py "/status"])
                (Some req_body) (_get_domyland_headers auth_token) ;;
  response_data <- lift (json response) ;;
  if negb (ok response) then
    raise (HTTPException (status_code response)
             (fstring [py "Order status UPDATE: "; repr response_data]))
  else ret (response_data, req_body).

Definition _send_message_to_internal_chat (order_id_ : Z) (message : str)
  : M (PyVal * PyVal) :=
  auth_token <- _get_auth_token ;;
  let req_body :=
    VDict [(py "orderId", VInt order_id_);
           (py "text", VStr message);
           (py "isImportant", VBool false)] in
  response <- requests POST
                (fstring [DOMYLAND_API_BASE_URL; py "/order-comments"])
                (Some req_body) (_get_domyland_headers auth_token) ;;
  response_data <- lift (json response) ;;
  if negb (ok response) then
    raise (HTTPException (status_code response)
             (fstring [py "Order internal chat POST: "; repr response_data]))
  else ret (response_data, req_body).

(** One attempt of the chain ([get_order_classification_chain] and
    [chain.run]), answered by the outside. *)
Definition run_chain (prompt client_ query : str) : M str :=
  fun st =>
    let k := count_events is_chain (trace st) in
    (emit (EvChain prompt client_ query) ;;;
     lift (chain_run W k prompt client_ query)) st.

Definition sleep (seconds : Z) : M unit := emit (EvSleep seconds).

(** The retry is a recursive call made inside the handler, so every
    rate-limit signal leaves one more frame on the stack and the recursion
    limit of the interpreter bounds the retries: [fuel] is the number of
    attempts the limit leaves room for when the engine is called. The call
    after the last of them raises [RecursionError], an [Exception] that no
    handler of the engine catches. *)
Fixpoint _get_order_emergency (fuel : nat) (prompt client_ query : str)
  : M str :=
  match fuel with
  | O => raise (OtherError RECURSION_ERROR_MESSAGE)
  | S fuel' =>
      try_except (run_chain prompt client_ query)
        (fun error =>
           match error with
           | RateLimitError _ =>
               sleep WAIT_TIME_IN_SEC ;;;
               _get_order_emergency fuel' prompt client_ query
           | _ => raise error
           end)
  end.

Definition find_saved (order_id_ : Z) (client_ : str)
  : M (option OrderClassificationRecord) :=
  fun st => (Ret (get_saved_record_by_order_id (db st) order_id_ client_), st).

Definition save (client_ : str) : M OrderClassificationRecord :=
  fun st =>
    let '(db', saved) :=
      save_order_classification_record (db st) (history_record st) client_ in
    (Ret saved,
     {| history_record := saved; db := db';
        trace := trace st ++ [EvSave (history_record st) client_] |}).

Definition str_of_opt_int (n : option Z) : str :=
  match n with Some i => str_of_int i | None => py "None" end.

(** [str(responsible_users_ids)] *)
Definition str_of_ids (ids : option (list Z)) : str :=
  match ids with
  | None => py "None"
  | Some l =>
      fstring [py "[";
               concat (match map str_of_int l with
                       | [] => []
                       | x :: xs => x :: map (fun y => py ", " ++ y) xs
                       end);
               py "]"]
  end.

(** [bool(s)] of a string *)
Definition nonempty (s : str) : bool :=
  match s with [] => false | _ => true end.

(** The last form field of type [TEXT] titled [COMMENT]. *)
Definition resident_comment (order_details_ : OrderDetails) : option str :=
  fold_left
    (fun order_query_ order_form =>
       if str_eqb (type order_form) TEXT && str_eqb (title order_form) COMMENT
       then value order_form else order_query_)
    (service_orderForm order_details_) None.

(** The last summary field titled [OBJECT]. *)
Definition resident_address (order_details_ : OrderDetails) : option str :=
  fold_left
    (fun order_address_ summary =>
       if str_eqb (title summary) OBJECT then value summary
       else order_address_)
    (order_summary order_details_) None.

Definition disabled_field_msg_of (user_id_ : Z) : str :=
  fstring [py "skipped by emergency classification config of user with ID ";
           str_of_int user_id_].

Definition already_classified_detail (order_id_ : Z)
    (saved_record : OrderClassificationRecord) : str :=
  fstring [py "Order with ID "; str_of_int order_id_;
           py " was already classified, history record ID ";
           str_of_opt_int (id saved_record)].

Definition wrong_status_detail (order_id_ order_status_id_ : Z) : str :=
  fstring [py "Order with ID "; str_of_int order_id_;
           py " has status ID "; str_of_int order_status_id_;
           py ", but status ID "; str_of_int PENDING; py " required"].

Definition no_uds_detail (order_id_ : Z) (address : str) : str :=
  fstring [py "Cannot find responsible UDS for order with ID ";
           str_of_int order_id_; py " and address '"; address; py "'"].

(** The body of the [try] statement of [get_emergency_class]. *)
Definition try_block (fuel : nat) (body : OrderClassificationRequest)
    (client_ : str) : M unit :=
  let order_id_ := orderId (data body) in
  let order_status_id_ := orderStatusId (data body) in
  (* Check if order was already classified *)
  saved_record <- find_saved order_id_ client_ ;;
  match saved_record with
  | Some saved =>
      raise (HTTPException HTTP_409_CONFLICT
               (already_classified_detail order_id_ saved))
  | None => ret tt
  end ;;;
  (* Check if order status is not "in progress" *)
  when_ (negb (order_status_id_ =? PENDING))
    (raise (HTTPException HTTP_400_BAD_REQUEST
              (wrong_status_detail order_id_ order_status_id_))) ;;;
  match get_default_config W client_ with
  | None =>
      raise (HTTPException HTTP_500_INTERNAL_SERVER_ERROR
               (fstring [py "Default order classification config (for user with ID ";
                         str_of_int DEFAULT_CONFIG_USER_ID; py " and client ";
                         client_; py ") not found"]))
  | Some order_classification_config =>
      let user_id_ := user_id order_classification_config in
      let is_use_emergency_classification_ :=
        is_use_emergency_classification order_classification_config in
      let is_use_order_updating_ :=
        is_use_order_updating order_classification_config
        && is_use_emergency_classification_ in
      let disabled_field_msg := disabled_field_msg_of user_id_ in
      (* Check if order is new (created) *)
      when_ is_use_emergency_classification_
        (when_ (negb (alertTypeId body =? NEW_ORDER))
           (raise (HTTPException HTTP_400_BAD_REQUEST
                     (fstring [py "Order with ID "; str_of_int order_id_;
                               py " has alert type ID ";
                               str_of_int (alertTypeId body);
                               py ", but status ID "; str_of_int NEW_ORDER;
                               py " required"])))) ;;;
      (* Get order details *)
      order_details_ <- _get_order_details_by_id order_id_ ;;
      assign (set_order_details (Some order_details_)) ;;;
      (* Get resident comment *)
      let order_query_ := resident_comment order_details_ in
      assign (set_order_query order_query_) ;;;
      when_ is_use_emergency_classification_
        (let is_order_query_exists :=
           match order_query_ with Some _ => true | None => false end in
         let is_order_query_empty :=
           match order_query_ with
           | Some q => negb (nonempty (strip q))
           | None => false
           end in
         when_ (negb is_order_query_exists || is_order_query_empty)
           (raise (HTTPException HTTP_422_UNPROCESSABLE_ENTITY
                     (fstring [py "Order with ID "; str_of_int order_id_;
                               py " has no comment, cannot classify emergency"])))) ;;;
      (* Get resident address *)
      let order_address_ := resident_address order_details_ in
      assign (set_order_address order_address_) ;;;
      when_ is_use_emergency_classification_
        (let is_order_address_exists :=
           match order_address_ with Some _ => true | None => false end in
         let is_order_address_empty :=
           match order_address_ with
           | Some a => negb (nonempty (strip a))
           | None => false
           end in
         when_ (negb is_order_address_exists || is_order_address_empty)
           (raise (HTTPException HTTP_422_UNPROCESSABLE_ENTITY
                     (fstring [py "Order with ID "; str_of_int order_id_;
                               py " has no address, cannot find responsible UDS"])))) ;;;
      (* Run LLM to classify order *)
      order_emergency_ <-
        (if is_use_emergency_classification_ then
           match order_query_ with
           | Some q =>
               let normalized_query := _normalize_resident_request_string q in
               assign (set_order_normalized_query (Some normalized_query)) ;;;
               let prompt := emergency_prompt order_classification_config in
               _get_order_emergency fuel prompt client_ normalized_query
           | None =>
               (* not reached: the comment gate has raised *)
               raise (OtherError
                        (py "'NoneType' object has no attribute 'replace'"))
           end
         else ret disabled_field_msg) ;;
      assign (set_order_emergency (Some order_emergency_)) ;;;
      let is_emergency_ :=
        if is_use_emergency_classification_
        then Some (str_eqb (strip (lower order_emergency_)) EMERGENCY_LABEL)
        else None in
      assign (set_is_emergency is_emergency_) ;;;
      (* Update order emergency class in Domyland *)
      when_ (match is_emergency_ with Some b => b | None => false end
             && is_use_emergency_classification_)
        (match order_address_ with
         | Some address =>
             let responsible_users_ids :=
               _get_responsible_users_ids_by_order_address address in
             assign (set_uds_id (Some (str_of_ids responsible_users_ids))) ;;;
             match responsible_users_ids with
             | None =>
                 raise (HTTPException HTTP_501_NOT_IMPLEMENTED
                          (no_uds_detail order_id_ address))
             | Some ids =>
                 update <-
                   (if is_use_order_updating_ then
                      update <- _update_order_status_details order_id_
                                  RESPONSIBLE_DEPT_ID IN_PROGRESS ids [AI_USER_ID] ;;
                      (* Mark order as processed by AI *)
                      _send_message_to_internal_chat order_id_
                        ORDER_PROCESSED_BY_AI_MESSAGE ;;;
                      ret update
                    else
                      ret (VDict [(py "result", VStr disabled_field_msg)],
                           VDict [(py "result", VStr disabled_field_msg)])) ;;
                 let '(response, request_body) := update in
                 assign (set_order_update_request (Some request_body)) ;;;
                 assign (set_order_update_response (Some response))
             end
         | None =>
             (* not reached: the address gate has raised *)
             raise (OtherError (py "'NoneType' object has no attribute 'lower'"))
         end)
  end.

(** [error.detail] of an [HTTPException], [str(error)] of any other. *)
Definition message (error : Exn) : str :=
  match error with
  | HTTPException _ detail => detail
  | RateLimitError msg => msg
  | OtherError msg => msg
  end.

Definition except_handler (error : Exn) : M unit :=
  assign (set_is_error true) ;;;
  assign (set_comment (Some (message error))).

Definition new_record (body : OrderClassificationRequest)
  : OrderClassificationRecord :=
  {| id := None; client := None;
     alert_id := alertId body;
     alert_type_id := alertTypeId body;
     alert_timestamp := timestamp body;
     order_id := orderId (data body);
     order_status_id := orderStatusId (data body);
     order_details := None; order_query := None; order_address := None;
     order_normalized_query := None; order_emergency := None;
     is_emergency := None; uds_id := None;
     order_update_request := None; order_update_response := None;
     is_error := false; comment := None |}.

Definition initial_state (body : OrderClassificationRequest) (db_ : Store)
  : State :=
  {| history_record := new_record body; db := db_; trace := [] |}.

(** [get_emergency_class(body, client)] run on a store: what it returns or
    raises, and the state it leaves (the store and the events of the run). *)
Definition get_emergency_class (fuel : nat) (body : OrderClassificationRequest)
    (client_ : str) (db_ : Store) : Result OrderClassificationRecord * State :=
  (try_except (try_block fuel body client_) except_handler ;;;
   save client_) (initial_state body db_).

End Pipeline.

(* ================================================================== *)
(** * Further functions of the repository *)

(** ** The helpers of the order module that the orchestrator does not call *)

Section OtherHelpers.

Context {I : Imports} (W : World).

(** [_update_order_emergency_status]; [order_data] holds the dictionaries
    [data.dict()] of the form updates. *)
Definition _update_order_emergency_status
    (order_id_ customer_id place_id event_id building_id : Z)
    (order_data : list PyVal) : M (PyVal * PyVal) :=
  auth_token <- _get_auth_token W ;;
  let order_data_dict := order_data in
  let req_body :=
    VDict [(py "customerId", VInt customer_id);
           (py "placeId", VInt place_id);
           (py "eventId", VInt event_id);
           (py "buildingId", VInt building_id);
           (py "orderData", VList order_data_dict);
           (py "serviceTypeId", VInt 1)] in
  response <- requests W PUT
                (fstring [DOMYLAND_API_BASE_URL; py "/orders/";
                          str_of_int order_id_])
                (Some req_body) (_get_domyland_headers auth_token) ;;
  response_data <- lift (json response) ;;
  if negb (ok response) then
    raise (HTTPException (status_code response)
             (fstring [py "Order UPDATE: "; repr response_data]))
  else ret (response_data, req_body).

Definition _get_order_status_details (order_id_ : Z) : M PyVal :=
  auth_token <- _get_auth_token W ;;
  response <- requests W GET
                (fstring [DOMYLAND_API_BASE_URL; py "/orders/";
                          str_of_int order_id_; py "/status"])
                None (_get_domyland_headers auth_token) ;;
  response_data <- lift (json response) ;;
  if negb (ok response) then
    raise (HTTPException (status_code response)
             (fstring [py "Order status GET: "; repr response_data]))
  else ret response_data.

End OtherHelpers.

(** ** [model/ner/ner.py]: [HTTP_NER.predict] *)

(** The object's private fields. *)
Record HTTP_NER : Type := { ner_url : str; ner_k : Z; ner_timeout : Z }.

(** [range(0, stop, step)] for [stop >= 0]: [ValueError] on a zero step, no
    index on a negative one. *)
Definition range_from_zero (stop step : Z) : Outcome (list Z) :=
  if step =? 0 then Raises (OtherError (py "range() arg 3 must not be zero"))
  else if step <? 0 then Returns []
  else Returns (map (fun j => Z.of_nat j * step)
                  (seq 0 (Z.to_nat ((stop + step - 1) / step)))).

(** [l[i:j]] for bounds that are not negative. *)
Definition slice {A} (l : list A) (i j : Z) : list A :=
  firstn (Z.to_nat (j - i)) (skipn (Z.to_nat i) l).

(** What [list.extend] iterates over: the items of a list, the characters
    of a string, the keys of a dictionary; [None] where the value is not
    iterable. *)
Definition iterate (v : PyVal) : option (list PyVal) :=
  match v with
  | VList l => Some l
  | VStr s => Some (map (fun c => VStr [c]) s)
  | VDict items => Some (map (fun kv => VStr (fst kv)) items)
  | _ => None
  end.

Section Ner.

(** [self.__client.post(url, json=body, timeout=timeout)], answered by the
    NER service at the [k]-th request of a call of [predict]. *)
Variable post : nat -> str -> PyVal -> Z -> Outcome Response.

(** The body of the [try] statement: the brands the list is extended with,
    or the exception the handler swallows. *)
Definition ner_chunk (self : HTTP_NER) (calls : nat) (noms_chunk : list str)
  : Outcome (list PyVal) :=
  let body := VDict [(py "nomenclatures", VList (map VStr noms_chunk))] in
  match post calls (ner_url self) body (ner_timeout self) with
  | Raises e => Raises e
  | Returns response =>
      match json response with
      | Raises e => Raises e
      | Returns response_json =>
          match response_json with
          | VDict items =>
              match find (fun kv => str_eqb (fst kv) (py "brands")) items with
              | Some kv =>
                  match iterate (snd kv) with
                  | Some response_brands => Returns response_brands
                  | None => Raises (OtherError (py "object is not iterable"))
                  end
              | None => Raises (OtherError (py "'brands'"))
              end
          | _ => Raises (OtherError (py "object is not subscriptable"))
          end
      end
  end.

(** The loop over the chunk starts [indices]; it carries the list built so
    far and the request bodies sent so far, the nomenclatures of each. *)
Fixpoint ner_loop (self : HTTP_NER) (nomenclatures : list str)
    (noms_chunk_size : Z) (indices : list Z)
    (noms_brands_list : list PyVal) (sent : list (list str))
  : list PyVal * list (list str) :=
  match indices with
  | [] => (noms_brands_list, sent)
  | i :: rest =>
      let noms_chunk := slice nomenclatures i noms_chunk_size in
      if (length noms_chunk =? 0)%nat then (noms_brands_list, sent)
      else
        match ner_chunk self (length sent) noms_chunk with
        | Returns response_brands =>
            ner_loop self nomenclatures noms_chunk_size rest
              (noms_brands_list ++ response_brands) (sent ++ [noms_chunk])
        | Raises _ =>
            ner_loop self nomenclatures noms_chunk_size rest
              noms_brands_list (sent ++ [noms_chunk])
        end
  end.

(** [predict]: the list it returns or the exception it raises, and the
    chunks it has sent. *)
Definition predict (self : HTTP_NER) (nomenclatures : list str)
  : Outcome (list PyVal) * list (list str) :=
  let nomenclatures_count := Z.of_nat (length nomenclatures) in
  if ner_k self =? 0 then
    (Raises (OtherError (py "integer division or modulo by zero")), [])
  else
    let noms_chunk_size := nomenclatures_count / ner_k self + 1 in
    match range_from_zero nomenclatures_count noms_chunk_size with
    | Raises e => (Raises e, [])
    | Returns indices =>
        let '(noms_brands_list, sent) :=
          ner_loop self nomenclatures noms_chunk_size indices [] [] in
        (Returns noms_brands_list, sent)
    end.

End Ner.

(** ** [datastep_similar_queries.py]: [parse_similar_queries] *)

(** [s.split(sep)] for a separator of one character. *)
Fixpoint split_char (sep : Z) (s : str) : list str :=
  match s with
  | [] => [[]]
  | c :: s' =>
      if c =? sep then [] :: split_char sep s'
      else match split_char sep s' with
           | q :: qs => (c :: q) :: qs
           | [] => [[c]]
           end
  end.

Definition parse_similar_queries (similar_queries : str) : list str :=
  map (fun q => skipn 3 q) (split_char LF similar_queries).

(* ================================================================== *)
(** * A concrete deployment *)

(** [str.lower] on the Basic Latin, Latin-1, Greek and Cyrillic capitals (the
    scripts of the data); other code points are left as they are. *)
Definition lower_char (c : Z) : Z :=
  if (65 <=? c) && (c <=? 90) then c + 32
  else if (192 <=? c) && (c <=? 222) && negb (c =? 215) then c + 32
  else if (913 <=? c) && (c <=? 939) && negb (c =? 930) then c + 32
  else if (1024 <=? c) && (c <=? 1039) then c + 80
  else if (1040 <=? c) && (c <=? 1071) then c + 32
  else c.

Definition sample_lower (s : str) : str := map lower_char s.

(** A printer of decoded JSON values in the style of [repr] (strings are
    quoted without escapes). *)
Fixpoint sample_repr (v : PyVal) : str :=
  let commas :=
    fix commas (l : list str) : str :=
      match l with
      | [] => []
      | [x] => x
      | x :: xs => x ++ py ", " ++ commas xs
      end in
  match v with
  | VNone => py "None"
  | VBool true => py "True"
  | VBool false => py "False"
  | VInt n => str_of_int n
  | VStr s => py "'" ++ s ++ py "'"
  | VList l => py "[" ++ commas (map sample_repr l) ++ py "]"
  | VDict items =>
      py "{" ++
      commas (map (fun kv => py "'" ++ fst kv ++ py "': " ++ sample_repr (snd kv))
                items)
      ++ py "}"
  end.

Definition dict_get (key : str) (v : PyVal) : option PyVal :=
  match v with
  | VDict items =>
      option_map snd (find (fun kv => str_eqb (fst kv) key) items)
  | _ => None
  end.

Definition str_field (key : str) (v : PyVal) : option str :=
  match dict_get key v with Some (VStr s) => Some s | _ => None end.

Definition sample_parse_form (v : PyVal) : OrderForm :=
  {| type := match str_field (py "type") v with Some s => s | None => [] end;
     title := match str_field (py "title") v with Some s => s | None => [] end;
     value := str_field (py "value") v |}.

Definition list_field (key : str) (v : option PyVal) : option (list PyVal) :=
  match v with
  | Some d => match dict_get key d with Some (VList l) => Some l | _ => None end
  | None => None
  end.

(** The two lists the orchestrator reads, taken from a decoded
    [{"service": {"orderForm": [...]}, "order": {"summary": [...]}}]. *)
Definition sample_parse_order_details (v : PyVal) : Outcome OrderDetails :=
  match list_field (py "orderForm") (dict_get (py "service") v),
        list_field (py "summary") (dict_get (py "order") v) with
  | Some forms, Some summary =>
      Returns {| service_orderForm := map sample_parse_form forms;
                 order_summary := map sample_parse_form summary |}
  | _, _ => Raises (OtherError (py "validation error for OrderDetails"))
  end.

Definition sample_imports (uds_list : list UDS.t) : Imports :=
  {| lower := sample_lower;
     repr := sample_repr;
     DOMYLAND_AUTH_EMAIL := py "ai@datastep";
     DOMYLAND_AUTH_PASSWORD := py "secret";
     DOMYLAND_AUTH_TENANT_NAME := py "vysota";
     RESPONSIBLE_UDS_LIST := uds_list;
     PENDING := 1;
     IN_PROGRESS := 2;
     NEW_ORDER := 1;
     TEXT := py "text";
     COMMENT := py "Комментарий";
     OBJECT := py "Объект";
     parse_order_details := sample_parse_order_details;
     DEFAULT_CONFIG_USER_ID := 1;
     RECURSION_ERROR_MESSAGE :=
       py "maximum recursion depth exceeded while calling a Python object" |}.

Definition sample_uds : list UDS.t :=
  [ {| UDS.user_id := 7; UDS.address_list := [py "ленина"] |} ].

Definition ok_response (body : PyVal) : Outcome Response :=
  Returns {| ok := true; status_code := 200; text := []; json := Returns body |}.

Definition failed_response (code : Z) (body : PyVal) : Outcome Response :=
  Returns {| ok := false; status_code := code; text := sample_repr body;
             json := Returns body |}.

Definition sample_order_details : PyVal :=
  VDict
    [(py "service",
      VDict [(py "orderForm",
              VList [VDict [(py "type", VStr (py "text"));
                            (py "title", VStr (py "Комментарий"));
                            (py "value", VStr (py "Труба течет, срочно!"))]])]);
     (py "order",
      VDict [(py "summary",
              VList [VDict [(py "title", VStr (py "Объект"));
                            (py "value", VStr (py "ул. Ленина 5"))]])])].

(** An order-management system that answers every request: a token to
    [/auth], the sample order to a [GET], an empty object to the rest;
    [broken k] makes the [k]-th request of a run fail with status 500. *)
Definition sample_http (broken : nat -> bool) (k : nat) (req : HttpRequest)
  : Outcome Response :=
  if broken k then failed_response 500 (VDict [(py "error", VStr (py "down"))])
  else if str_eqb (url req) (DOMYLAND_API_BASE_URL ++ py "/auth")
  then ok_response (VDict [(py "token", VStr (py "t0k3n"))])
  else match method req with
       | GET => ok_response sample_order_details
       | _ => ok_response (VDict [])
       end.

(** A chain that signals the rate limit on the first [limited] attempts and
    then answers [label]. *)
Definition sample_chain (limited : nat) (label : str) (k : nat)
    (prompt client_ query : str) : Outcome str :=
  if (k <? limited)%nat then Raises (RateLimitError (py "Rate limit reached"))
  else Returns label.

Definition sample_config (classify update : bool) : OrderClassificationConfig :=
  {| user_id := 1;
     is_use_emergency_classification := classify;
     is_use_order_updating := update;
     emergency_prompt := py "Классифицируй заявку: {query}" |}.

Definition sample_world (broken : nat -> bool) (limited : nat) (label : str)
    (classify update : bool) : World :=
  {| http := sample_http broken;
     chain_run := sample_chain limited label;
     get_default_config := fun _ => Some (sample_config classify update) |}.

Definition sample_request (status : Z) : OrderClassificationRequest :=
  {| alertId := py "a-1"; alertTypeId := 1; timestamp := 1700000000;
     data := {| orderId := 42; orderStatusId := status |} |}.

Definition never : nat -> bool := fun _ => false.
Definition only (n : nat) : nat -> bool := Nat.eqb n.

Definition sample_client : str := py "vysota".

(** The order details of the sample order, as the lookup returns them. *)
Definition sample_details : OrderDetails :=
  {| service_orderForm :=
       [{| type := py "text"; title := py "Комментарий";
           value := Some (py "Труба течет, срочно!") |}];
     order_summary :=
       [{| type := []; title := py "Объект";
           value := Some (py "ул. Ленина 5") |}] |}.

Definition sample_comment : str := py "Труба течет, срочно!".
Definition sample_address : str := py "ул. Ленина 5".

(** The record a run returns, if it returns one. *)
Definition returned (run : Result OrderClassificationRecord * State)
  : option OrderClassificationRecord :=
  match fst run with Ret r => Some r | _ => None end.

(** A record of order 42 that the store already holds for the client. *)
Definition sample_saved : OrderClassificationRecord :=
  set_id (Some 1) (set_client (Some sample_client) (new_record (sample_request 1))).

(** A state that has [k] HTTP requests behind it. *)
Definition after_requests (k : nat) : State :=
  {| history_record := new_record (sample_request 1); db := [];
     trace := repeat (EvHttp {| method := GET; url := []; json_body := None;
                                headers := VNone |}) k |}.

(** ** Further deployments *)

(** A request for order 42, in status 1, with the given alert type. *)
Definition sample_alert (alert_type : Z) : OrderClassificationRequest :=
  {| alertId := py "a-1"; alertTypeId := alert_type; timestamp := 1700000000;
     data := {| orderId := 42; orderStatusId := 1 |} |}.

(** An order with the given comment and address. *)
Definition sample_order_with (comment_ address : PyVal) : PyVal :=
  VDict
    [(py "service",
      VDict [(py "orderForm",
              VList [VDict [(py "type", VStr (py "text"));
                            (py "title", VStr (py "Комментарий"));
                            (py "value", comment_)]])]);
     (py "order",
      VDict [(py "summary",
              VList [VDict [(py "title", VStr (py "Объект"));
                            (py "value", address)]])])].

(** An order-management system that serves [order] to every lookup. *)
Definition sample_http_serving (order : PyVal) (k : nat) (req : HttpRequest)
  : Outcome Response :=
  if str_eqb (url req) (DOMYLAND_API_BASE_URL ++ py "/auth")
  then ok_response (VDict [(py "token", VStr (py "t0k3n"))])
  else match method req with
       | GET => ok_response order
       | _ => ok_response (VDict [])
       end.

Definition sample_world_serving (order : PyVal) : World :=
  {| http := sample_http_serving order;
     chain_run := sample_chain 0 EMERGENCY_LABEL;
     get_default_config := fun _ => Some (sample_config true true) |}.

(** A deployment where the client has no default configuration. *)
Definition sample_world_unconfigured : World :=
  {| http := sample_http never;
     chain_run := sample_chain 0 EMERGENCY_LABEL;
     get_default_config := fun _ => None |}.

(** A gateway in front of the order-management system answers the second
    request of a run with an HTML error page. *)
Definition gateway_error : Response :=
  {| ok := false; status_code := 502;
     text := py "<html>Bad Gateway</html>";
     json := Raises (OtherError
                       (py "Expecting value: line 1 column 1 (char 0)")) |}.

Definition sample_world_gateway : World :=
  {| http := fun k req =>
               if (k =? 1)%nat then Returns gateway_error
               else sample_http never k req;
     chain_run := sample_chain 0 EMERGENCY_LABEL;
     get_default_config := fun _ => Some (sample_config true true) |}.

(** A NER service that finds one brand in every nomenclature it is sent. *)
Definition sample_ner_post (calls : nat) (url_ : str) (body : PyVal)
    (timeout : Z) : Outcome Response :=
  match dict_get (py "nomenclatures") body with
  | Some (VList noms) =>
      ok_response (VDict [(py "brands", VList (map (fun _ => VStr (py "Bosch")) noms))])
  | _ => Raises (OtherError (py "bad request"))
  end.

Definition sample_ner (k : Z) : HTTP_NER :=
  {| ner_url := py "http://ner/predict"; ner_k := k; ner_timeout := 100 |}.

(* ================================================================== *)
(** * The vocabulary of the statements *)

(** Every whitespace character of [s] is a single space that follows a
    character that is not whitespace ([after_space]: the character before [s]
    was whitespace). *)
Fixpoint single_spaced (after_space : bool) (s : str) : bool :=
  match s with
  | [] => true
  | c :: s' =>
      if isspace c then (c =? SP) && negb after_space && single_spaced true s'
      else single_spaced false s'
  end.

(** Some suffix of [s] starts with a match of [http\S+]. *)
Fixpoint has_url (s : str) : bool :=
  match s with
  | [] => false
  | _ :: s' => url_at s || has_url s'
  end.

(** The unit is responsible for the address: one of its address substrings,
    in lower case, occurs in the address in lower case. *)
Definition covers {I : Imports} (uds_data : UDS.t) (order_address_ : str) : Prop :=
  exists uds_address,
    In uds_address (UDS.address_list uds_data)
    /\ contains (lower uds_address) (lower order_address_) = true.

(** The state after further events. *)
Definition extend (st : State) (evs : list Event) : State :=
  {| history_record := history_record st; db := db st;
     trace := trace st ++ evs |}.

Definition to_result {A} (o : Outcome A) : Result A :=
  match o with Returns a => Ret a | Raises e => Raise e end.

Definition is_rate_limit {A} (o : Outcome A) : bool :=
  match o with Raises (RateLimitError _) => true | _ => false end.

(** [n] attempts that each end in a wait of [WAIT_TIME_IN_SEC] seconds. *)
Fixpoint retries (n : nat) (prompt client_ query : str) : list Event :=
  match n with
  | O => []
  | S n' =>
      EvChain prompt client_ query :: EvSleep WAIT_TIME_IN_SEC
      :: retries n' prompt client_ query
  end.


(** From attempt [base] on, the chain signals the rate limit [n] times in a
    row. *)
Definition rate_limited (W : World) (base n : nat) (prompt client_ query : str)
  : Prop :=
  forall i, (i < n)%nat ->
    exists msg, chain_run W (base + i) prompt client_ query
                = Raises (RateLimitError msg).

(** The record as the store keeps it when it is saved for the first time. *)
Definition stored (db_ : Store) (client_ : str) (r : OrderClassificationRecord)
  : OrderClassificationRecord :=
  set_id (Some (next_id db_)) (set_client (Some client_) r).

(** The record the exception handler leaves for [error]. *)
Definition failed (error : Exn) (r : OrderClassificationRecord)
  : OrderClassificationRecord :=
  set_comment (Some (message error)) (set_is_error true r).

(** An HTTP request that is not one of the two update calls. *)
Definition read_only (e : Event) : bool := is_http e && negb (is_update_call e).

(** [c] touches neither the history record nor the store, returns or
    raises, all its events satisfy [P], and it makes exactly [n] of them when
    it returns. *)
Definition Frame {A} (P : Event -> bool) (n : nat) (c : M A) : Prop :=
  forall st, exists res evs,
    c st = (res, extend st evs) /\ res <> Interrupted /\ forallb P evs = true
    /\ (forall a, res = Ret a -> length evs = n).

(** The run passes every gate with classification enabled: the order is new
    to the store and [PENDING], the client has the configuration [cfg] with
    classification on, the alert is [NEW_ORDER], the order lookup returns
    [d], whose comment [q] and address [a] are not blank, and the chain
    answers [label] after [n] rate-limit signals, fewer than the [fuel]
    attempts the recursion limit leaves room for. *)
Definition Classified {I : Imports} (W : World) (fuel : nat)
    (body : OrderClassificationRequest) (client_ : str) (db_ : Store)
    (cfg : OrderClassificationConfig) (d : OrderDetails) (q a : str)
    (n : nat) (label : str) : Prop :=
  get_saved_record_by_order_id db_ (orderId (data body)) client_ = None
  /\ orderStatusId (data body) = PENDING
  /\ get_default_config W client_ = Some cfg
  /\ is_use_emergency_classification cfg = true
  /\ alertTypeId body = NEW_ORDER
  /\ fst (_get_order_details_by_id W (orderId (data body))
            (initial_state body db_)) = Ret d
  /\ resident_comment d = Some q /\ nonempty (strip q) = true
  /\ resident_address d = Some a /\ nonempty (strip a) = true
  /\ rate_limited W 0 n (emergency_prompt cfg) client_
       (_normalize_resident_request_string q)
  /\ chain_run W n (emergency_prompt cfg) client_
       (_normalize_resident_request_string q) = Returns label
  /\ (n < fuel)%nat.

(** The record when the classifier has answered. *)
Definition classified_record (body : OrderClassificationRequest)
    (d : OrderDetails) (q a label : str) (b : bool)
  : OrderClassificationRecord :=
  set_is_emergency (Some b)
    (set_order_emergency (Some label)
       (set_order_normalized_query (Some (_normalize_resident_request_string q))
          (set_order_address (Some a)
             (set_order_query (Some q)
                (set_order_details (Some d) (new_record body)))))).

Definition skipped_by_config (cfg : OrderClassificationConfig) : PyVal :=
  VDict [(py "result", VStr (disabled_field_msg_of (user_id cfg)))].

(** The chain never signals the rate limit [fuel] times in a row: from any
    attempt on, fewer than [fuel] signals precede an answer or another
    failure. *)
Definition chain_bounded (W : World) (fuel : nat) : Prop :=
  forall prompt client_ query base,
    exists n, (n < fuel)%nat
              /\ rate_limited W base n prompt client_ query
              /\ is_rate_limit (chain_run W (base + n) prompt client_ query)
                 = false.

(** [c] returns or raises, leaves the store alone, makes only events
    that satisfy [P] and keeps [Q] of the history record. *)
Definition Spec {A} (P : Event -> bool)
    (Q : OrderClassificationRecord -> Prop) (c : M A) : Prop :=
  forall st, Q (history_record st) ->
    exists res st' evs,
      c st = (res, st') /\ res <> Interrupted /\ db st' = db st
      /\ trace st' = trace st ++ evs /\ forallb P evs = true
      /\ Q (history_record st').

Definition not_save (e : Event) : bool := negb (is_save e).


(** Two outsides that differ at most in the chain. *)
Definition same_outside (W W' : World) : Prop :=
  (forall k req, http W k req = http W' k req)
  /\ (forall c, get_default_config W c = get_default_config W' c).

(** [c] and [c'] do the same from states with the same number of HTTP
    requests behind them: same result, same events, all of them HTTP
    requests. *)
Definition Uniform {A} (c c' : M A) : Prop :=
  forall st st',
    count_events is_http (trace st) = count_events is_http (trace st') ->
    exists res evs,
      c st = (res, extend st evs) /\ c' st' = (res, extend st' evs)
      /\ res <> Interrupted /\ forallb is_http evs = true.





(** ** Contracts of the operations on the order-management system *)

(** The request an operation sends once it holds [token]. *)
Definition authorized_request {I : Imports} (m : Method) (url_ : str)
    (body : option PyVal) (token : PyVal) : HttpRequest :=
  {| method := m; url := url_; json_body := body;
     headers := _get_domyland_headers token |}.

(** The shape the five operations share: authenticate, send one request
    with the token, decode the body, refuse a response that is not ok, and
    [finish] with the decoded body. *)
Definition operation {I : Imports} (W : World) {A} (m : Method) (url_ : str)
    (body : option PyVal) (prefix : str) (finish : PyVal -> M A) : M A :=
  auth_token <- _get_auth_token W ;;
  response <- requests W m url_ body (_get_domyland_headers auth_token) ;;
  response_data <- lift (json response) ;;
  if negb (ok response) then
    raise (HTTPException (status_code response)
             (fstring [prefix; repr response_data]))
  else finish response_data.

(** A failed authentication is the failure of [c], and nothing more is
    sent. *)
Definition AuthFirst {I : Imports} (W : World) {A} (c : M A) : Prop :=
  forall st e st1,
    _get_auth_token W st = (Raise e, st1) -> c st = (Raise e, st1).

(** After an authentication that returns a token, [c] calls the HTTP client
    exactly once more, whatever comes of it, with the given method, URL and
    body: with the token as the [Authorization] header when the token is a
    string, and with the [AppName] header alone when it is [None] (the token
    of the response was the JSON [null]). *)
Definition SendsWithToken {I : Imports} (W : World) {A} (c : M A)
    (m : Method) (url_ : str) (body : option PyVal) : Prop :=
  forall st token st1,
    _get_auth_token W st = (Ret token, st1) ->
    (forall t, token = VStr t ->
       trace (snd (c st))
       = trace st1
         ++ [EvHttp {| method := m; url := url_; json_body := body;
                       headers :=
                         VDict [(py "AppName", VStr DOMYLAND_APP_NAME);
                                (py "Authorization", VStr t)] |}])
    /\ (token = VNone ->
        trace (snd (c st))
        = trace st1
          ++ [EvHttp {| method := m; url := url_; json_body := body;
                        headers :=
                          VDict [(py "AppName", VStr DOMYLAND_APP_NAME)] |}]).

(** When the body of the response does not decode, [c] raises the decoding
    error, whether the response is ok or not. *)
Definition DecodesFirst {I : Imports} (W : World) {A} (c : M A)
    (m : Method) (url_ : str) (body : option PyVal) : Prop :=
  forall st token st1 r e,
    _get_auth_token W st = (Ret token, st1) ->
    http W (count_events is_http (trace st1))
      (authorized_request m url_ body token) = Returns r ->
    json r = Raises e ->
    fst (c st) = Raise e.

(** When the response is not ok and its body decodes to [v], [c] raises an
    [HTTPException] with the status code of the response and [prefix]
    followed by [v] as detail. *)
Definition ReportsStatus {I : Imports} (W : World) {A} (c : M A)
    (m : Method) (url_ : str) (body : option PyVal) (prefix : str) : Prop :=
  forall st token st1 r v,
    _get_auth_token W st = (Ret token, st1) ->
    http W (count_events is_http (trace st1))
      (authorized_request m url_ body token) = Returns r ->
    json r = Returns v -> ok r = false ->
    fst (c st)
    = Raise (HTTPException (status_code r) (fstring [prefix; repr v])).

(** A contract that each of the five operations keeps, with the method,
    the URL, the body and the detail prefix of its own request. *)
Definition each_operation {I : Imports} (W : World)
    (contract : forall A, M A -> Method -> str -> option PyVal -> str -> Prop)
  : Prop :=
  (forall order_id_,
      contract _ (_get_order_details_by_id W order_id_) GET
        (fstring [DOMYLAND_API_BASE_URL;
                  py "/initial-data/dispatcher/order-info/";
                  str_of_int order_id_])
        None (py "OrderDetails GET: "))
  /\ (forall order_id_ customer_id place_id event_id building_id order_data,
         contract _
           (_update_order_emergency_status W order_id_ customer_id place_id
              event_id building_id order_data) PUT
           (fstring [DOMYLAND_API_BASE_URL; py "/orders/";
                     str_of_int order_id_])
           (Some (VDict [(py "customerId", VInt customer_id);
                         (py "placeId", VInt place_id);
                         (py "eventId", VInt event_id);
                         (py "buildingId", VInt building_id);
                         (py "orderData", VList order_data);
                         (py "serviceTypeId", VInt 1)]))
           (py "Order UPDATE: "))
  /\ (forall order_id_,
         contract _ (_get_order_status_details W order_id_) GET
           (fstring [DOMYLAND_API_BASE_URL; py "/orders/";
                     str_of_int order_id_; py "/status"])
           None (py "Order status GET: "))
  /\ (forall order_id_ responsible_dept_id order_status_id_
             responsible_users_ids inspector_users_ids,
         contract _
           (_update_order_status_details W order_id_ responsible_dept_id
              order_status_id_ responsible_users_ids inspector_users_ids) PUT
           (fstring [DOMYLAND_API_BASE_URL; py "/orders/";
                     str_of_int order_id_; py "/status"])
           (Some (VDict [(py "responsibleDeptId", VInt responsible_dept_id);
                         (py "orderStatusId", VInt order_status_id_);
                         (py "responsibleUserIds",
                          VList (map VInt responsible_users_ids));
                         (py "inspectorIds",
                          VList (map VInt inspector_users_ids))]))
           (py "Order status UPDATE: "))
  /\ (forall order_id_ msg,
         contract _ (_send_message_to_internal_chat W order_id_ msg) POST
           (fstring [DOMYLAND_API_BASE_URL; py "/order-comments"])
           (Some (VDict [(py "orderId", VInt order_id_);
                         (py "text", VStr msg);
                         (py "isImportant", VBool false)]))
           (py "Order internal chat POST: ")).

(** The request of [_get_auth_token]. *)
Definition auth_request {I : Imports} : HttpRequest :=
  {| method := POST;
     url := fstring [DOMYLAND_API_BASE_URL; py "/auth"];
     json_body :=
       Some (VDict [(py "email", VStr DOMYLAND_AUTH_EMAIL);
                    (py "password", VStr DOMYLAND_AUTH_PASSWORD);
                    (py "tenantName", VStr DOMYLAND_AUTH_TENANT_NAME)]);
     headers := VDict [(py "AppName", VStr DOMYLAND_APP_NAME)] |}.

(** The record is the one of the request [body], not yet saved: it has no
    identifier and no client, and the alert and order fields of [body]. *)
Definition of_request (body : OrderClassificationRequest)
    (r : OrderClassificationRecord) : Prop :=
  id r = None /\ client r = None
  /\ alert_id r = alertId body
  /\ alert_type_id r = alertTypeId body
  /\ alert_timestamp r = timestamp body
  /\ order_id r = orderId (data body)
  /\ order_status_id r = orderStatusId (data body).

(** [c] adds at most [n] events that satisfy [p] to the trace, however it
    ends. *)
Definition Sends {A} (n : nat) (p : Event -> bool) (c : M A) : Prop :=
  forall st,
    (count_events p (trace (snd (c st))) <= count_events p (trace st) + n)%nat.

(** [sep.join(l)] for a separator of one character. *)
Fixpoint join_char (sep : Z) (l : list str) : str :=
  match l with
  | [] => []
  | [q] => q
  | q :: qs => q ++ sep :: join_char sep qs
  end.

(** A numbered line: a prefix of three characters, then the item, with no
    line break in either. *)
Definition numbered (line : str * str) : Prop :=
  length (fst line) = 3%nat
  /\ ~ In LF (fst line) /\ ~ In LF (snd line).

(* ================================================================== *)
(** * Properties of the string operations *)

Example py_ascii : HTTP = [104; 116; 116; 112].
Proof. reflexivity. Qed.

Example py_cyrillic :
  PHOTO_PLACEHOLDER =
  [1055; 1088; 1080; 1082; 1088; 1077; 1087; 1080; 1090; 1077; 32;
   1092; 1086; 1090; 1086; 58].
Proof. reflexivity. Qed.

Example normalize_example :
  _normalize_resident_request_string
    (py "Труба течет,
 срочно!  Прикрепите фото: https://x.com/a.jpg конец")
  = py "Труба течет, срочно! конец".
Proof. vm_compute. reflexivity. Qed.

Lemma str_eqb_eq (a b : str) : str_eqb a b = true <-> a = b.
Proof.
  revert b; induction a as [|x a IH]; intros [|y b]; simpl; split;
    try congruence; try reflexivity.
  - intros H. apply andb_true_iff in H as [H1 H2].
    apply Z.eqb_eq in H1. apply IH in H2. congruence.
  - intros H. injection H as -> ->. rewrite Z.eqb_refl. simpl.
    now apply IH.
Qed.

Lemma str_eqb_refl (a : str) : str_eqb a a = true.
Proof. now apply str_eqb_eq. Qed.

Lemma prefixb_app (p s : str) :
  prefixb p s = true <-> exists rest, s = p ++ rest.
Proof.
  revert s; induction p as [|a p IH]; intros s; simpl.
  - split; [intros _; now exists s | reflexivity].
  - destruct s as [|b s].
    + split; [discriminate | intros [rest H]; discriminate].
    + rewrite andb_true_iff, Z.eqb_eq, IH. split.
      * intros [-> [rest ->]]. now exists rest.
      * intros [rest H]. injection H as -> ->. split; [reflexivity | now exists rest].
Qed.

Lemma replace_absent (old new s : str) :
  contains old s = false -> replace old new s = s.
Proof.
  unfold replace. induction s as [|c s IH]; [reflexivity|].
  intros H. simpl in H. apply orb_false_iff in H as [Hp Hc].
  cbn [replace_from]. rewrite Hp. f_equal. now apply IH.
Qed.

(** Replacing never makes a string longer when the replacement is not longer
    than what it replaces; [skip] pending characters are dropped first. *)
Lemma replace_from_length (old new : str) (skip : nat) (s : str) :
  (length new <= length old)%nat ->
  (length (replace_from old new skip s) + Nat.min skip (length s)
   <= length s)%nat.
Proof.
  intros Hlen. revert skip; induction s as [|c s IH]; intros skip.
  - simpl. lia.
  - cbn [replace_from]. destruct skip as [|k].
    + destruct (prefixb old (c :: s)) eqn:Hp.
      * apply prefixb_app in Hp as [rest Hrest].
        assert (Hl : length (c :: s) = (length old + length rest)%nat)
          by (rewrite Hrest; apply length_app).
        specialize (IH (length old - 1)%nat).
        rewrite length_app. simpl in *. lia.
      * specialize (IH 0%nat). simpl in *. lia.
    + specialize (IH k). simpl in *. lia.
Qed.

Lemma replace_present_shorter (old new s : str) :
  (length new < length old)%nat ->
  contains old s = true ->
  (length (replace old new s) < length s)%nat.
Proof.
  intros Hlen. unfold replace. induction s as [|c s IH]; intros H.
  - simpl in H. rewrite orb_false_r in H.
    destruct old; [simpl in Hlen; lia | discriminate].
  - cbn [replace_from]. destruct (prefixb old (c :: s)) eqn:Hp.
    + apply prefixb_app in Hp as [rest Hrest].
      assert (Hl : length (c :: s) = (length old + length rest)%nat)
        by (rewrite Hrest; apply length_app).
      pose proof (@replace_from_length old new (length old - 1)%nat s) as Hr.
      rewrite length_app. simpl in *. lia.
    + simpl in H. rewrite Hp in H. simpl in H. apply IH in H. simpl. lia.
Qed.

Lemma sub_urls_length (b : bool) (s : str) :
  (length (sub_urls b s) <= length s)%nat.
Proof.
  revert b; induction s as [|c s IH]; intros b; [simpl; lia|].
  cbn [sub_urls]. destruct b.
  - destruct (isspace c); [specialize (IH false) | specialize (IH true)];
      simpl; lia.
  - destruct (url_at (c :: s)); [specialize (IH true) | specialize (IH false)];
      simpl; lia.
Qed.

Lemma sub_spaces_length (b : bool) (s : str) :
  (length (sub_spaces b s) <= length s)%nat.
Proof.
  revert b; induction s as [|c s IH]; intros b; [simpl; lia|].
  cbn [sub_spaces]. destruct (isspace c).
  - destruct b; [specialize (IH true) | specialize (IH true)]; simpl; lia.
  - specialize (IH false). simpl. lia.
Qed.

(** ** Whitespace after [sub_spaces] *)

Lemma sub_spaces_single_spaced (b : bool) (s : str) :
  single_spaced b (sub_spaces b s) = true.
Proof.
  revert b; induction s as [|c s IH]; intros b; [reflexivity|].
  cbn [sub_spaces]. destruct (isspace c) eqn:Hc.
  - destruct b; [apply IH|]. cbn. apply IH.
  - cbn [single_spaced]. rewrite Hc. apply IH.
Qed.

Lemma single_spaced_fixed (b : bool) (s : str) :
  single_spaced b s = true -> sub_spaces b s = s.
Proof.
  revert b; induction s as [|c s IH]; intros b H; [reflexivity|].
  cbn [single_spaced sub_spaces] in *. destruct (isspace c).
  - apply andb_true_iff in H as [H H2]. apply andb_true_iff in H as [H0 H1].
    apply Z.eqb_eq in H0. destruct b; [discriminate|].
    rewrite (IH true H2). now subst.
  - now rewrite (IH false H).
Qed.

Lemma single_spaced_no_line_break (b : bool) (s : str) :
  single_spaced b s = true -> contains [LF] s = false.
Proof.
  revert b; induction s as [|c s IH]; intros b H; [reflexivity|].
  cbn [single_spaced] in H. cbn [contains prefixb].
  destruct (Z.eqb_spec LF c) as [<-|Hne].
  - cbn in H. discriminate.
  - simpl. destruct (isspace c).
    + apply andb_true_iff in H as [_ H]. now apply (IH true).
    + now apply (IH false).
Qed.

(** ** URLs after [sub_urls] *)

Lemma url_at_inv (s : str) :
  url_at s = true <->
  exists x rest, s = HTTP ++ x :: rest /\ isspace x = false.
Proof.
  unfold url_at. rewrite andb_true_iff, prefixb_app. split.
  - intros [[rest ->] H]. cbn in H. destruct rest as [|x rest]; [discriminate|].
    exists x, rest. split; [reflexivity|]. now apply negb_true_iff.
  - intros (x & rest & -> & Hx). split; [now exists (x :: rest)|].
    cbn. now rewrite Hx.
Qed.

Lemma url_at_space (c : Z) (s : str) : isspace c = true -> url_at (c :: s) = false.
Proof.
  intros Hc. destruct (url_at (c :: s)) eqn:E; [|reflexivity].
  apply url_at_inv in E as (x & rest & E & _). injection E as -> _.
  discriminate.
Qed.

(** A prefix without whitespace that survives a substitution was already a
    prefix of the input, and no match started at its head. *)
Lemma sub_urls_prefix (p z : str) :
  forallb (fun c => negb (isspace c)) p = true ->
  prefixb p (sub_urls false z) = true ->
  prefixb p z = true /\ (p <> [] -> url_at z = false).
Proof.
  revert z; induction p as [|a p IH]; intros z Hp H.
  - split; [reflexivity | congruence].
  - cbn in Hp. apply andb_true_iff in Hp as [Ha Hp].
    apply negb_true_iff in Ha.
    destruct z as [|c z]; [discriminate|].
    cbn [sub_urls] in H. destruct (url_at (c :: z)) eqn:E.
    + cbn in H. apply andb_true_iff in H as [H _]. apply Z.eqb_eq in H.
      subst a. discriminate.
    + cbn [prefixb] in *. apply andb_true_iff in H as [H1 H2].
      rewrite H1. split; [|reflexivity]. now apply IH.
Qed.

Lemma sub_spaces_prefix (p z : str) :
  forallb (fun c => negb (isspace c)) p = true ->
  prefixb p (sub_spaces false z) = true ->
  prefixb p z = true.
Proof.
  revert z; induction p as [|a p IH]; intros z Hp H; [reflexivity|].
  cbn in Hp. apply andb_true_iff in Hp as [Ha Hp]. apply negb_true_iff in Ha.
  destruct z as [|c z]; [discriminate|].
  cbn [sub_spaces] in H. destruct (isspace c) eqn:Hc.
  - cbn in H. apply andb_true_iff in H as [H _]. apply Z.eqb_eq in H.
    subst a. discriminate.
  - cbn [prefixb] in *. apply andb_true_iff in H as [H1 H2].
    rewrite H1. now apply IH.
Qed.

Lemma url_at_prefix (s : str) :
  url_at s = true ->
  exists p, length p = 5%nat /\ forallb (fun c => negb (isspace c)) p = true
            /\ prefixb p s = true
            /\ forall t, prefixb p t = true -> url_at t = true.
Proof.
  intros H. apply url_at_inv in H as (x & rest & -> & Hx).
  exists (HTTP ++ [x]). repeat split.
  - cbn. now rewrite Hx.
  - apply prefixb_app. exists rest. now rewrite <- app_assoc.
  - intros t Ht. apply prefixb_app in Ht as [r ->]. apply url_at_inv.
    exists x, r. rewrite <- app_assoc. now split.
Qed.

Lemma url_at_sub_urls (z : str) : url_at (sub_urls false z) = false.
Proof.
  destruct (url_at (sub_urls false z)) eqn:E; [|reflexivity].
  destruct (url_at_prefix _ E) as (p & Hlen & Hns & Hpre & Hall).
  destruct (sub_urls_prefix p z Hns Hpre) as [Hz Hno].
  rewrite (Hall z Hz) in Hno.
  assert (p <> []) by (destruct p; [discriminate | congruence]).
  now apply Hno.
Qed.

Lemma url_at_sub_spaces (z : str) :
  url_at (sub_spaces false z) = true -> url_at z = true.
Proof.
  intros E. destruct (url_at_prefix _ E) as (p & _ & Hns & Hpre & Hall).
  apply Hall. now apply sub_spaces_prefix.
Qed.

Lemma has_url_sub_urls (b : bool) (z : str) : has_url (sub_urls b z) = false.
Proof.
  revert b; induction z as [|c z IH]; intros b; [reflexivity|].
  destruct b.
  - cbn [sub_urls]. destruct (isspace c) eqn:Hc; [|apply IH].
    cbn [has_url]. now rewrite url_at_space, IH.
  - pose proof (url_at_sub_urls (c :: z)) as H.
    cbn [sub_urls] in *. destruct (url_at (c :: z)).
    + cbn [has_url]. now rewrite H, IH.
    + cbn [has_url]. now rewrite H, IH.
Qed.

Lemma has_url_sub_spaces (b : bool) (w : str) :
  has_url w = false -> has_url (sub_spaces b w) = false.
Proof.
  revert b; induction w as [|c w IH]; intros b H; [reflexivity|].
  cbn [has_url] in H. apply orb_false_iff in H as [Hu Hw].
  cbn [sub_spaces]. destruct (isspace c) eqn:Hc.
  - destruct b; [now apply IH|].
    cbn [has_url]. rewrite url_at_space by reflexivity. now apply IH.
  - cbn [has_url]. rewrite (IH false Hw), orb_false_r.
    destruct (url_at (c :: sub_spaces false w)) eqn:E; [|reflexivity].
    rewrite <- Hu. symmetry. apply url_at_sub_spaces.
    cbn [sub_spaces]. now rewrite Hc.
Qed.

Lemma no_url_fixed (s : str) : has_url s = false -> sub_urls false s = s.
Proof.
  induction s as [|c s IH]; intros H; [reflexivity|].
  cbn [has_url] in H. apply orb_false_iff in H as [Hu Hs].
  cbn [sub_urls]. rewrite Hu. f_equal. now apply IH.
Qed.

(** ** The normalizer on its own output *)

Lemma normalized_shape (x : str) :
  let y := _normalize_resident_request_string x in
  single_spaced false y = true /\ has_url y = false.
Proof.
  unfold _normalize_resident_request_string. cbn zeta. split.
  - apply sub_spaces_single_spaced.
  - apply has_url_sub_spaces, has_url_sub_urls.
Qed.

(** C3 (as stated, refuted). The normalizer is not idempotent: the
    placeholder written with two spaces, ["Прикрепите  фото:"], survives the
    placeholder step, the whitespace step then turns it into the placeholder
    itself, and a second run strips it to a single space. *)
Lemma normalize_not_idempotent :
  let x := py "Прикрепите  фото:" in
  _normalize_resident_request_string x = py "Прикрепите фото:"
  /\ _normalize_resident_request_string (_normalize_resident_request_string x)
     = py " "
  /\ str_eqb
       (_normalize_resident_request_string (_normalize_resident_request_string x))
       (_normalize_resident_request_string x) = false.
Proof. vm_compute. repeat split. Qed.

(** C3 (amended). Normalizing a second time changes nothing exactly when the
    normalized text does not contain the photo placeholder phrase: for every
    input [x], [normalize (normalize x) = normalize x] if and only if
    ["Прикрепите фото:"] does not occur in [normalize x]. *)
Theorem normalize_idempotent_iff (x : str) :
  _normalize_resident_request_string (_normalize_resident_request_string x)
  = _normalize_resident_request_string x
  <-> contains PHOTO_PLACEHOLDER (_normalize_resident_request_string x) = false.
Proof.
  destruct (normalized_shape x) as [Hsp Hurl].
  set (y := _normalize_resident_request_string x) in *.
  assert (Hlf : replace [LF] [SP] y = y)
    by (apply replace_absent; now apply single_spaced_no_line_break with false).
  split.
  - intros Hfix.
    destruct (contains PHOTO_PLACEHOLDER y) eqn:Hc; [exfalso | reflexivity].
    assert (Hlt : (length (_normalize_resident_request_string y) < length y)%nat).
    { unfold _normalize_resident_request_string. cbn zeta. rewrite Hlf.
      pose proof (sub_spaces_length false
        (sub_urls false (replace PHOTO_PLACEHOLDER [SP] y))).
      pose proof (sub_urls_length false (replace PHOTO_PLACEHOLDER [SP] y)).
      assert ((length (replace PHOTO_PLACEHOLDER [SP] y) < length y)%nat)
        by (apply replace_present_shorter; [cbn; lia | exact Hc]).
      lia. }
    rewrite Hfix in Hlt. lia.
  - intros Hc. unfold _normalize_resident_request_string at 1. cbn zeta.
    rewrite Hlf, (replace_absent _ _ _ Hc), (no_url_fixed _ Hurl).
    now apply single_spaced_fixed.
Qed.

(* ================================================================== *)
(** * The responsible-unit resolver *)

Section Resolver.

Context {I : Imports}.

Lemma uds_matches_covers (uds_data : UDS.t) (order_address_ : str) :
  uds_matches order_address_ uds_data = true <-> covers uds_data order_address_.
Proof.
  unfold uds_matches, covers. rewrite existsb_exists. reflexivity.
Qed.

Lemma resolver_scan (pre post : list UDS.t) (u : UDS.t) (order_address_ : str) :
  (forall v, In v pre -> ~ covers v order_address_) ->
  covers u order_address_ ->
  responsible_users_ids_in (pre ++ u :: post) order_address_
  = Some [UDS.user_id u].
Proof.
  intros Hpre Hu. induction pre as [|v pre IH]; cbn [app responsible_users_ids_in].
  - apply uds_matches_covers in Hu. now rewrite Hu.
  - destruct (uds_matches order_address_ v) eqn:Hv.
    + exfalso. apply (Hpre v); [now left | now apply uds_matches_covers].
    + apply IH. intros w Hw. apply Hpre. now right.
Qed.

Lemma resolver_none (uds_list : list UDS.t) (order_address_ : str) :
  (forall v, In v uds_list -> ~ covers v order_address_) <->
  responsible_users_ids_in uds_list order_address_ = None.
Proof.
  induction uds_list as [|v l IH]; cbn [responsible_users_ids_in].
  - split; [reflexivity | intros _ v []].
  - destruct (uds_matches order_address_ v) eqn:Hv.
    + split; [|discriminate]. intros H. exfalso.
      apply (H v); [now left | now apply uds_matches_covers].
    + rewrite <- IH. split.
      * intros H w Hw. apply H. now right.
      * intros H w [<-|Hw]; [|now apply H].
        intros Hc. apply uds_matches_covers in Hc. congruence.
Qed.

(** C6. The resolver returns the user id of the first configured unit, in
    configuration order, one of whose address substrings is contained in the
    order address when both are lower-cased, whatever comes after it; it
    returns [None] exactly when no unit has such a substring; and of two
    units that both qualify (as when one's substring is a prefix of the
    other's) the one configured first is returned. *)
Theorem resolver_first_match (order_address_ : str) :
  (forall pre u post,
      RESPONSIBLE_UDS_LIST = pre ++ u :: post ->
      (forall v, In v pre -> ~ covers v order_address_) ->
      covers u order_address_ ->
      _get_responsible_users_ids_by_order_address order_address_
      = Some [UDS.user_id u])
  /\ ((forall v, In v RESPONSIBLE_UDS_LIST -> ~ covers v order_address_) <->
      _get_responsible_users_ids_by_order_address order_address_ = None)
  /\ (forall u1 u2 rest,
         RESPONSIBLE_UDS_LIST = u1 :: u2 :: rest ->
         covers u1 order_address_ -> covers u2 order_address_ ->
         _get_responsible_users_ids_by_order_address order_address_
         = Some [UDS.user_id u1]).
Proof.
  unfold _get_responsible_users_ids_by_order_address. repeat split.
  - intros pre u post -> Hpre Hu. now apply resolver_scan.
  - now apply resolver_none.
  - now apply resolver_none.
  - intros u1 u2 rest -> H1 _.
    apply (@resolver_scan [] (u2 :: rest) u1); [intros v [] | exact H1].
Qed.

End Resolver.

(** C6 at two units whose substrings are ["ленина"] and its extension
    ["ленина 5"], in both configuration orders, and at an address that no
    unit covers. *)
Lemma resolver_first_match_witness :
  let a := {| UDS.user_id := 7; UDS.address_list := [py "Ленина"] |} in
  let b := {| UDS.user_id := 9; UDS.address_list := [py "ленина 5"] |} in
  @_get_responsible_users_ids_by_order_address (sample_imports [a; b])
    (py "ул. Ленина 5") = Some [7]
  /\ @_get_responsible_users_ids_by_order_address (sample_imports [b; a])
       (py "ул. Ленина 5") = Some [9]
  /\ @_get_responsible_users_ids_by_order_address (sample_imports [a; b])
       (py "пр. Мира 1") = None.
Proof.
  intros a b. split; [|split].
  - apply (proj2 (proj2 (@resolver_first_match (sample_imports [a; b])
                           (py "ул. Ленина 5"))) a b [] eq_refl).
    + exists (py "Ленина"). split; [now left | vm_compute; reflexivity].
    + exists (py "ленина 5"). split; [now left | vm_compute; reflexivity].
  - apply (proj2 (proj2 (@resolver_first_match (sample_imports [b; a])
                           (py "ул. Ленина 5"))) b a [] eq_refl).
    + exists (py "ленина 5"). split; [now left | vm_compute; reflexivity].
    + exists (py "Ленина"). split; [now left | vm_compute; reflexivity].
  - apply (proj1 (proj2 (@resolver_first_match (sample_imports [a; b])
                           (py "пр. Мира 1")))).
    intros v [<-|[<-|[]]] [x [[<-|[]] H]]; vm_compute in H; discriminate.
Defined.

(* ================================================================== *)
(** * The rate-limit retry *)

Lemma extend_extend (st : State) (a b : list Event) :
  extend (extend st a) b = extend st (a ++ b).
Proof. unfold extend. cbn. now rewrite app_assoc. Qed.

Lemma extend_nil (st : State) : extend st [] = st.
Proof. destruct st. unfold extend. cbn. now rewrite app_nil_r. Qed.

Lemma count_events_app (p : Event -> bool) (a b : list Event) :
  count_events p (a ++ b) = (count_events p a + count_events p b)%nat.
Proof. unfold count_events. now rewrite filter_app, length_app. Qed.


Section Engine.

Context {I : Imports} (W : World).
Variables prompt client_ query : str.

Lemma run_chain_eq (st : State) :
  run_chain W prompt client_ query st
  = (to_result (chain_run W (count_events is_chain (trace st))
                  prompt client_ query),
     extend st [EvChain prompt client_ query]).
Proof.
  unfold run_chain, bind, emit, lift, extend. cbn.
  now destruct (chain_run W _ prompt client_ query).
Qed.

(** The engine after [n] rate-limit signals and an answer [out] that is not
    one: [n] identical calls each followed by the wait, then the call that is
    answered, whose label or exception is the engine's. *)
Lemma engine_run (n : nat) :
  forall (fuel : nat) (st : State) (out : Outcome str),
    rate_limited W (count_events is_chain (trace st)) n prompt client_ query ->
    chain_run W (count_events is_chain (trace st) + n) prompt client_ query
    = out ->
    is_rate_limit out = false ->
    (n < fuel)%nat ->
    _get_order_emergency W fuel prompt client_ query st
    = (to_result out,
       extend st (retries n prompt client_ query
                  ++ [EvChain prompt client_ query])).
Proof.
  induction n as [|n IH]; intros fuel st out Hlim Hout Hnot Hfuel;
    (destruct fuel as [|fuel]; [lia|]);
    cbn [_get_order_emergency]; unfold try_except; rewrite run_chain_eq.
  - rewrite Nat.add_0_r in Hout. rewrite Hout.
    destruct out as [l|[c d|m|m]]; try reflexivity. discriminate.
  - destruct (Hlim 0%nat) as [msg Hmsg]; [lia|].
    rewrite Nat.add_0_r in Hmsg. rewrite Hmsg. cbn [to_result].
    unfold bind, sleep, emit. cbn [trace history_record db extend].
    set (st1 := {| history_record := _; db := _; trace := _ |}).
    assert (Hcount : count_events is_chain (trace st1)
                     = S (count_events is_chain (trace st))).
    { unfold st1. cbn [trace]. rewrite !count_events_app.
      unfold count_events at 2 3. cbn. lia. }
    rewrite (IH fuel st1 out).
    + f_equal. unfold st1, extend. cbn. f_equal.
      now rewrite <- !app_assoc.
    + intros i Hi. rewrite Hcount.
      destruct (Hlim (S i)) as [m Hm]; [lia|]. exists m.
      now rewrite Nat.add_succ_r in Hm.
    + rewrite Hcount. now rewrite Nat.add_succ_r in Hout.
    + exact Hnot.
    + lia.
Qed.


End Engine.

(* ================================================================== *)
(** * The orchestrator *)

Arguments py : simpl never.
Arguments fstring : simpl never.
Arguments str_of_int : simpl never.
Arguments strip : simpl never.
Arguments _normalize_resident_request_string : simpl never.
Arguments _get_auth_token : simpl never.
Arguments _get_order_details_by_id : simpl never.
Arguments _update_order_status_details : simpl never.
Arguments _send_message_to_internal_chat : simpl never.
Arguments _get_order_emergency : simpl never.
Arguments _get_responsible_users_ids_by_order_address : simpl never.
Arguments already_classified_detail : simpl never.
Arguments wrong_status_detail : simpl never.
Arguments disabled_field_msg_of : simpl never.
Arguments new_record : simpl never.
Arguments next_id : simpl never.
Arguments HTTP_400_BAD_REQUEST : simpl never.
Arguments HTTP_409_CONFLICT : simpl never.

(* ================================================================== *)
(** * Effects of the helpers *)

Lemma bind_ret_eq {A B} (c : M A) (k : A -> M B) (st st' : State) (a : A) :
  c st = (Ret a, st') -> bind c k st = k a st'.
Proof. unfold bind. now intros ->. Qed.

Lemma bind_raise_eq {A B} (c : M A) (k : A -> M B) (st st' : State) (e : Exn) :
  c st = (Raise e, st') -> bind c k st = (Raise e, st').
Proof. unfold bind. now intros ->. Qed.

Lemma Frame_ret {A} (P : Event -> bool) (a : A) : Frame P 0 (ret a).
Proof.
  intros st. exists (Ret a), []. rewrite extend_nil. now repeat split.
Qed.

Lemma Frame_raise {A} (P : Event -> bool) (n : nat) (e : Exn) :
  Frame P n (@raise A e).
Proof.
  intros st. exists (Raise e), []. rewrite extend_nil.
  repeat split; discriminate.
Qed.

Lemma Frame_lift {A} (P : Event -> bool) (o : Outcome A) : Frame P 0 (lift o).
Proof. destruct o; [apply Frame_ret | apply Frame_raise]. Qed.

Lemma Frame_emit (P : Event -> bool) (e : Event) :
  P e = true -> Frame P 1 (emit e).
Proof.
  intros H st. exists (Ret tt), [e]. repeat split; [discriminate|].
  cbn. now rewrite H.
Qed.

Lemma Frame_bind {A B} (P : Event -> bool) (n m : nat) (c : M A)
    (k : A -> M B) :
  Frame P n c -> (forall a, Frame P m (k a)) -> Frame P (n + m) (bind c k).
Proof.
  intros Hc Hk st. destruct (Hc st) as (res & evs & Heq & Hres & Hevs & Hn).
  destruct res as [a|e|]; [| |congruence].
  - destruct (Hk a (extend st evs))
      as (res' & evs' & Heq' & Hres' & Hevs' & Hm).
    exists res', (evs ++ evs'). rewrite (@bind_ret_eq _ _ c k _ _ _ Heq), Heq'.
    rewrite extend_extend, forallb_app, Hevs, Hevs'.
    split; [reflexivity|]. split; [assumption|]. split; [reflexivity|].
    intros b ->. rewrite length_app, (Hn a eq_refl), (Hm b eq_refl).
    reflexivity.
  - exists (Raise e), evs. rewrite (@bind_raise_eq _ _ c k _ _ _ Heq).
    split; [reflexivity|]. split; [discriminate|]. split; [assumption|].
    discriminate.
Qed.

Lemma Frame_weaken {A} (P P' : Event -> bool) (n : nat) (c : M A) :
  (forall e, P e = true -> P' e = true) -> Frame P n c -> Frame P' n c.
Proof.
  intros HP Hc st. destruct (Hc st) as (res & evs & Heq & Hres & Hevs & Hn).
  exists res, evs. repeat split; try assumption.
  rewrite forallb_forall in *. auto.
Qed.

Lemma read_only_http (e : Event) : read_only e = true -> is_http e = true.
Proof. unfold read_only. now intros [H _]%andb_true_iff. Qed.

Lemma read_only_no_update (e : Event) :
  read_only e = true -> is_update_call e = false.
Proof. unfold read_only. now intros [_ H%negb_true_iff]%andb_true_iff. Qed.

Lemma count_events_all (p : Event -> bool) (evs : list Event) :
  forallb p evs = true -> count_events p evs = length evs.
Proof.
  unfold count_events. induction evs as [|e evs IH]; [reflexivity|].
  cbn. intros [He H]%andb_true_iff. rewrite He. cbn. now rewrite IH.
Qed.

Lemma count_events_none (p q : Event -> bool) (evs : list Event) :
  (forall e, q e = true -> p e = false) ->
  forallb q evs = true -> count_events p evs = 0%nat.
Proof.
  unfold count_events. intros Hpq. induction evs as [|e evs IH]; [reflexivity|].
  cbn. intros [He H]%andb_true_iff. rewrite (Hpq e He). now apply IH.
Qed.

Lemma read_only_no_chain (evs : list Event) :
  forallb read_only evs = true -> count_events is_chain evs = 0%nat.
Proof.
  apply (count_events_none is_chain read_only).
  intros [] H; try reflexivity; discriminate.
Qed.

Lemma read_only_count_update (evs : list Event) :
  forallb read_only evs = true -> count_events is_update_call evs = 0%nat.
Proof.
  apply (count_events_none is_update_call read_only), read_only_no_update.
Qed.

Lemma count_retries_none (p : Event -> bool) (n : nat)
    (prompt client_ query : str) :
  p (EvChain prompt client_ query) = false ->
  p (EvSleep WAIT_TIME_IN_SEC) = false ->
  count_events p (retries n prompt client_ query) = 0%nat.
Proof.
  intros H1 H2. induction n as [|n IH]; [reflexivity|].
  unfold count_events in *. cbn [retries filter]. now rewrite H1, H2.
Qed.

Section Helpers.

Context {I : Imports} (W : World).

Lemma Frame_requests (P : Event -> bool) (m : Method) (url_ : str)
    (body : option PyVal) (headers_ : PyVal) :
  (forall req, method req = m -> url req = url_ -> P (EvHttp req) = true) ->
  Frame P 1 (requests W m url_ body headers_).
Proof.
  intros HP st. unfold requests.
  apply (@Frame_bind _ _ P 1 0 (emit _)); [apply Frame_emit; now apply HP|].
  intros _. apply Frame_lift.
Qed.

Lemma Frame_subscript (P : Event -> bool) (v : PyVal) (key : str) :
  Frame P 0 (subscript v key).
Proof.
  destruct v; cbn [subscript]; try apply Frame_raise.
  destruct (find _ items); [apply Frame_ret | apply Frame_raise].
Qed.

Lemma auth_not_update (req : HttpRequest) :
  method req = POST -> url req = fstring [DOMYLAND_API_BASE_URL; py "/auth"] ->
  read_only (EvHttp req) = true.
Proof.
  destruct req as [m u b h]. cbn. intros -> ->. reflexivity.
Qed.

Lemma get_not_update (req : HttpRequest) :
  method req = GET -> read_only (EvHttp req) = true.
Proof. destruct req as [m u b h]. cbn. now intros ->. Qed.

Lemma Frame_auth : Frame read_only 1 (_get_auth_token W).
Proof.
  unfold _get_auth_token.
  apply (@Frame_bind _ _ read_only 1 0);
    [apply Frame_requests; apply auth_not_update|].
  intros response. destruct (negb (ok response)); [apply Frame_raise|].
  apply (@Frame_bind _ _ read_only 0 0); [apply Frame_lift|].
  intros response_data.
  apply (@Frame_bind _ _ read_only 0 0); [apply Frame_subscript|].
  intros token. apply Frame_ret.
Qed.

(** The order lookup authenticates and reads; neither request is an update
    call. *)
Lemma Frame_details (order_id_ : Z) :
  Frame read_only 2 (_get_order_details_by_id W order_id_).
Proof.
  unfold _get_order_details_by_id.
  apply (@Frame_bind _ _ read_only 1 1); [apply Frame_auth|]. intros token.
  apply (@Frame_bind _ _ read_only 1 0);
    [apply Frame_requests; intros req Hm _; now apply get_not_update|].
  intros response.
  apply (@Frame_bind _ _ read_only 0 0); [apply Frame_lift|].
  intros response_data.
  destruct (negb (ok response)); [apply Frame_raise|].
  apply (@Frame_bind _ _ read_only 0 0); [apply Frame_lift|].
  intros d. apply Frame_ret.
Qed.

Lemma Frame_update (order_id_ dept status : Z) (users inspectors : list Z) :
  Frame is_http 2
    (_update_order_status_details W order_id_ dept status users inspectors).
Proof.
  unfold _update_order_status_details.
  apply (@Frame_bind _ _ is_http 1 1);
    [apply (Frame_weaken read_only is_http 1 _ read_only_http), Frame_auth|]. intros token.
  apply (@Frame_bind _ _ is_http 1 0); [now apply Frame_requests|].
  intros response.
  apply (@Frame_bind _ _ is_http 0 0); [apply Frame_lift|].
  intros response_data.
  destruct (negb (ok response)); [apply Frame_raise | apply Frame_ret].
Qed.

Lemma Frame_chat (order_id_ : Z) (msg : str) :
  Frame is_http 2 (_send_message_to_internal_chat W order_id_ msg).
Proof.
  unfold _send_message_to_internal_chat.
  apply (@Frame_bind _ _ is_http 1 1);
    [apply (Frame_weaken read_only is_http 1 _ read_only_http), Frame_auth|]. intros token.
  apply (@Frame_bind _ _ is_http 1 0); [now apply Frame_requests|].
  intros response.
  apply (@Frame_bind _ _ is_http 0 0); [apply Frame_lift|].
  intros response_data.
  destruct (negb (ok response)); [apply Frame_raise | apply Frame_ret].
Qed.

(** A status update that returns has made two requests: the authentication
    and the [PUT] that updates the order. *)
Lemma update_returned (order_id_ dept status : Z) (users inspectors : list Z)
    (st st' : State) (upd : PyVal * PyVal) :
  _update_order_status_details W order_id_ dept status users inspectors st
  = (Ret upd, st') ->
  exists e1 e2,
    st' = extend st [e1; e2]
    /\ read_only e1 = true /\ is_http e2 = true /\ is_status_update e2 = true.
Proof.
  unfold _update_order_status_details.
  destruct (Frame_auth st) as (res & evs & Heq & _ & Hevs & Hn).
  unfold bind at 1. rewrite Heq. destruct res as [token| |]; try discriminate.
  specialize (Hn token eq_refl).
  destruct evs as [|e1 [|? ?]]; try discriminate.
  cbn in Hevs. rewrite andb_true_r in Hevs.
  unfold bind at 1. unfold requests at 1. unfold bind at 1. cbn [emit extend].
  cbn [trace history_record db].
  destruct (http W _ _) as [response|err]; cbn [lift]; [|discriminate].
  unfold ret at 1. unfold bind at 1.
  destruct (json response) as [response_data|err]; cbn [lift];
    [|discriminate].
  unfold ret at 1. destruct (negb (ok response)); [discriminate|].
  unfold ret. intros [= <- <-].
  eexists e1, (EvHttp _). split.
  - unfold extend. cbn. rewrite <- app_assoc. reflexivity.
  - repeat split; assumption || reflexivity.
Qed.

Lemma Frame_chat_no_put (order_id_ : Z) (msg : str) :
  Frame (fun e => is_http e && negb (is_status_update e)) 2
    (_send_message_to_internal_chat W order_id_ msg).
Proof.
  set (P := fun e => is_http e && negb (is_status_update e)).
  unfold _send_message_to_internal_chat.
  apply (@Frame_bind _ _ P 1 1).
  { apply (Frame_weaken read_only P 1); [|apply Frame_auth].
    intros ev H. unfold P. rewrite (read_only_http _ H).
    apply read_only_no_update in H. unfold is_update_call in H.
    apply orb_false_iff in H as [-> _]. reflexivity. }
  intros token.
  apply (@Frame_bind _ _ P 1 0).
  { apply Frame_requests. intros [m u b h]. cbn. now intros -> _. }
  intros response.
  apply (@Frame_bind _ _ P 0 0); [apply Frame_lift|].
  intros response_data.
  destruct (negb (ok response)); [apply Frame_raise | apply Frame_ret].
Qed.

End Helpers.

(* ================================================================== *)
(** * Runs of the orchestrator *)

Ltac gate H := rewrite H; cbn -[try_block].

Section Runs.

Context {I : Imports} (W : World).
Variables (fuel : nat) (body : OrderClassificationRequest) (client_ : str).
Variable db_ : Store.

Let order_id_ := orderId (data body).
Let st0 := initial_state body db_.
Let run := get_emergency_class W fuel body client_ db_.

(** What [get_emergency_class] makes of the outcome of its [try] block: the
    handler marks the record on an exception, and the record is saved and
    returned in either case. *)
Lemma run_of_try (res : Result unit) (st1 : State) :
  try_block W fuel body client_ st0 = (res, st1) ->
  res <> Interrupted ->
  id (history_record st1) = None ->
  let r := match res with
           | Raise e => failed e (history_record st1)
           | _ => history_record st1
           end in
  get_emergency_class W fuel body client_ db_
  = (Ret (stored (db st1) client_ r),
     {| history_record := stored (db st1) client_ r;
        db := db st1 ++ [stored (db st1) client_ r];
        trace := trace st1 ++ [EvSave r client_] |}).
Proof.
  intros Htry Hres Hid r. unfold get_emergency_class, bind, try_except.
  fold st0. rewrite Htry. destruct res as [[]|e|]; [| |congruence];
    cbn; unfold save_order_classification_record;
    destruct st1 as [h d t]; cbn in *; destruct h; cbn in *; subst;
    reflexivity.
Qed.

(** The idempotency gate. *)
Lemma try_block_conflict (saved : OrderClassificationRecord) :
  get_saved_record_by_order_id db_ order_id_ client_ = Some saved ->
  try_block W fuel body client_ st0
  = (Raise (HTTPException HTTP_409_CONFLICT
              (already_classified_detail order_id_ saved)), st0).
Proof.
  intros Hfind. unfold try_block, bind, find_saved.
  subst st0 order_id_. cbn [db initial_state] in *. now rewrite Hfind.
Qed.

(** The status gate. *)
Lemma try_block_not_pending :
  get_saved_record_by_order_id db_ order_id_ client_ = None ->
  orderStatusId (data body) <> PENDING ->
  try_block W fuel body client_ st0
  = (Raise (HTTPException HTTP_400_BAD_REQUEST
              (wrong_status_detail order_id_ (orderStatusId (data body)))),
     st0).
Proof.
  intros Hfind Hstatus. unfold try_block, bind, find_saved.
  subst st0 order_id_. cbn [db initial_state] in *.
  rewrite Hfind. unfold ret at 1.
  apply Z.eqb_neq in Hstatus. rewrite Hstatus. reflexivity.
Qed.

(** The gates before the order lookup, when classification is disabled. *)
Lemma try_block_disabled (cfg : OrderClassificationConfig) (evs : list Event)
    (res : Result OrderDetails) :
  get_saved_record_by_order_id db_ order_id_ client_ = None ->
  orderStatusId (data body) = PENDING ->
  get_default_config W client_ = Some cfg ->
  is_use_emergency_classification cfg = false ->
  _get_order_details_by_id W order_id_ st0 = (res, extend st0 evs) ->
  try_block W fuel body client_ st0
  = match res with
    | Ret d =>
        (Ret tt,
         {| history_record :=
              set_is_emergency None
                (set_order_emergency (Some (disabled_field_msg_of (user_id cfg)))
                   (set_order_address (resident_address d)
                      (set_order_query (resident_comment d)
                         (set_order_details (Some d) (new_record body)))));
            db := db_; trace := evs |})
    | Raise e => (Raise e, extend st0 evs)
    | Interrupted => (Interrupted, extend st0 evs)
    end.
Proof.
  intros Hfind Hst Hcfg Hoff Heq.
  unfold try_block. unfold bind at 1. unfold find_saved at 1.
  subst st0 order_id_. cbn [db initial_state] in *.
  gate Hfind. rewrite Hst, Z.eqb_refl. cbn -[try_block].
  gate Hcfg. gate Hoff. unfold bind at 1. rewrite Heq.
  now destruct res.
Qed.

(** C1 (amended). When the store already holds a record of the order for the
    client, the idempotency gate raises the Conflict failure (status 409)
    before the classifier or the order-management system is called. The
    failure does not reach the caller and does not end the run before the
    save: it is handled like any other, the record of the run gets its error
    flag and the Conflict message as its comment, and
    [save_order_classification_record] is then called with this record,
    which carries no identifier, as the only event of the run. What the
    store makes of that call is the store's. *)
Theorem conflict_is_recorded (saved : OrderClassificationRecord) :
  get_saved_record_by_order_id db_ order_id_ client_ = Some saved ->
  let detail := already_classified_detail order_id_ saved in
  let r := failed (HTTPException HTTP_409_CONFLICT detail) (new_record body) in
  fst (try_block W fuel body client_ st0)
  = Raise (HTTPException HTTP_409_CONFLICT detail)
  /\ trace (snd run) = [EvSave r client_]
  /\ id r = None /\ is_error r = true /\ comment r = Some detail
  /\ exists returned_,
       fst run = Ret returned_
       /\ is_error returned_ = true /\ comment returned_ = Some detail.
Proof.
  intros Hfind detail r. pose proof (try_block_conflict saved Hfind) as Htry.
  split; [now rewrite Htry|].
  subst run. rewrite (run_of_try _ _ Htry); [|discriminate|reflexivity].
  cbn [fst snd trace]. split; [reflexivity|].
  split; [reflexivity|]. split; [reflexivity|]. split; [reflexivity|].
  eexists. split; [reflexivity|]. split; reflexivity.
Qed.

(** C7. For an order that passes the idempotency gate and whose status id is
    not [PENDING], the status gate raises the InvalidState failure (status
    400); the run records it (error flag set, the message as comment), saves
    the record and makes no call at all to the order-management system, so
    neither the status update nor the chat message is sent. *)
Theorem not_pending_is_invalid_state :
  get_saved_record_by_order_id db_ order_id_ client_ = None ->
  orderStatusId (data body) <> PENDING ->
  let detail := wrong_status_detail order_id_ (orderStatusId (data body)) in
  let r := failed (HTTPException HTTP_400_BAD_REQUEST detail) (new_record body) in
  fst (try_block W fuel body client_ st0)
  = Raise (HTTPException HTTP_400_BAD_REQUEST detail)
  /\ run
     = (Ret (stored db_ client_ r),
        {| history_record := stored db_ client_ r;
           db := db_ ++ [stored db_ client_ r];
           trace := [EvSave r client_] |})
  /\ is_error (stored db_ client_ r) = true
  /\ comment (stored db_ client_ r) = Some detail
  /\ count_events is_http (trace (snd run)) = 0%nat
  /\ count_events is_update_call (trace (snd run)) = 0%nat.
Proof.
  intros Hfind Hstatus detail r.
  pose proof (try_block_not_pending Hfind Hstatus) as Htry.
  assert (Hrun : run
                 = (Ret (stored db_ client_ r),
                    {| history_record := stored db_ client_ r;
                       db := db_ ++ [stored db_ client_ r];
                       trace := [EvSave r client_] |})).
  { subst run. rewrite (run_of_try _ _ Htry); [reflexivity|discriminate|].
    reflexivity. }
  split; [now rewrite Htry|]. split; [exact Hrun|].
  split; [reflexivity|]. split; [reflexivity|].
  rewrite Hrun. split; reflexivity.
Qed.

(** C8 (amended). When the configuration of the client disables emergency
    classification, the returned record has no [is_emergency] value, and the
    run calls neither the classifier nor an update endpoint (status update
    or chat message), whatever the outside answers. The emergency field
    holds the skipped-by-config marker when the run passes the idempotency
    and status gates and the order details are fetched; when the lookup
    fails the run ends there and the field stays unset. *)
Theorem classification_disabled (cfg : OrderClassificationConfig) :
  get_default_config W client_ = Some cfg ->
  is_use_emergency_classification cfg = false ->
  exists saved,
    fst run = Ret saved
    /\ is_emergency saved = None
    /\ count_events is_update_call (trace (snd run)) = 0%nat
    /\ count_events is_chain (trace (snd run)) = 0%nat
    /\ (get_saved_record_by_order_id db_ order_id_ client_ = None ->
        orderStatusId (data body) = PENDING ->
        (forall d st1,
            _get_order_details_by_id W order_id_ st0 = (Ret d, st1) ->
            order_emergency saved = Some (disabled_field_msg_of (user_id cfg))
            /\ is_error saved = false)
        /\ (forall e st1,
               _get_order_details_by_id W order_id_ st0 = (Raise e, st1) ->
               order_emergency saved = None
               /\ is_error saved = true /\ comment saved = Some (message e))).
Proof.
  intros Hcfg Hoff. subst run.
  destruct (get_saved_record_by_order_id db_ order_id_ client_)
    as [found|] eqn:Hfind.
  { rewrite (run_of_try _ _ (try_block_conflict found Hfind));
      [|discriminate|reflexivity].
    eexists. repeat split; discriminate. }
  destruct (Z.eq_dec (orderStatusId (data body)) PENDING) as [Hst|Hst].
  2: { rewrite (run_of_try _ _ (try_block_not_pending Hfind Hst));
         [|discriminate|reflexivity].
       eexists. repeat split; intros; contradiction. }
  destruct (Frame_details W order_id_ st0) as (res & evs & Heq & Hres & Hevs & _).
  pose proof (try_block_disabled cfg evs res Hfind Hst Hcfg Hoff Heq) as Htry.
  pose proof (read_only_count_update _ Hevs) as Hupd.
  pose proof (read_only_no_chain _ Hevs) as Hchain.
  destruct res as [d|e|]; [| |congruence].
  - rewrite (run_of_try (Ret tt) _ Htry); [|discriminate|reflexivity].
    cbn [fst snd trace db history_record].
    eexists. split; [reflexivity|]. split; [reflexivity|].
    rewrite !count_events_app, Hupd, Hchain.
    split; [reflexivity|]. split; [reflexivity|]. intros _ _. split.
    + intros d' st1 Hd. rewrite Heq in Hd. injection Hd as <- _. now split.
    + intros e st1 Hd. rewrite Heq in Hd. discriminate.
  - rewrite (run_of_try (Raise e) _ Htry); [|discriminate|reflexivity].
    cbn [fst snd trace db history_record extend].
    eexists. split; [reflexivity|]. split; [reflexivity|].
    subst st0. cbn [trace initial_state app].
    rewrite !count_events_app, Hupd, Hchain.
    split; [reflexivity|]. split; [reflexivity|]. intros _ _. split.
    + intros d st1 Hd. rewrite Heq in Hd. discriminate.
    + intros e' st1 Hd. rewrite Heq in Hd. injection Hd as <- _. now repeat split.
Qed.

End Runs.

(* ================================================================== *)
(** * Runs that reach the classifier *)

Arguments str_of_ids : simpl never.
Arguments no_uds_detail : simpl never.
Arguments HTTP_501_NOT_IMPLEMENTED : simpl never.

Lemma details_returned {I : Imports} (W : World) (order_id_ : Z) (st : State)
    (d : OrderDetails) :
  fst (_get_order_details_by_id W order_id_ st) = Ret d ->
  exists evs,
    _get_order_details_by_id W order_id_ st = (Ret d, extend st evs)
    /\ forallb read_only evs = true /\ length evs = 2%nat.
Proof.
  intros H. destruct (Frame_details W order_id_ st)
    as (res & evs & Heq & _ & Hevs & Hn).
  rewrite Heq in H. cbn in H. subst res. exists evs. eauto.
Qed.

(** Opens the hypotheses of a classified run. *)
Ltac open_classified Hc evs Hevs :=
  let Hfetch := fresh "Hfetch" in
  let Hd := fresh "Hd" in
  let Hlen := fresh "Hlen" in
  destruct Hc as (? & ? & ? & ? & ? & Hfetch & ? & ? & ? & ? & ? & ? & ?);
  destruct (details_returned _ _ _ _ Hfetch) as (evs & Hd & Hevs & Hlen);
  pose proof (read_only_no_chain _ Hevs).

Ltac use_hyp :=
  match goal with
  | H : get_saved_record_by_order_id _ _ _ = None |- _ => progress gate H
  | H : orderStatusId _ = PENDING |- _ =>
      progress (rewrite H, Z.eqb_refl; cbn -[try_block])
  | H : get_default_config _ _ = Some _ |- _ => progress gate H
  | H : is_use_emergency_classification _ = _ |- _ => progress gate H
  | H : is_use_order_updating _ = _ |- _ => progress gate H
  | H : alertTypeId _ = NEW_ORDER |- _ =>
      progress (rewrite H, Z.eqb_refl; cbn -[try_block])
  | H : resident_comment _ = Some _ |- _ => progress gate H
  | H : resident_address _ = Some _ |- _ => progress gate H
  | H : nonempty (strip _) = true |- _ => progress gate H
  | H : _get_responsible_users_ids_by_order_address _ = _ |- _ =>
      progress gate H
  | H : strip (lower _) = EMERGENCY_LABEL |- _ => progress gate H
  | H : str_eqb (strip (lower _)) EMERGENCY_LABEL = _ |- _ => progress gate H
  end.

Ltac use_details :=
  match goal with
  | H : _get_order_details_by_id _ _ _ = _ |- _ =>
      unfold bind at 1; rewrite H; cbn -[try_block]
  end.

Ltac use_engine :=
  unfold bind at 1; unfold bind at 1; cbn -[try_block];
  match goal with
  | Hout : chain_run ?W ?k ?p ?c ?qq = Returns ?l,
    Hlim : rate_limited ?W 0 ?k ?p ?c ?qq,
    Hnochain : count_events is_chain _ = 0%nat |- _ =>
      rewrite (engine_run W p c qq k _ _ (Returns l));
      [ | cbn [trace]; rewrite Hnochain; exact Hlim
        | cbn [trace]; rewrite Hnochain; exact Hout
        | reflexivity | assumption ]
  end;
  cbn -[try_block].

(** Runs the [try] block up to the answer of the classifier. *)
Ltac to_classifier :=
  unfold try_block; unfold bind at 1; unfold find_saved at 1;
  cbn [db initial_state] in *;
  repeat use_hyp; use_details; repeat use_hyp; use_engine; repeat use_hyp.

Section Classified.

Context {I : Imports} (W : World).
Variables (fuel : nat) (body : OrderClassificationRequest) (client_ : str).
Variable db_ : Store.
Variables (cfg : OrderClassificationConfig) (d : OrderDetails) (q a : str).
Variables (n : nat) (label : str).

Let order_id_ := orderId (data body).
Let st0 := initial_state body db_.
Let run := get_emergency_class W fuel body client_ db_.

Hypothesis Hc : Classified W fuel body client_ db_ cfg d q a n label.

(** The state in which the dispatch step calls the order-management
    system: the classifier has answered the affirmative label and the
    resolver has found [ids]. *)
Let dispatch_state (evs : list Event) (ids : list Z) : State :=
  {| history_record :=
       set_uds_id (Some (str_of_ids (Some ids)))
         (classified_record body d q a label true);
     db := db_;
     trace := evs ++ retries n (emergency_prompt cfg) client_
                       (_normalize_resident_request_string q)
              ++ [EvChain (emergency_prompt cfg) client_
                    (_normalize_resident_request_string q)] |}.

(** C9 (amended). With classification enabled, order updating disabled and
    a classifier answer that is the affirmative label, the resolver is
    consulted and its result recorded in [uds_id]. When it finds a
    responsible unit, the skipped-by-config marker is recorded as both the
    update request and the update response and the record carries no error;
    when it finds none, the run fails with status 501 and no marker is
    recorded. In both cases no call to update the order status or to post a
    chat message is made. *)
Theorem updating_disabled :
  strip (lower label) = EMERGENCY_LABEL ->
  is_use_order_updating cfg = false ->
  exists saved,
    fst run = Ret saved
    /\ is_emergency saved = Some true
    /\ uds_id saved
       = Some (str_of_ids (_get_responsible_users_ids_by_order_address a))
    /\ count_events is_update_call (trace (snd run)) = 0%nat
    /\ match _get_responsible_users_ids_by_order_address a with
       | Some ids =>
           order_update_request saved = Some (skipped_by_config cfg)
           /\ order_update_response saved = Some (skipped_by_config cfg)
           /\ is_error saved = false
       | None =>
           order_update_request saved = None
           /\ order_update_response saved = None
           /\ is_error saved = true
           /\ comment saved = Some (no_uds_detail order_id_ a)
       end.
Proof.
  intros Hlabel Hupd. subst run order_id_. open_classified Hc evs Hevs.
  pose proof (read_only_count_update _ Hevs) as Hnoupd.
  destruct (_get_responsible_users_ids_by_order_address a) as [ids|] eqn:Hres.
  - eassert (Htry : try_block W fuel body client_ (initial_state body db_) = _).
    { to_classifier. reflexivity. }
    rewrite (run_of_try W fuel body client_ db_ (Ret tt) _ Htry);
      [|discriminate|reflexivity].
    eexists. split; [reflexivity|]. cbn [fst snd trace db history_record].
    split; [reflexivity|]. split; [reflexivity|].
    split; [|repeat split].
    rewrite !count_events_app, Hnoupd, count_retries_none by reflexivity.
    reflexivity.
  - eassert (Htry : try_block W fuel body client_ (initial_state body db_) = _).
    { to_classifier. reflexivity. }
    rewrite (run_of_try W fuel body client_ db_ (Raise _) _ Htry);
      [|discriminate|reflexivity].
    eexists. split; [reflexivity|]. cbn [fst snd trace db history_record].
    split; [reflexivity|]. split; [reflexivity|].
    split; [|repeat split].
    rewrite !count_events_app, Hnoupd, count_retries_none by reflexivity.
    reflexivity.
Qed.

Lemma dispatch_state_http (evs : list Event) (ids : list Z) :
  forallb read_only evs = true -> length evs = 2%nat ->
  count_events is_http (trace (dispatch_state evs ids)) = 2%nat.
Proof.
  intros Hevs Hlen. unfold dispatch_state. cbn [trace].
  rewrite !count_events_app, count_retries_none by reflexivity.
  rewrite (count_events_all is_http evs), Hlen; [reflexivity|].
  rewrite forallb_forall in *. intros e He. now apply read_only_http, Hevs.
Qed.

(** C10. In a run with classification and order updating enabled, where the
    classifier answers the affirmative label and a responsible unit is
    found: if the status update succeeds (second exchange with the
    order-management system, after two requests) and the chat message then
    fails with [e] (after four requests), the saved record has its error
    flag set and the message of [e] as comment, its update request and
    update response are unset, and yet the trace of the run contains the
    status update that was performed. *)
Theorem chat_failure_leaves_update_unrecorded
    (ids : list Z) (upd : PyVal * PyVal) (e : Exn) :
  strip (lower label) = EMERGENCY_LABEL ->
  is_use_order_updating cfg = true ->
  _get_responsible_users_ids_by_order_address a = Some ids ->
  (forall st, count_events is_http (trace st) = 2%nat ->
     fst (_update_order_status_details W order_id_ RESPONSIBLE_DEPT_ID
            IN_PROGRESS ids [AI_USER_ID] st) = Ret upd) ->
  (forall st, count_events is_http (trace st) = 4%nat ->
     fst (_send_message_to_internal_chat W order_id_
            ORDER_PROCESSED_BY_AI_MESSAGE st) = Raise e) ->
  exists saved,
    fst run = Ret saved
    /\ is_emergency saved = Some true
    /\ uds_id saved = Some (str_of_ids (Some ids))
    /\ is_error saved = true
    /\ comment saved = Some (message e)
    /\ order_update_request saved = None
    /\ order_update_response saved = None
    /\ count_events is_status_update (trace (snd run)) = 1%nat.
Proof.
  intros Hlabel Hupd Hres Hput Hchat. subst run order_id_.
  open_classified Hc evs Hevs.
  pose proof (dispatch_state_http evs ids Hevs Hlen) as Hcount.
  destruct (_update_order_status_details W (orderId (data body))
              RESPONSIBLE_DEPT_ID IN_PROGRESS ids [AI_USER_ID]
              (dispatch_state evs ids)) as [ru st3] eqn:Hu.
  pose proof (Hput _ Hcount) as Hru. rewrite Hu in Hru. cbn in Hru. subst ru.
  destruct (update_returned _ _ _ _ _ _ _ _ _ Hu)
    as (e1 & e2 & -> & He1 & He2 & Hput2).
  destruct (Frame_chat_no_put W (orderId (data body))
              ORDER_PROCESSED_BY_AI_MESSAGE
              (extend (dispatch_state evs ids) [e1; e2]))
    as (rc & cevs & Hceq & _ & Hcevs & _).
  assert (Hcount4 : count_events is_http
                      (trace (extend (dispatch_state evs ids) [e1; e2]))
                    = 4%nat).
  { cbn [extend trace] in *. rewrite count_events_app, Hcount.
    unfold count_events. cbn. rewrite (read_only_http _ He1), He2.
    reflexivity. }
  pose proof (Hchat _ Hcount4) as Hrc. rewrite Hceq in Hrc. cbn in Hrc.
  subst rc.
  unfold dispatch_state, classified_record in Hu, Hceq.
  eassert (Htry : try_block W fuel body client_ (initial_state body db_) = _).
  { to_classifier. unfold bind at 1. unfold bind at 1. rewrite Hu.
    unfold bind at 1. rewrite Hceq. reflexivity. }
  rewrite (run_of_try W fuel body client_ db_ (Raise e) _ Htry);
    [|discriminate|reflexivity].
  eexists. split; [reflexivity|]. cbn [fst snd trace db history_record extend].
  do 6 (split; [reflexivity|]).
  rewrite !count_events_app, count_retries_none by reflexivity.
  rewrite (count_events_none is_status_update read_only evs);
    [| | exact Hevs].
  2: { intros ev Hev. apply read_only_no_update in Hev.
       unfold is_update_call in Hev. now apply orb_false_iff in Hev as [-> _]. }
  rewrite (count_events_none is_status_update
             (fun e => is_http e && negb (is_status_update e)) cevs);
    [| | exact Hcevs].
  2: { intros ev Hev. apply andb_true_iff in Hev as [_ Hev].
       now apply negb_true_iff in Hev. }
  unfold count_events. cbn.
  apply read_only_no_update in He1. unfold is_update_call in He1.
  apply orb_false_iff in He1 as [-> _]. rewrite Hput2. reflexivity.
Qed.

(** C5. When classification is enabled and the classifier has answered
    [label], the record that is saved and returned keeps [label] as the raw
    output and has [is_emergency] set to the result of comparing [label],
    lower-cased and then stripped of surrounding whitespace, with
    ["аварийная"]: true exactly when they are equal, false for any other
    output, whatever the dispatch step does afterwards. *)
Theorem is_emergency_iff_label :
  exists saved,
    fst run = Ret saved
    /\ order_emergency saved = Some label
    /\ is_emergency saved
       = Some (str_eqb (strip (lower label)) EMERGENCY_LABEL)
    /\ (is_emergency saved = Some true
        <-> strip (lower label) = EMERGENCY_LABEL)
    /\ (is_emergency saved = Some false
        <-> strip (lower label) <> EMERGENCY_LABEL).
Proof.
  subst run order_id_.
  cut (exists saved,
          fst (get_emergency_class W fuel body client_ db_) = Ret saved
          /\ order_emergency saved = Some label
          /\ is_emergency saved
             = Some (str_eqb (strip (lower label)) EMERGENCY_LABEL)).
  { intros (saved & H1 & H2 & H3). exists saved.
    split; [exact H1|]. split; [exact H2|]. split; [exact H3|].
    rewrite H3. split.
    - split; [intros [= E]; now apply str_eqb_eq | intros E].
      apply str_eqb_eq in E. now rewrite E.
    - split.
      + intros [= E] E'. apply str_eqb_eq in E'. congruence.
      + intros E. destruct (str_eqb _ _) eqn:E'; [|reflexivity].
        apply str_eqb_eq in E'. contradiction. }
  open_classified Hc evs Hevs.
  destruct (str_eqb (strip (lower label)) EMERGENCY_LABEL) eqn:Hb.
  2: { eassert (Htry : try_block W fuel body client_ (initial_state body db_)
                       = _).
       { to_classifier. reflexivity. }
       rewrite (run_of_try W fuel body client_ db_ (Ret tt) _ Htry);
         [|discriminate|reflexivity].
       eexists. repeat split. }
  destruct (_get_responsible_users_ids_by_order_address a) as [ids|] eqn:Hres.
  2: { eassert (Htry : try_block W fuel body client_ (initial_state body db_)
                       = _).
       { to_classifier. reflexivity. }
       rewrite (run_of_try W fuel body client_ db_ (Raise _) _ Htry);
         [|discriminate|reflexivity].
       eexists. repeat split. }
  destruct (is_use_order_updating cfg) eqn:Hupd.
  2: { eassert (Htry : try_block W fuel body client_ (initial_state body db_)
                       = _).
       { to_classifier. reflexivity. }
       rewrite (run_of_try W fuel body client_ db_ (Ret tt) _ Htry);
         [|discriminate|reflexivity].
       eexists. repeat split. }
  destruct (Frame_update W (orderId (data body)) RESPONSIBLE_DEPT_ID
              IN_PROGRESS ids [AI_USER_ID] (dispatch_state evs ids))
    as (ru & uevs & Hu & Hru & _ & _).
  unfold dispatch_state, classified_record in Hu.
  destruct ru as [[response request_body]|e|]; [| |congruence].
  2: { eassert (Htry : try_block W fuel body client_ (initial_state body db_)
                       = _).
       { to_classifier. unfold bind at 1. unfold bind at 1. rewrite Hu.
         reflexivity. }
       rewrite (run_of_try W fuel body client_ db_ (Raise e) _ Htry);
         [|discriminate|reflexivity].
       eexists. repeat split. }
  destruct (Frame_chat W (orderId (data body)) ORDER_PROCESSED_BY_AI_MESSAGE
              (extend (dispatch_state evs ids) uevs))
    as (rc & cevs & Hceq & Hrc & _ & _).
  unfold dispatch_state, classified_record in Hceq.
  destruct rc as [sent|e|]; [| |congruence].
  - eassert (Htry : try_block W fuel body client_ (initial_state body db_) = _).
    { to_classifier. unfold bind at 1. unfold bind at 1. rewrite Hu.
      unfold bind at 1. rewrite Hceq. reflexivity. }
    rewrite (run_of_try W fuel body client_ db_ (Ret tt) _ Htry);
      [|discriminate|reflexivity].
    eexists. repeat split.
  - eassert (Htry : try_block W fuel body client_ (initial_state body db_) = _).
    { to_classifier. unfold bind at 1. unfold bind at 1. rewrite Hu.
      unfold bind at 1. rewrite Hceq. reflexivity. }
    rewrite (run_of_try W fuel body client_ db_ (Raise e) _ Htry);
      [|discriminate|reflexivity].
    eexists. repeat split.
Qed.

End Classified.

(* ================================================================== *)
(** * Every run is recorded *)

Section SpecRules.

Variable P : Event -> bool.
Variable Q : OrderClassificationRecord -> Prop.

Lemma Spec_frame {A} (n : nat) (c : M A) : Frame P n c -> Spec P Q c.
Proof.
  intros Hc st HQ. destruct (Hc st) as (res & evs & Heq & Hres & Hevs & _).
  exists res, (extend st evs), evs. repeat split; assumption.
Qed.

Lemma Spec_ret {A} (a : A) : Spec P Q (ret a).
Proof. apply (Spec_frame 0), Frame_ret. Qed.

Lemma Spec_raise {A} (e : Exn) : Spec P Q (@raise A e).
Proof. apply (Spec_frame 0), Frame_raise. Qed.

Lemma Spec_assign (f : OrderClassificationRecord -> OrderClassificationRecord) :
  (forall r, Q r -> Q (f r)) -> Spec P Q (assign f).
Proof.
  intros Hf st HQ. eexists (Ret tt), _, []. unfold assign.
  split; [reflexivity|]. cbn. rewrite app_nil_r.
  repeat split; [discriminate | now apply Hf].
Qed.

Lemma Spec_bind {A B} (c : M A) (k : A -> M B) :
  Spec P Q c -> (forall a, Spec P Q (k a)) -> Spec P Q (bind c k).
Proof.
  intros Hc Hk st HQ.
  destruct (Hc st HQ) as (res & st1 & evs & Heq & Hres & Hdb & Htr & Hevs & HQ1).
  destruct res as [a|e|]; [| |congruence].
  - destruct (Hk a st1 HQ1)
      as (res' & st2 & evs' & Heq' & Hres' & Hdb' & Htr' & Hevs' & HQ2).
    exists res', st2, (evs ++ evs').
    rewrite (bind_ret_eq c k st st1 a Heq), Heq'.
    rewrite Hdb', Hdb, Htr', Htr, app_assoc, forallb_app, Hevs, Hevs'.
    repeat split; assumption.
  - exists (Raise e), st1, evs. rewrite (bind_raise_eq c k st st1 e Heq).
    repeat split; try assumption. discriminate.
Qed.

Lemma Spec_find (order_id_ : Z) (client_ : str) :
  Spec P Q (find_saved order_id_ client_).
Proof.
  intros st HQ. eexists (Ret _), st, []. unfold find_saved.
  rewrite app_nil_r. repeat split; [discriminate | assumption].
Qed.

Lemma Spec_engine {I : Imports} (W : World) (fuel : nat)
    (prompt client_ query : str) :
  chain_bounded W fuel ->
  (forall e, is_chain e = true -> P e = true) ->
  (forall s, P (EvSleep s) = true) ->
  Spec P Q (_get_order_emergency W fuel prompt client_ query).
Proof.
  intros Hb Hchain Hsleep st HQ.
  destruct (Hb prompt client_ query (count_events is_chain (trace st)))
    as (n & Hn & Hlim & Hnot).
  eexists _, _, _. split.
  { apply (engine_run W prompt client_ query n fuel st _ Hlim eq_refl Hnot Hn). }
  split.
  { destruct (chain_run W _ _ _ _); discriminate. }
  split; [reflexivity|]. split; [reflexivity|]. split; [|exact HQ].
  rewrite forallb_app. apply andb_true_iff. split.
  - clear Hlim Hnot Hn. induction n as [|n IH]; [reflexivity|].
    cbn [retries forallb]. rewrite Hchain, Hsleep by reflexivity. exact IH.
  - cbn. now rewrite Hchain.
Qed.

End SpecRules.

Lemma http_not_save (e : Event) : is_http e = true -> not_save e = true.
Proof. now destruct e. Qed.

Lemma read_only_not_save (e : Event) : read_only e = true -> not_save e = true.
Proof. intros H. now apply http_not_save, read_only_http. Qed.

Ltac spec_step :=
  lazymatch goal with
  | |- Spec _ _ (bind _ _) => apply Spec_bind; [|intros]
  | |- Spec _ _ (ret _) => apply Spec_ret
  | |- Spec _ _ (raise _) => apply Spec_raise
  | |- Spec _ _ (assign _) =>
      apply Spec_assign; intros [] HQ; exact HQ
  | |- Spec _ _ (find_saved _ _) => apply Spec_find
  | |- Spec _ _ (when_ ?b _) => destruct b; cbn [when_]
  | |- Spec _ _ (_get_order_details_by_id _ _) =>
      apply (Spec_frame _ _ 2),
            (Frame_weaken read_only not_save 2 _ read_only_not_save),
            Frame_details
  | |- Spec _ _ (_update_order_status_details _ _ _ _ _ _) =>
      apply (Spec_frame _ _ 2),
            (Frame_weaken is_http not_save 2 _ http_not_save), Frame_update
  | |- Spec _ _ (_send_message_to_internal_chat _ _ _) =>
      apply (Spec_frame _ _ 2),
            (Frame_weaken is_http not_save 2 _ http_not_save), Frame_chat
  | |- Spec _ _ (_get_order_emergency _ _ _ _ _) =>
      apply Spec_engine;
      [assumption | intros []; (discriminate || reflexivity) | reflexivity]
  | |- Spec _ _ (match ?x with _ => _ end) => destruct x
  end.

Section EveryRun.

Context {I : Imports} (W : World).
Variables (fuel : nat) (body : OrderClassificationRequest) (client_ : str).
Variable db_ : Store.

Let st0 := initial_state body db_.
Let run := get_emergency_class W fuel body client_ db_.



End EveryRun.

(* ================================================================== *)
(** * The retry is invisible *)

Lemma Uniform_ret {A} (a : A) : Uniform (ret a) (ret a).
Proof.
  intros st st' _. exists (Ret a), []. rewrite !extend_nil.
  repeat split. discriminate.
Qed.

Lemma Uniform_raise {A} (e : Exn) : Uniform (@raise A e) (raise e).
Proof.
  intros st st' _. exists (Raise e), []. rewrite !extend_nil.
  repeat split. discriminate.
Qed.

Lemma Uniform_lift {A} (o : Outcome A) : Uniform (lift o) (lift o).
Proof. destruct o; [apply Uniform_ret | apply Uniform_raise]. Qed.

Lemma Uniform_bind {A B} (c c' : M A) (k k' : A -> M B) :
  Uniform c c' -> (forall a, Uniform (k a) (k' a)) ->
  Uniform (bind c k) (bind c' k').
Proof.
  intros Hc Hk st st' Hcount.
  destruct (Hc st st' Hcount) as (res & evs & Heq & Heq' & Hres & Hevs).
  destruct res as [a|e|]; [| |congruence].
  - assert (Hcount' : count_events is_http (trace (extend st evs))
                      = count_events is_http (trace (extend st' evs)))
      by (cbn [extend trace]; now rewrite !count_events_app, Hcount).
    destruct (Hk a _ _ Hcount') as (res' & evs' & E & E' & Hres' & Hevs').
    exists res', (evs ++ evs').
    rewrite (bind_ret_eq c k _ _ a Heq), (bind_ret_eq c' k' _ _ a Heq'), E, E'.
    rewrite !extend_extend, forallb_app, Hevs, Hevs'. repeat split.
    assumption.
  - exists (Raise e), evs.
    rewrite (bind_raise_eq c k _ _ e Heq), (bind_raise_eq c' k' _ _ e Heq').
    repeat split; [discriminate | assumption].
Qed.

Section Uniformity.

Context {I : Imports} (W W' : World).
Hypothesis Hsame : same_outside W W'.

Lemma Uniform_requests (m : Method) (url_ : str) (body : option PyVal)
    (headers_ : PyVal) :
  Uniform (requests W m url_ body headers_) (requests W' m url_ body headers_).
Proof.
  intros st st' Hcount. unfold requests, bind, emit. rewrite <- Hcount.
  rewrite <- (proj1 Hsame).
  destruct (http W _ _) as [r|e]; cbn [lift].
  - exists (Ret r), [EvHttp
      {| method := m; url := url_; json_body := body; headers := headers_ |}].
    repeat split. discriminate.
  - exists (Raise e), [EvHttp
      {| method := m; url := url_; json_body := body; headers := headers_ |}].
    repeat split. discriminate.
Qed.

Lemma Uniform_subscript (v : PyVal) (key : str) :
  Uniform (subscript v key) (subscript v key).
Proof.
  destruct v; cbn [subscript]; try apply Uniform_raise.
  destruct (find _ items); [apply Uniform_ret | apply Uniform_raise].
Qed.

Lemma Uniform_auth : Uniform (_get_auth_token W) (_get_auth_token W').
Proof.
  unfold _get_auth_token.
  apply Uniform_bind; [apply Uniform_requests|]. intros response.
  destruct (negb (ok response)); [apply Uniform_raise|].
  apply Uniform_bind; [apply Uniform_lift|]. intros response_data.
  apply Uniform_bind; [apply Uniform_subscript|]. intros token.
  apply Uniform_ret.
Qed.


Lemma Uniform_update (order_id_ dept status : Z) (users inspectors : list Z) :
  Uniform
    (_update_order_status_details W order_id_ dept status users inspectors)
    (_update_order_status_details W' order_id_ dept status users inspectors).
Proof.
  unfold _update_order_status_details.
  apply Uniform_bind; [apply Uniform_auth|]. intros token.
  apply Uniform_bind; [apply Uniform_requests|]. intros response.
  apply Uniform_bind; [apply Uniform_lift|]. intros response_data.
  destruct (negb (ok response)); [apply Uniform_raise | apply Uniform_ret].
Qed.

Lemma Uniform_chat (order_id_ : Z) (msg : str) :
  Uniform (_send_message_to_internal_chat W order_id_ msg)
    (_send_message_to_internal_chat W' order_id_ msg).
Proof.
  unfold _send_message_to_internal_chat.
  apply Uniform_bind; [apply Uniform_auth|]. intros token.
  apply Uniform_bind; [apply Uniform_requests|]. intros response.
  apply Uniform_bind; [apply Uniform_lift|]. intros response_data.
  destruct (negb (ok response)); [apply Uniform_raise | apply Uniform_ret].
Qed.

End Uniformity.




Section SimRules.

Variables R R' R'' : State -> State -> Prop.








End SimRules.






Section Invisible.

Context {I : Imports} (W W' : World).
Variables (fuel n : nat).

Hypothesis Hfuel : (n < fuel)%nat.
Hypothesis Hsame : same_outside W W'.
Hypothesis Hchain :
  forall prompt client_ query,
    rate_limited W 0 n prompt client_ query
    /\ chain_run W n prompt client_ query = chain_run W' 0 prompt client_ query
    /\ is_rate_limit (chain_run W' 0 prompt client_ query) = false.




End Invisible.



(* ================================================================== *)
(** * The theorems at a concrete deployment *)

Lemma same_outside_refl (W : World) : same_outside W W.
Proof. now split. Qed.

Lemma fst_update_by_count {I : Imports} (W : World)
    (order_id_ dept status : Z) (users inspectors : list Z) (st st' : State) :
  count_events is_http (trace st) = count_events is_http (trace st') ->
  fst (_update_order_status_details W order_id_ dept status users inspectors st)
  = fst (_update_order_status_details W order_id_ dept status users inspectors
           st').
Proof.
  intros H.
  destruct (Uniform_update W W (same_outside_refl W) order_id_ dept status
              users inspectors st st' H) as (res & evs & -> & -> & _).
  reflexivity.
Qed.

Lemma fst_chat_by_count {I : Imports} (W : World) (order_id_ : Z) (msg : str)
    (st st' : State) :
  count_events is_http (trace st) = count_events is_http (trace st') ->
  fst (_send_message_to_internal_chat W order_id_ msg st)
  = fst (_send_message_to_internal_chat W order_id_ msg st').
Proof.
  intros H.
  destruct (Uniform_chat W W (same_outside_refl W) order_id_ msg st st' H)
    as (res & evs & -> & -> & _).
  reflexivity.
Qed.

Lemma sample_rate_limited (broken : nat -> bool) (limited : nat) (label : str)
    (classify update : bool) (prompt client_ query : str) :
  rate_limited (sample_world broken limited label classify update) 0 limited
    prompt client_ query.
Proof.
  intros i Hi. exists (py "Rate limit reached"). cbn. unfold sample_chain.
  apply Nat.ltb_lt in Hi. now rewrite Hi.
Qed.

(** C1 (as stated, refuted). With a record of order 42 in the store, a
    second classification for the same client does not stop at the gate
    before anything is persisted: the run returns a record that carries the
    Conflict message, and it has called the save with that record, a new
    record without identifier. *)
Lemma second_classification_is_saved :
  let I := sample_imports sample_uds in
  let W := sample_world never 0 EMERGENCY_LABEL true true in
  let second :=
    @get_emergency_class I W 1 (sample_request 1) sample_client
      [sample_saved] in
  let r := failed (HTTPException 409
                     (py "Order with ID 42 was already classified, history record ID 1"))
             (new_record (sample_request 1)) in
  get_saved_record_by_order_id [sample_saved] 42 sample_client
  = Some sample_saved
  /\ option_map comment (returned second)
     = Some (Some (py "Order with ID 42 was already classified, history record ID 1"))
  /\ trace (snd second) = [EvSave r sample_client]
  /\ id r = None.
Proof. vm_compute. repeat split. Qed.

(** C1 (amended), at a store that holds a record of order 42. *)
Lemma conflict_is_recorded_witness :
  let I := sample_imports sample_uds in
  let W := sample_world never 0 EMERGENCY_LABEL true true in
  let run :=
    @get_emergency_class I W 1 (sample_request 1) sample_client [sample_saved] in
  get_saved_record_by_order_id [sample_saved] 42 sample_client = Some sample_saved
  /\ option_map is_error (returned run) = Some true
  /\ option_map comment (returned run)
     = Some (Some (py "Order with ID 42 was already classified, history record ID 1"))
  /\ trace (snd run)
     = [EvSave (failed (HTTPException 409
                          (py "Order with ID 42 was already classified, history record ID 1"))
                  (new_record (sample_request 1))) sample_client].
Proof.
  intros I W run. split; [reflexivity|].
  destruct (@conflict_is_recorded I W 1 (sample_request 1) sample_client
              [sample_saved] sample_saved eq_refl)
    as (_ & Htrace & _ & _ & _ & returned_ & Hfst & Herr & Hcomment).
  unfold run, returned. rewrite Hfst, Htrace. cbn [option_map].
  rewrite Herr, Hcomment.
  split; [reflexivity|]. split; [vm_compute; reflexivity|].
  vm_compute. reflexivity.
Defined.

(** C7 at order 42 in status 5. *)
Lemma not_pending_is_invalid_state_witness :
  let I := sample_imports sample_uds in
  let W := sample_world never 0 EMERGENCY_LABEL true true in
  let run := @get_emergency_class I W 1 (sample_request 5) sample_client [] in
  get_saved_record_by_order_id [] 42 sample_client = None
  /\ 5 <> @PENDING I
  /\ fst (@try_block I W 1 (sample_request 5) sample_client
            (initial_state (sample_request 5) []))
     = Raise (HTTPException 400
                (py "Order with ID 42 has status ID 5, but status ID 1 required"))
  /\ option_map is_error (returned run) = Some true
  /\ count_events is_update_call (trace (snd run)) = 0%nat.
Proof.
  intros I W run. split; [reflexivity|].
  assert (Hne : 5 <> @PENDING I) by discriminate.
  split; [exact Hne|].
  destruct (@not_pending_is_invalid_state I W 1 (sample_request 5)
              sample_client [] eq_refl Hne)
    as (Htry & Hrun & Herr & _ & _ & Hcount).
  rewrite Htry. split; [vm_compute; reflexivity|].
  unfold run, returned. rewrite Hrun. cbn [fst option_map]. rewrite Herr.
  split; [reflexivity|]. rewrite Hrun in Hcount. exact Hcount.
Defined.

Lemma sample_chain_bounded (broken : nat -> bool) (limited fuel : nat)
    (label : str) (classify update : bool) :
  (limited < fuel)%nat ->
  chain_bounded (sample_world broken limited label classify update) fuel.
Proof.
  intros Hlt prompt client_ query base. exists (limited - base)%nat.
  split; [lia|]. split.
  - intros i Hi. exists (py "Rate limit reached"). cbn. unfold sample_chain.
    assert (H : (base + i <? limited)%nat = true) by (apply Nat.ltb_lt; lia).
    now rewrite H.
  - cbn. unfold sample_chain.
    assert (H : (base + (limited - base) <? limited)%nat = false)
      by (apply Nat.ltb_ge; lia).
    now rewrite H.
Qed.

Lemma sample_classified (uds_list : list UDS.t) (broken : nat -> bool)
    (update : bool) (label : str) :
  broken 0%nat = false -> broken 1%nat = false ->
  @Classified (sample_imports uds_list)
    (sample_world broken 2 label true update) 3 (sample_request 1)
    sample_client [] (sample_config true update) sample_details
    sample_comment sample_address 2 label.
Proof.
  intros H0 H1. unfold Classified.
  split; [reflexivity|]. split; [reflexivity|]. split; [reflexivity|].
  split; [reflexivity|]. split; [reflexivity|].
  split.
  { unfold _get_order_details_by_id, _get_auth_token, requests, bind, emit,
      lift. cbn [count_events trace initial_state filter length http
                 sample_world sample_http].
    unfold sample_http at 1. rewrite H0. vm_compute. rewrite H1.
    reflexivity. }
  split; [vm_compute; reflexivity|]. split; [vm_compute; reflexivity|].
  split; [vm_compute; reflexivity|]. split; [vm_compute; reflexivity|].
  split; [apply sample_rate_limited|]. split; [reflexivity | lia].
Qed.




(** C5 at a classifier that answers [" Аварийная "] (capital letter,
    surrounding spaces) and at one that answers ["обычная"]. *)
Lemma is_emergency_iff_label_witness :
  let I := sample_imports sample_uds in
  let run label :=
    @get_emergency_class I (sample_world never 2 label true true) 3
      (sample_request 1) sample_client [] in
  option_map is_emergency (returned (run (py " Аварийная "))) = Some (Some true)
  /\ option_map is_emergency (returned (run (py "обычная"))) = Some (Some false).
Proof.
  intros I run. split.
  - destruct (@is_emergency_iff_label I _ 3 (sample_request 1) sample_client []
                _ _ _ _ _ _
                (sample_classified sample_uds never true (py " Аварийная ")
                   eq_refl eq_refl))
      as (saved & Hfst & _ & _ & Hyes & _).
    unfold run, returned. rewrite Hfst. cbn [option_map]. f_equal.
    apply Hyes. vm_compute. reflexivity.
  - destruct (@is_emergency_iff_label I _ 3 (sample_request 1) sample_client []
                _ _ _ _ _ _
                (sample_classified sample_uds never true (py "обычная")
                   eq_refl eq_refl))
      as (saved & Hfst & _ & _ & _ & Hno).
    unfold run, returned. rewrite Hfst. cbn [option_map]. f_equal.
    apply Hno. vm_compute. discriminate.
Defined.

(** C8 (as stated, refuted). With classification disabled, a run whose
    order lookup is refused at the authentication ends before the emergency
    field is written: the field is unset, not the skipped-by-config
    marker. *)
Lemma disabled_run_without_marker :
  let I := sample_imports sample_uds in
  let W := sample_world (only 0) 0 EMERGENCY_LABEL false false in
  let run := @get_emergency_class I W 1 (sample_request 1) sample_client [] in
  option_map is_use_emergency_classification
    (get_default_config W sample_client) = Some false
  /\ option_map order_emergency (returned run) = Some None
  /\ option_map is_emergency (returned run) = Some None
  /\ option_map comment (returned run)
     = Some (Some (py "Domyland Auth: {'error': 'down'}")).
Proof. vm_compute. repeat split. Qed.

(** C8 (amended) at a run with classification disabled whose order lookup
    succeeds. *)
Lemma classification_disabled_witness :
  let I := sample_imports sample_uds in
  let W := sample_world never 0 EMERGENCY_LABEL false false in
  let run := @get_emergency_class I W 1 (sample_request 1) sample_client [] in
  get_saved_record_by_order_id [] 42 sample_client = None
  /\ orderStatusId (data (sample_request 1)) = @PENDING I
  /\ get_default_config W sample_client = Some (sample_config false false)
  /\ option_map is_emergency (returned run) = Some None
  /\ option_map order_emergency (returned run)
     = Some (Some (py "skipped by emergency classification config of user with ID 1"))
  /\ option_map is_error (returned run) = Some false
  /\ count_events is_update_call (trace (snd run)) = 0%nat
  /\ count_events is_chain (trace (snd run)) = 0%nat.
Proof.
  intros I W run. do 3 (split; [reflexivity|]).
  destruct (@classification_disabled I W 1 (sample_request 1) sample_client []
              (sample_config false false) eq_refl eq_refl)
    as (saved & Hfst & Hem & Hupd & Hchain & Hgates).
  destruct (Hgates eq_refl eq_refl) as [Hok _].
  edestruct Hok as [Hmarker Herr]; [vm_compute; reflexivity|].
  unfold run, returned. rewrite Hfst. cbn [option_map].
  rewrite Hem, Hmarker, Herr.
  split; [reflexivity|]. split; [vm_compute; reflexivity|].
  split; [reflexivity|]. split; assumption.
Defined.

(** C9 (as stated, refuted). With classification enabled, order updating
    disabled and the affirmative label, but no configured unit for the
    address, no responsible unit is recorded ([uds_id] is ["None"]), no
    marker is recorded as update request or response, and the run ends with
    the error of status 501. *)
Lemma no_unit_no_marker :
  let I := sample_imports [] in
  let W := sample_world never 0 EMERGENCY_LABEL true false in
  let run := @get_emergency_class I W 1 (sample_request 1) sample_client [] in
  option_map is_emergency (returned run) = Some (Some true)
  /\ option_map uds_id (returned run) = Some (Some (py "None"))
  /\ option_map order_update_request (returned run) = Some None
  /\ option_map order_update_response (returned run) = Some None
  /\ option_map is_error (returned run) = Some true
  /\ option_map comment (returned run)
     = Some (Some (py "Cannot find responsible UDS for order with ID 42 and address 'ул. Ленина 5'")).
Proof. vm_compute. repeat split. Qed.

(** C9 (amended) at a run with order updating disabled, once with the unit 7
    configured for the address and once with no unit configured. *)
Lemma updating_disabled_witness :
  let marker :=
    VDict [(py "result",
            VStr (py "skipped by emergency classification config of user with ID 1"))] in
  let run uds_list :=
    @get_emergency_class (sample_imports uds_list)
      (sample_world never 2 EMERGENCY_LABEL true false) 3
      (sample_request 1) sample_client [] in
  (option_map uds_id (returned (run sample_uds)) = Some (Some (py "[7]"))
   /\ option_map order_update_request (returned (run sample_uds))
      = Some (Some marker)
   /\ option_map order_update_response (returned (run sample_uds))
      = Some (Some marker)
   /\ option_map is_error (returned (run sample_uds)) = Some false
   /\ count_events is_update_call (trace (snd (run sample_uds))) = 0%nat)
  /\ (option_map uds_id (returned (run [])) = Some (Some (py "None"))
      /\ option_map order_update_request (returned (run [])) = Some None
      /\ option_map is_error (returned (run [])) = Some true
      /\ count_events is_update_call (trace (snd (run []))) = 0%nat).
Proof.
  intros marker run. split.
  - destruct (@updating_disabled (sample_imports sample_uds) _ 3
                (sample_request 1) sample_client [] _ _ _ _ _ _
                (sample_classified sample_uds never false EMERGENCY_LABEL
                   eq_refl eq_refl) eq_refl eq_refl)
      as (saved & Hfst & _ & Huds & Hcount & Hrest).
    change (@_get_responsible_users_ids_by_order_address
              (sample_imports sample_uds) sample_address)
      with (Some [7]) in Huds, Hrest.
    destruct Hrest as (Hreq & Hresp & Herr).
    unfold run, returned. rewrite Hfst. cbn [option_map].
    rewrite Huds, Hreq, Hresp, Herr.
    split; [vm_compute; reflexivity|]. split; [vm_compute; reflexivity|].
    split; [vm_compute; reflexivity|]. split; [reflexivity | exact Hcount].
  - destruct (@updating_disabled (sample_imports []) _ 3
                (sample_request 1) sample_client [] _ _ _ _ _ _
                (sample_classified [] never false EMERGENCY_LABEL
                   eq_refl eq_refl) eq_refl eq_refl)
      as (saved & Hfst & _ & Huds & Hcount & Hrest).
    change (@_get_responsible_users_ids_by_order_address
              (sample_imports []) sample_address)
      with (@None (list Z)) in Huds, Hrest.
    destruct Hrest as (Hreq & _ & Herr & _).
    unfold run, returned. rewrite Hfst. cbn [option_map].
    rewrite Huds, Hreq, Herr.
    split; [vm_compute; reflexivity|]. split; [reflexivity|].
    split; [reflexivity | exact Hcount].
Defined.

(** C10 at a run whose sixth request, the chat message, is refused. *)
Lemma chat_failure_leaves_update_unrecorded_witness :
  let I := sample_imports sample_uds in
  let W := sample_world (only 5) 2 EMERGENCY_LABEL true true in
  let run := @get_emergency_class I W 3 (sample_request 1) sample_client [] in
  option_map is_error (returned run) = Some true
  /\ option_map comment (returned run)
     = Some (Some (py "Order internal chat POST: {'error': 'down'}"))
  /\ option_map order_update_request (returned run) = Some None
  /\ option_map order_update_response (returned run) = Some None
  /\ count_events is_status_update (trace (snd run)) = 1%nat.
Proof.
  intros I W run.
  destruct (@chat_failure_leaves_update_unrecorded I W 3 (sample_request 1)
              sample_client [] _ _ _ _ _ _
              (sample_classified sample_uds (only 5) true EMERGENCY_LABEL
                 eq_refl eq_refl)
              [7]
              (VDict [],
               VDict [(py "responsibleDeptId", VInt 38);
                      (py "orderStatusId", VInt 2);
                      (py "responsibleUserIds", VList [VInt 7]);
                      (py "inspectorIds", VList [VInt 15698])])
              (HTTPException 500
                 (py "Order internal chat POST: {'error': 'down'}"))
              eq_refl eq_refl eq_refl)
    as (saved & Hfst & _ & _ & Herr & Hcomment & Hreq & Hresp & Hcount).
  - intros st Hst.
    rewrite (fst_update_by_count W _ _ _ _ _ st (after_requests 2))
      by (rewrite Hst; reflexivity).
    vm_compute. reflexivity.
  - intros st Hst.
    rewrite (fst_chat_by_count W _ _ st (after_requests 4))
      by (rewrite Hst; reflexivity).
    vm_compute. reflexivity.
  - unfold run, returned. rewrite Hfst. cbn [option_map].
    rewrite Herr, Hcomment, Hreq, Hresp.
    split; [reflexivity|]. split; [reflexivity|]. split; [reflexivity|].
    split; [reflexivity | exact Hcount].
Defined.

(* ================================================================== *)
(** * Further properties of the text normalizer *)

Lemma single_spaced_spaces (b : bool) (s : str) :
  single_spaced b s = true ->
  (forall c, In c s -> isspace c = true -> c = SP)
  /\ (forall pre c1 c2 post,
         s = pre ++ c1 :: c2 :: post -> isspace c1 = true ->
         isspace c2 = false).
Proof.
  revert b; induction s as [|c s IH]; intros b H.
  - split; [intros c [] | intros [|? ?] ? ? ? E; discriminate].
  - cbn [single_spaced] in H. destruct (isspace c) eqn:Hc.
    + apply andb_true_iff in H as [H H2]. apply andb_true_iff in H as [H0 _].
      apply Z.eqb_eq in H0. destruct (IH true H2) as [IH1 IH2]. split.
      * intros x [<-|Hx] Hs; [exact H0 | now apply IH1].
      * intros [|p pre] c1 c2 post E Hs; injection E as -> E.
        -- subst s. cbn [single_spaced] in H2.
           destruct (isspace c2); [|reflexivity].
           rewrite andb_false_r in H2. discriminate.
        -- now apply (IH2 pre c1 c2 post).
    + destruct (IH false H) as [IH1 IH2]. split.
      * intros x [<-|Hx] Hs; [congruence | now apply IH1].
      * intros [|p pre] c1 c2 post E Hs; injection E as -> E.
        -- congruence.
        -- now apply (IH2 pre c1 c2 post).
Qed.

Lemma has_url_suffix (pre post : str) :
  has_url (pre ++ post) = false -> url_at post = false.
Proof.
  induction pre as [|c pre IH]; cbn [app].
  - destruct post as [|c post]; [reflexivity|]. cbn [has_url].
    now intros [H _]%orb_false_iff.
  - cbn [has_url]. intros [_ H]%orb_false_iff. now apply IH.
Qed.

(** X1. The text the normalizer returns, for every input: each of its
    whitespace characters is a space, no whitespace character is followed by
    another one (so it holds no line break and no run of spaces), and the
    pattern [http\S+] matches nowhere in it. *)
Theorem normalize_output_clean (x : str) :
  let y := _normalize_resident_request_string x in
  (forall c, In c y -> isspace c = true -> c = SP)
  /\ (forall pre c1 c2 post,
         y = pre ++ c1 :: c2 :: post -> isspace c1 = true ->
         isspace c2 = false)
  /\ (forall pre post, y = pre ++ post -> url_at post = false).
Proof.
  intros y. destruct (normalized_shape x) as [Hsp Hurl]. fold y in Hsp, Hurl.
  destruct (single_spaced_spaces false y Hsp) as [H1 H2].
  split; [exact H1|]. split; [exact H2|].
  intros pre post E. apply (has_url_suffix pre). now rewrite <- E.
Qed.

Lemma normalize_steps_length (x : str) :
  (length (sub_spaces false
             (sub_urls false
                (replace PHOTO_PLACEHOLDER [SP] (replace [LF] [SP] x))))
   <= length (replace PHOTO_PLACEHOLDER [SP] (replace [LF] [SP] x))
   <= length x)%nat.
Proof.
  pose proof (sub_spaces_length false
    (sub_urls false (replace PHOTO_PLACEHOLDER [SP] (replace [LF] [SP] x)))).
  pose proof (sub_urls_length false
    (replace PHOTO_PLACEHOLDER [SP] (replace [LF] [SP] x))).
  pose proof (replace_from_length PHOTO_PLACEHOLDER [SP] 0 (replace [LF] [SP] x)).
  pose proof (replace_from_length [LF] [SP] 0 x).
  unfold replace in *. simpl in *. lia.
Qed.

(** X2. The normalizer never returns a text longer than its input. *)
Theorem normalize_never_longer (x : str) :
  (length (_normalize_resident_request_string x) <= length x)%nat.
Proof.
  unfold _normalize_resident_request_string. cbn zeta.
  pose proof (normalize_steps_length x). lia.
Qed.

(** X3. The texts the normalizer leaves unchanged are exactly the texts in
    which every whitespace character is a single space that follows no other
    whitespace, in which [http\S+] matches nowhere and in which the photo
    placeholder does not occur. *)
Theorem normalize_fixed_points (x : str) :
  _normalize_resident_request_string x = x
  <-> single_spaced false x = true /\ has_url x = false
      /\ contains PHOTO_PLACEHOLDER x = false.
Proof.
  split.
  - intros Hfix. destruct (normalized_shape x) as [Hsp Hurl].
    rewrite Hfix in Hsp, Hurl. split; [exact Hsp|]. split; [exact Hurl|].
    destruct (contains PHOTO_PLACEHOLDER x) eqn:Hc; [exfalso | reflexivity].
    assert (Hlf : replace [LF] [SP] x = x)
      by (apply replace_absent; now apply single_spaced_no_line_break with false).
    pose proof (normalize_steps_length x) as Hlen. rewrite Hlf in Hlen.
    assert ((length (replace PHOTO_PLACEHOLDER [SP] x) < length x)%nat)
      by (apply replace_present_shorter; [cbn; lia | exact Hc]).
    apply (f_equal (@length Z)) in Hfix.
    unfold _normalize_resident_request_string in Hfix. cbn zeta in Hfix.
    rewrite Hlf in Hfix. lia.
  - intros (Hsp & Hurl & Hc).
    unfold _normalize_resident_request_string. cbn zeta.
    rewrite (replace_absent [LF] [SP] x)
      by now apply single_spaced_no_line_break with false.
    rewrite (replace_absent _ _ _ Hc), (no_url_fixed _ Hurl).
    now apply single_spaced_fixed.
Qed.

(* ================================================================== *)
(** * Further properties of the resolver *)

Section ResolverMore.

Context {I : Imports}.

Lemma resolver_found (uds_list : list UDS.t) (order_address_ : str)
    (ids : list Z) :
  responsible_users_ids_in uds_list order_address_ = Some ids ->
  exists pre u post,
    uds_list = pre ++ u :: post
    /\ (forall v, In v pre -> ~ covers v order_address_)
    /\ covers u order_address_ /\ ids = [UDS.user_id u].
Proof.
  induction uds_list as [|v l IH]; cbn [responsible_users_ids_in];
    [discriminate|].
  destruct (uds_matches order_address_ v) eqn:Hv.
  - intros [= <-]. exists [], v, l. split; [reflexivity|].
    split; [intros w []|]. split; [now apply uds_matches_covers | reflexivity].
  - intros H. destruct (IH H) as (pre & u & post & -> & Hpre & Hu & ->).
    exists (v :: pre), u, post. split; [reflexivity|]. split; [|now split].
    intros w [<-|Hw]; [|now apply Hpre].
    intros Hc. apply uds_matches_covers in Hc. congruence.
Qed.

(** X4. Whatever the resolver returns is the identifier of a configured
    unit, alone in the list, and that unit is the first one in
    configuration order with an address substring contained in the order
    address (both lower-cased): the resolver never returns an identifier
    that is not configured, and never more than one. *)
Theorem resolver_returns_first_covering_unit (order_address_ : str)
    (ids : list Z) :
  _get_responsible_users_ids_by_order_address order_address_ = Some ids ->
  exists pre u post,
    RESPONSIBLE_UDS_LIST = pre ++ u :: post
    /\ (forall v, In v pre -> ~ covers v order_address_)
    /\ covers u order_address_ /\ ids = [UDS.user_id u].
Proof. apply resolver_found. Qed.

(** X5. Two edge cases of the configuration. A unit with no address
    substring at all is never chosen: the scan goes on as if it were not
    configured. A unit that has the empty string among its address
    substrings is chosen for every order address, whatever the address is
    (the empty string is contained in every string; [str.lower] maps it to
    itself). *)
Theorem resolver_empty_configurations (u : UDS.t) (rest : list UDS.t)
    (order_address_ : str) :
  (UDS.address_list u = [] ->
   responsible_users_ids_in (u :: rest) order_address_
   = responsible_users_ids_in rest order_address_)
  /\ (lower [] = [] -> In [] (UDS.address_list u) ->
      responsible_users_ids_in (u :: rest) order_address_
      = Some [UDS.user_id u]).
Proof.
  split.
  - intros H. cbn [responsible_users_ids_in]. unfold uds_matches.
    now rewrite H.
  - intros Hlow Hin.
    apply (resolver_scan [] rest u order_address_); [intros v []|].
    exists []. split; [exact Hin|]. rewrite Hlow.
    destruct (lower order_address_); reflexivity.
Qed.

(** X6. Units configured after the one that is found do not matter: when
    the resolver finds a unit in a list of units, it finds the same unit in
    every list that extends it at the end. *)
Theorem resolver_stable_under_extension (uds_list more : list UDS.t)
    (order_address_ : str) (ids : list Z) :
  responsible_users_ids_in uds_list order_address_ = Some ids ->
  responsible_users_ids_in (uds_list ++ more) order_address_ = Some ids.
Proof.
  induction uds_list as [|v l IH]; cbn [responsible_users_ids_in app];
    [discriminate|].
  destruct (uds_matches order_address_ v); [trivial | exact IH].
Qed.

End ResolverMore.

Lemma resolver_returns_first_covering_unit_witness :
  let a := {| UDS.user_id := 3; UDS.address_list := [py "мира"] |} in
  let b := {| UDS.user_id := 7; UDS.address_list := [py "садовая"; py "ленина"] |} in
  @_get_responsible_users_ids_by_order_address (sample_imports [a; b])
    (py "ул. Ленина 5") = Some [7]
  /\ exists pre u post,
       [a; b] = pre ++ u :: post /\ UDS.user_id u = 7
       /\ @covers (sample_imports [a; b]) u (py "ул. Ленина 5").
Proof.
  intros a b.
  assert (H : @_get_responsible_users_ids_by_order_address
                (sample_imports [a; b]) (py "ул. Ленина 5") = Some [7])
    by reflexivity.
  split; [exact H|].
  destruct (@resolver_returns_first_covering_unit (sample_imports [a; b]) _ _ H)
    as (pre & u & post & E & _ & Hu & Hid).
  exists pre, u, post. split; [exact E|]. split; [congruence | exact Hu].
Defined.

Lemma resolver_empty_configurations_witness :
  let silent := {| UDS.user_id := 3; UDS.address_list := [] |} in
  let greedy := {| UDS.user_id := 9; UDS.address_list := [py "мира"; []] |} in
  @responsible_users_ids_in (sample_imports []) (silent :: sample_uds)
    (py "ул. Ленина 5") = Some [7]
  /\ @responsible_users_ids_in (sample_imports []) (greedy :: sample_uds)
       (py "ул. Ленина 5") = Some [9].
Proof.
  intros silent greedy. split.
  - rewrite (proj1 (@resolver_empty_configurations (sample_imports []) silent
                      sample_uds (py "ул. Ленина 5")) eq_refl).
    reflexivity.
  - apply (proj2 (@resolver_empty_configurations (sample_imports []) greedy
                    sample_uds (py "ул. Ленина 5")) eq_refl).
    right. now left.
Defined.

Lemma resolver_stable_under_extension_witness :
  let later := {| UDS.user_id := 9; UDS.address_list := [py "ул."] |} in
  @responsible_users_ids_in (sample_imports []) sample_uds (py "ул. Ленина 5")
  = Some [7]
  /\ @responsible_users_ids_in (sample_imports []) (sample_uds ++ [later])
       (py "ул. Ленина 5") = Some [7].
Proof.
  intros later.
  assert (H : @responsible_users_ids_in (sample_imports []) sample_uds
                (py "ул. Ленина 5") = Some [7]) by reflexivity.
  split; [exact H|].
  exact (@resolver_stable_under_extension (sample_imports []) sample_uds
           [later] _ _ H).
Defined.

(* ================================================================== *)
(** * Further properties of the operations on the order-management system *)

Section Operations.

Context {I : Imports} (W : World).

Section Generic.

Context {A : Type}.
Variables (m : Method) (url_ : str) (body : option PyVal) (prefix : str).
Variable finish : PyVal -> M A.

Lemma operation_auth_first : AuthFirst W (operation W m url_ body prefix finish).
Proof.
  intros st e st1 Hauth. unfold operation.
  now rewrite (bind_raise_eq _ _ _ _ _ Hauth).
Qed.

Lemma operation_request (st st1 : State) (token : PyVal) :
  _get_auth_token W st = (Ret token, st1) ->
  operation W m url_ body prefix finish st
  = (response <- lift (http W (count_events is_http (trace st1))
                         (authorized_request m url_ body token)) ;;
     response_data <- lift (json response) ;;
     if negb (ok response) then
       raise (HTTPException (status_code response)
                (fstring [prefix; repr response_data]))
     else finish response_data)
      (extend st1 [EvHttp (authorized_request m url_ body token)]).
Proof.
  intros Hauth. unfold operation. rewrite (bind_ret_eq _ _ _ _ _ Hauth).
  unfold requests. reflexivity.
Qed.

Lemma operation_decodes_first :
  DecodesFirst W (operation W m url_ body prefix finish) m url_ body.
Proof.
  intros st token st1 r e Hauth Hhttp Hjson.
  rewrite (operation_request st st1 token Hauth), Hhttp.
  unfold bind, lift, ret, raise. now rewrite Hjson.
Qed.

Lemma operation_reports_status :
  ReportsStatus W (operation W m url_ body prefix finish) m url_ body prefix.
Proof.
  intros st token st1 r v Hauth Hhttp Hjson Hok.
  rewrite (operation_request st st1 token Hauth), Hhttp.
  unfold bind, lift, ret, raise. now rewrite Hjson, Hok.
Qed.

End Generic.

(** After the authentication an operation makes one request, whatever
    the response and the token. *)
Lemma operation_sends {A} (m : Method) (url_ : str)
    (body : option PyVal) (prefix : str) (finish : PyVal -> M A) :
  (forall v st, trace (snd (finish v st)) = trace st) ->
  forall st token st1,
    _get_auth_token W st = (Ret token, st1) ->
    trace (snd (operation W m url_ body prefix finish st))
    = trace st1 ++ [EvHttp (authorized_request m url_ body token)].
Proof.
  intros Hfin st token st1 Hauth.
  rewrite (operation_request m url_ body prefix finish st st1 token Hauth).
  unfold bind at 1. destruct (http W _ _) as [r|e]; cbn [lift];
    [|reflexivity].
  unfold ret at 1. unfold bind at 1.
  destruct (json r) as [v|e]; cbn [lift]; [|reflexivity].
  unfold ret at 1. destruct (negb (ok r)); [reflexivity|].
  now rewrite Hfin.
Qed.

Lemma operation_sends_with_token {A} (m : Method) (url_ : str)
    (body : option PyVal) (prefix : str) (finish : PyVal -> M A) :
  (forall v st, trace (snd (finish v st)) = trace st) ->
  SendsWithToken W (operation W m url_ body prefix finish) m url_ body.
Proof.
  intros Hfin st token st1 Hauth.
  pose proof (operation_sends m url_ body prefix finish Hfin st token st1
                Hauth) as Htrace.
  split; intros; subst token; exact Htrace.
Qed.

(** Each operation is an instance of the shared shape, and what follows
    the decoding of the body sends nothing. *)
Lemma each_operation_intro
    (contract : forall A, M A -> Method -> str -> option PyVal -> str -> Prop) :
  (forall A m url_ body prefix (finish : PyVal -> M A),
      (forall v st, trace (snd (finish v st)) = trace st) ->
      contract A (operation W m url_ body prefix finish) m url_ body prefix) ->
  each_operation W contract.
Proof.
  intros H. unfold each_operation. split; [|split; [|split; [|split]]]; intros.
  - apply (H _ GET _ None _
             (fun response_data =>
                order_details_ <- lift (parse_order_details response_data) ;;
                ret order_details_)).
    intros v st. unfold bind, lift, ret.
    now destruct (parse_order_details v).
  - apply (H _ PUT _ (Some _) _ (fun response_data => ret (response_data, _))).
    reflexivity.
  - apply (H _ GET _ None _ (fun response_data => ret response_data)).
    reflexivity.
  - apply (H _ PUT _ (Some _) _ (fun response_data => ret (response_data, _))).
    reflexivity.
  - apply (H _ POST _ (Some _) _ (fun response_data => ret (response_data, _))).
    reflexivity.
Qed.

(** The outcomes of [_get_auth_token]. *)
Lemma auth_token_outcomes (st : State) :
  exists res,
    _get_auth_token W st = (res, extend st [EvHttp auth_request])
    /\ match http W (count_events is_http (trace st)) auth_request with
       | Raises e => res = Raise e
       | Returns r =>
           if ok r then
             match json r with
             | Raises e => res = Raise e
             | Returns v =>
                 match dict_get (py "token") v with
                 | Some token => res = Ret token
                 | None => exists msg, res = Raise (OtherError msg)
                 end
             end
           else res = Raise (HTTPException (status_code r)
                               (fstring [py "Domyland Auth: "; text r]))
       end.
Proof.
  unfold _get_auth_token, requests, _get_domyland_headers.
  fold auth_request. unfold bind, emit. cbn [fst snd].
  fold (extend st [EvHttp auth_request]).
  destruct (http W _ auth_request) as [r|e]; cbn [lift];
    [|eexists; split; reflexivity].
  unfold ret at 1. destruct (ok r); cbn [negb];
    [|eexists; split; reflexivity].
  destruct (json r) as [v|e]; cbn [lift]; [|eexists; split; reflexivity].
  unfold ret at 1. unfold subscript, dict_get.
  destruct v as [| | | | |items];
    try (eexists; split; [reflexivity|]; eexists; reflexivity).
  destruct (find _ items) as [kv|]; cbn [option_map].
  - eexists. split; reflexivity.
  - eexists. split; [reflexivity|]. eexists. reflexivity.
Qed.

(** X7. [_get_auth_token] sends exactly one request, the [POST] of the
    credentials to [/auth] without an [Authorization] header, whatever comes
    of it. A response that is not ok raises an [HTTPException] with the
    status code of the response and its raw text, and its body is never
    decoded; on an ok response the token is returned exactly when the body
    decodes to an object with the key ["token"]. *)
Theorem auth_token_contract (st : State) :
  let outcome := http W (count_events is_http (trace st)) auth_request in
  snd (_get_auth_token W st) = extend st [EvHttp auth_request]
  /\ (forall r, outcome = Returns r -> ok r = false ->
        fst (_get_auth_token W st)
        = Raise (HTTPException (status_code r)
                   (fstring [py "Domyland Auth: "; text r])))
  /\ (forall r token, outcome = Returns r -> ok r = true ->
        fst (_get_auth_token W st) = Ret token
        <-> exists v, json r = Returns v
                      /\ dict_get (py "token") v = Some token).
Proof.
  intros outcome. subst outcome.
  destruct (auth_token_outcomes st) as (res & -> & Hres). cbn [fst snd].
  split; [reflexivity|]. split.
  - intros r Hr Hok. now rewrite Hr, Hok in Hres.
  - intros r token Hr Hok. rewrite Hr, Hok in Hres.
    destruct (json r) as [v|e].
    + destruct (dict_get (py "token") v) as [t|] eqn:Hv.
      * subst res. split.
        -- intros [= <-]. now exists v.
        -- intros (v' & [= <-] & Hv'). congruence.
      * destruct Hres as (msg & ->). split; [discriminate|].
        intros (v' & [= <-] & Hv'). congruence.
    + subst res. split; [discriminate|]. intros (v & Hv & _). discriminate.
Qed.

(** X8. Each of the five operations on the order-management system (order
    lookup, emergency-status update, status lookup, status update, chat
    message) authenticates first: when the authentication fails, the
    operation fails with the same exception and sends nothing after the
    authentication request. *)
Theorem operations_authenticate_first :
  each_operation W (fun A c _ _ _ _ => AuthFirst W c).
Proof.
  apply each_operation_intro. intros A m url_ body prefix finish _.
  apply operation_auth_first.
Qed.

(** X9. After an authentication that returns a token, each of the five
    operations calls the HTTP client exactly once more, whatever the
    response, with its own method, URL and body: a token that is a string is
    sent as the [Authorization] header beside [AppName], and for a token
    that is [None] (a JSON [null] in the response of the authentication) the
    request carries the [AppName] header only. *)
Theorem operations_send_one_request_with_token :
  each_operation W (fun A c m url_ body _ => SendsWithToken W c m url_ body).
Proof.
  apply each_operation_intro. intros A m url_ body prefix finish Hfin.
  now apply operation_sends_with_token with (prefix := prefix).
Qed.

(** X10. Each of the five operations decodes the body of the response before
    it looks at the status: when the body does not decode, the operation
    raises the decoding error, also for a response that is not ok, whose
    status code is then lost. *)
Theorem operations_decode_before_status :
  each_operation W (fun A c m url_ body _ => DecodesFirst W c m url_ body).
Proof.
  apply each_operation_intro. intros A m url_ body prefix finish _.
  apply operation_decodes_first.
Qed.

(** X11. When the response to one of the five operations is not ok and its
    body decodes, the operation raises an [HTTPException] that carries the
    status code of the response, with the prefix of the operation followed
    by the decoded body as detail. *)
Theorem operations_report_upstream_status :
  each_operation W
    (fun A c m url_ body prefix => ReportsStatus W c m url_ body prefix).
Proof.
  apply each_operation_intro. intros A m url_ body prefix finish _.
  apply operation_reports_status.
Qed.

End Operations.

(* ================================================================== *)
(** * Further properties of the gates of the orchestrator *)

Section Gates.

Context {I : Imports} (W : World).
Variables (fuel : nat) (body : OrderClassificationRequest) (client_ : str).
Variable db_ : Store.

Let order_id_ := orderId (data body).
Let st0 := initial_state body db_.
Let run := get_emergency_class W fuel body client_ db_.

Hypothesis Hfind : get_saved_record_by_order_id db_ order_id_ client_ = None.
Hypothesis Hstatus : orderStatusId (data body) = PENDING.

(** X12. For a new order in status [PENDING] of a client without a default
    configuration, the run fails with status 500 before any request to the
    order-management system: the record that is saved and returned has its
    error flag set and names the configuration user and the client in its
    comment, and nothing of the order is fetched. *)
Theorem missing_configuration_is_recorded :
  get_default_config W client_ = None ->
  let detail :=
    fstring [py "Default order classification config (for user with ID ";
             str_of_int DEFAULT_CONFIG_USER_ID; py " and client ";
             client_; py ") not found"] in
  let r := failed (HTTPException HTTP_500_INTERNAL_SERVER_ERROR detail)
             (new_record body) in
  fst (try_block W fuel body client_ st0)
  = Raise (HTTPException HTTP_500_INTERNAL_SERVER_ERROR detail)
  /\ run
     = (Ret (stored db_ client_ r),
        {| history_record := stored db_ client_ r;
           db := db_ ++ [stored db_ client_ r];
           trace := [EvSave r client_] |})
  /\ is_error (stored db_ client_ r) = true
  /\ comment (stored db_ client_ r) = Some detail
  /\ order_details (stored db_ client_ r) = None.
Proof.
  intros Hcfg detail r.
  assert (Htry : try_block W fuel body client_ st0
                 = (Raise (HTTPException HTTP_500_INTERNAL_SERVER_ERROR detail),
                    st0)).
  { unfold try_block. unfold bind at 1. unfold find_saved at 1.
    subst st0 order_id_. cbn [db initial_state] in *.
    gate Hfind. rewrite Hstatus, Z.eqb_refl. cbn -[try_block].
    gate Hcfg. reflexivity. }
  split; [now rewrite Htry|]. split.
  { subst run. rewrite (run_of_try _ _ _ _ _ _ _ Htry);
      [reflexivity|discriminate|reflexivity]. }
  repeat split.
Qed.

(** X13. With classification enabled, a new [PENDING] order whose alert is
    not of type [NEW_ORDER] is refused with status 400 before any request to
    the order-management system; the record that is saved and returned has
    its error flag set and the alert-type message as comment. *)
Theorem wrong_alert_type_is_recorded (cfg : OrderClassificationConfig) :
  get_default_config W client_ = Some cfg ->
  is_use_emergency_classification cfg = true ->
  alertTypeId body <> NEW_ORDER ->
  let detail :=
    fstring [py "Order with ID "; str_of_int order_id_;
             py " has alert type ID "; str_of_int (alertTypeId body);
             py ", but status ID "; str_of_int NEW_ORDER; py " required"] in
  let r := failed (HTTPException HTTP_400_BAD_REQUEST detail)
             (new_record body) in
  fst (try_block W fuel body client_ st0)
  = Raise (HTTPException HTTP_400_BAD_REQUEST detail)
  /\ run
     = (Ret (stored db_ client_ r),
        {| history_record := stored db_ client_ r;
           db := db_ ++ [stored db_ client_ r];
           trace := [EvSave r client_] |})
  /\ is_error (stored db_ client_ r) = true
  /\ comment (stored db_ client_ r) = Some detail.
Proof.
  intros Hcfg Hon Halert detail r.
  assert (Htry : try_block W fuel body client_ st0
                 = (Raise (HTTPException HTTP_400_BAD_REQUEST detail), st0)).
  { unfold try_block. unfold bind at 1. unfold find_saved at 1.
    subst st0 order_id_. cbn [db initial_state] in *.
    gate Hfind. rewrite Hstatus, Z.eqb_refl. cbn -[try_block].
    gate Hcfg. gate Hon. apply Z.eqb_neq in Halert. gate Halert.
    reflexivity. }
  split; [now rewrite Htry|]. split.
  { subst run. rewrite (run_of_try _ _ _ _ _ _ _ Htry);
      [reflexivity|discriminate|reflexivity]. }
  repeat split.
Qed.

End Gates.

Section Fetched.

Context {I : Imports} (W : World).
Variables (fuel : nat) (body : OrderClassificationRequest) (client_ : str).
Variable db_ : Store.
Variables (cfg : OrderClassificationConfig) (d : OrderDetails).

Let order_id_ := orderId (data body).
Let st0 := initial_state body db_.
Let run := get_emergency_class W fuel body client_ db_.

Hypothesis Hfind : get_saved_record_by_order_id db_ order_id_ client_ = None.
Hypothesis Hstatus : orderStatusId (data body) = PENDING.
Hypothesis Hcfg : get_default_config W client_ = Some cfg.
Hypothesis Hon : is_use_emergency_classification cfg = true.
Hypothesis Halert : alertTypeId body = NEW_ORDER.
Hypothesis Hfetch : fst (_get_order_details_by_id W order_id_ st0) = Ret d.

(** X14. With classification enabled, when the fetched order has no comment
    field, or its comment is blank, the run fails with status 422 and never
    calls the classifier or an update endpoint. The record that is saved and
    returned has its error flag set and the no-comment message as comment;
    it keeps the order details and the comment found, and no address. *)
Theorem blank_comment_is_unprocessable :
  match resident_comment d with
  | Some q => nonempty (strip q) = false
  | None => True
  end ->
  exists saved,
    fst run = Ret saved
    /\ is_error saved = true
    /\ comment saved
       = Some (fstring [py "Order with ID "; str_of_int order_id_;
                        py " has no comment, cannot classify emergency"])
    /\ order_details saved = Some d
    /\ order_query saved = resident_comment d
    /\ order_address saved = None
    /\ order_emergency saved = None
    /\ count_events is_chain (trace (snd run)) = 0%nat
    /\ count_events is_update_call (trace (snd run)) = 0%nat.
Proof.
  intros Hblank. subst run order_id_ st0.
  destruct (details_returned _ _ _ _ Hfetch) as (evs & Hd & Hevs & Hlen).
  pose proof (read_only_no_chain _ Hevs) as Hnochain.
  pose proof (read_only_count_update _ Hevs) as Hnoupd.
  destruct (resident_comment d) as [q|] eqn:Hq;
    (eassert (Htry : try_block W fuel body client_ (initial_state body db_)
                     = _);
     [unfold try_block; unfold bind at 1; unfold find_saved at 1;
      cbn [db initial_state] in *;
      repeat use_hyp; use_details; gate Hq; try gate Hblank; reflexivity|]);
    (rewrite (run_of_try W fuel body client_ db_ (Raise _) _ Htry);
     [|discriminate|reflexivity]);
    (eexists; split; [reflexivity|]);
    cbn [fst snd trace db history_record extend initial_state app];
    do 6 (split; [reflexivity|]);
    rewrite !count_events_app, Hnochain, Hnoupd; split; reflexivity.
Qed.

(** X15. With classification enabled and a comment that is not blank, when
    the fetched order has no address field, or its address is blank, the run
    fails with status 422 before the classifier is called: the record keeps
    the comment and the address found, has no normalized comment and no
    classifier output, and carries the no-address message as comment. *)
Theorem blank_address_is_unprocessable (q : str) :
  resident_comment d = Some q -> nonempty (strip q) = true ->
  match resident_address d with
  | Some a => nonempty (strip a) = false
  | None => True
  end ->
  exists saved,
    fst run = Ret saved
    /\ is_error saved = true
    /\ comment saved
       = Some (fstring [py "Order with ID "; str_of_int order_id_;
                        py " has no address, cannot find responsible UDS"])
    /\ order_query saved = Some q
    /\ order_address saved = resident_address d
    /\ order_normalized_query saved = None
    /\ order_emergency saved = None
    /\ count_events is_chain (trace (snd run)) = 0%nat
    /\ count_events is_update_call (trace (snd run)) = 0%nat.
Proof.
  intros Hq Hqn Hblank. subst run order_id_ st0.
  destruct (details_returned _ _ _ _ Hfetch) as (evs & Hd & Hevs & Hlen).
  pose proof (read_only_no_chain _ Hevs) as Hnochain.
  pose proof (read_only_count_update _ Hevs) as Hnoupd.
  destruct (resident_address d) as [a|] eqn:Ha;
    (eassert (Htry : try_block W fuel body client_ (initial_state body db_)
                     = _);
     [unfold try_block; unfold bind at 1; unfold find_saved at 1;
      cbn [db initial_state] in *;
      repeat use_hyp; use_details; repeat use_hyp; try gate Ha;
      try gate Hblank; reflexivity|]);
    (rewrite (run_of_try W fuel body client_ db_ (Raise _) _ Htry);
     [|discriminate|reflexivity]);
    (eexists; split; [reflexivity|]);
    cbn [fst snd trace db history_record extend initial_state app];
    do 6 (split; [reflexivity|]);
    rewrite !count_events_app, Hnochain, Hnoupd; split; reflexivity.
Qed.

End Fetched.

(* ================================================================== *)
(** * Further properties of the extraction of the comment and the address *)

Lemma fold_left_last_match {A B} (p : A -> bool) (g : A -> B) (l : list A)
    (init : B) :
  fold_left (fun acc x => if p x then g x else acc) l init
  = match find p (rev l) with Some x => g x | None => init end.
Proof.
  induction l as [|x l IH] using rev_ind; [reflexivity|].
  rewrite fold_left_app, rev_app_distr. cbn [fold_left rev app find].
  destruct (p x); [reflexivity | exact IH].
Qed.

(** X16. The comment of an order is the value of the last form field of
    type [TEXT] titled [COMMENT], and its address the value of the last
    summary field titled [OBJECT]: a later matching field overrides an
    earlier one, also when its own value is missing, and without a matching
    field there is none. *)
Theorem resident_fields_take_last_match {I : Imports} (d : OrderDetails) :
  resident_comment d
  = match find (fun f => str_eqb (type f) TEXT && str_eqb (title f) COMMENT)
            (rev (service_orderForm d)) with
    | Some f => value f
    | None => None
    end
  /\ resident_address d
     = match find (fun f => str_eqb (title f) OBJECT)
               (rev (order_summary d)) with
       | Some f => value f
       | None => None
       end.
Proof.
  split.
  - apply (fold_left_last_match
             (fun f => str_eqb (type f) TEXT && str_eqb (title f) COMMENT)
             value).
  - apply (fold_left_last_match (fun f => str_eqb (title f) OBJECT) value).
Qed.

(* ================================================================== *)
(** * Further properties of the dispatch *)

Section UpdateCalls.

Context {I : Imports} (W : World).

(** A chat message that returns has made two requests: the authentication
    and the [POST] of the message. *)
Lemma chat_returned (order_id_ : Z) (msg : str) (st st' : State)
    (sent : PyVal * PyVal) :
  _send_message_to_internal_chat W order_id_ msg st = (Ret sent, st') ->
  exists e1 e2,
    st' = extend st [e1; e2]
    /\ read_only e1 = true /\ is_http e2 = true
    /\ is_status_update e2 = false /\ is_chat_post e2 = true.
Proof.
  unfold _send_message_to_internal_chat.
  destruct (Frame_auth W st) as (res & evs & Heq & _ & Hevs & Hn).
  unfold bind at 1. rewrite Heq. destruct res as [token| |]; try discriminate.
  specialize (Hn token eq_refl).
  destruct evs as [|e1 [|? ?]]; try discriminate.
  cbn in Hevs. rewrite andb_true_r in Hevs.
  unfold bind at 1. unfold requests at 1. unfold bind at 1. cbn [emit extend].
  cbn [trace history_record db].
  destruct (http W _ _) as [response|err]; cbn [lift]; [|discriminate].
  unfold ret at 1. unfold bind at 1.
  destruct (json response) as [response_data|err]; cbn [lift];
    [|discriminate].
  unfold ret at 1. destruct (negb (ok response)); [discriminate|].
  unfold ret. intros [= <- <-].
  eexists e1, (EvHttp _). split.
  - unfold extend. cbn. rewrite <- app_assoc. reflexivity.
  - repeat split; assumption || reflexivity.
Qed.

(** A status update never posts a chat message. *)
Lemma Frame_update_no_chat (order_id_ dept status : Z)
    (users inspectors : list Z) :
  Frame (fun e => is_http e && negb (is_chat_post e)) 2
    (_update_order_status_details W order_id_ dept status users inspectors).
Proof.
  set (P := fun e => is_http e && negb (is_chat_post e)).
  unfold _update_order_status_details.
  apply (@Frame_bind _ _ P 1 1).
  { apply (Frame_weaken read_only P 1); [|apply Frame_auth].
    intros ev H. unfold P. rewrite (read_only_http _ H).
    apply read_only_no_update in H. unfold is_update_call in H.
    apply orb_false_iff in H as [_ ->]. reflexivity. }
  intros token.
  apply (@Frame_bind _ _ P 1 0).
  { apply Frame_requests. intros [m u b h]. cbn. now intros -> _. }
  intros response.
  apply (@Frame_bind _ _ P 0 0); [apply Frame_lift|].
  intros response_data.
  destruct (negb (ok response)); [apply Frame_raise | apply Frame_ret].
Qed.

End UpdateCalls.

Section Dispatch.

Context {I : Imports} (W : World).
Variables (fuel : nat) (body : OrderClassificationRequest) (client_ : str).
Variable db_ : Store.
Variables (cfg : OrderClassificationConfig) (d : OrderDetails) (q a : str).
Variables (n : nat) (label : str).

Let order_id_ := orderId (data body).
Let run := get_emergency_class W fuel body client_ db_.

Hypothesis Hc : Classified W fuel body client_ db_ cfg d q a n label.

Let dispatch_state (evs : list Event) (ids : list Z) : State :=
  {| history_record :=
       set_uds_id (Some (str_of_ids (Some ids)))
         (classified_record body d q a label true);
     db := db_;
     trace := evs ++ retries n (emergency_prompt cfg) client_
                       (_normalize_resident_request_string q)
              ++ [EvChain (emergency_prompt cfg) client_
                    (_normalize_resident_request_string q)] |}.

Lemma dispatch_http (evs : list Event) (ids : list Z) :
  forallb read_only evs = true -> length evs = 2%nat ->
  count_events is_http (trace (dispatch_state evs ids)) = 2%nat.
Proof.
  intros Hevs Hlen. unfold dispatch_state. cbn [trace].
  rewrite !count_events_app, count_retries_none by reflexivity.
  rewrite (count_events_all is_http evs), Hlen; [reflexivity|].
  rewrite forallb_forall in *. intros e He. now apply read_only_http, Hevs.
Qed.

(** X17. When the classifier answers anything but the affirmative label, the
    run ends without error after the classification: the resolver is not
    consulted, no update request or response is recorded, and the only
    requests to the order-management system are the two of the order
    lookup. *)
Theorem other_label_is_not_dispatched :
  strip (lower label) <> EMERGENCY_LABEL ->
  exists saved,
    fst run = Ret saved
    /\ is_emergency saved = Some false
    /\ is_error saved = false /\ comment saved = None
    /\ uds_id saved = None
    /\ order_update_request saved = None
    /\ order_update_response saved = None
    /\ count_events is_http (trace (snd run)) = 2%nat
    /\ count_events is_update_call (trace (snd run)) = 0%nat.
Proof.
  intros Hlabel. subst run order_id_. open_classified Hc evs Hevs.
  pose proof (read_only_count_update _ Hevs) as Hnoupd.
  assert (Hb : str_eqb (strip (lower label)) EMERGENCY_LABEL = false).
  { destruct (str_eqb _ _) eqn:E; [|reflexivity].
    apply str_eqb_eq in E. contradiction. }
  eassert (Htry : try_block W fuel body client_ (initial_state body db_) = _).
  { to_classifier. reflexivity. }
  rewrite (run_of_try W fuel body client_ db_ (Ret tt) _ Htry);
    [|discriminate|reflexivity].
  eexists. split; [reflexivity|]. cbn [fst snd trace db history_record].
  do 6 (split; [reflexivity|]).
  rewrite !count_events_app, Hnoupd, !count_retries_none by reflexivity.
  rewrite (count_events_all is_http evs), Hlen; [split; reflexivity|].
  rewrite forallb_forall in *. intros e He. now apply read_only_http, Hevs.
Qed.

(** X18. In a run with classification and order updating enabled, where the
    classifier answers the affirmative label, a responsible unit is found,
    the status update returns [upd] and the chat message is accepted, the
    record carries no error, the body sent by the status update as its
    update request and the decoded response as its update response. The run
    makes six requests to the order-management system; exactly one of them
    is a status update and exactly one, after it, a chat message. *)
Theorem dispatch_succeeds (ids : list Z) (upd sent : PyVal * PyVal) :
  strip (lower label) = EMERGENCY_LABEL ->
  is_use_order_updating cfg = true ->
  _get_responsible_users_ids_by_order_address a = Some ids ->
  (forall st, count_events is_http (trace st) = 2%nat ->
     fst (_update_order_status_details W order_id_ RESPONSIBLE_DEPT_ID
            IN_PROGRESS ids [AI_USER_ID] st) = Ret upd) ->
  (forall st, count_events is_http (trace st) = 4%nat ->
     fst (_send_message_to_internal_chat W order_id_
            ORDER_PROCESSED_BY_AI_MESSAGE st) = Ret sent) ->
  exists saved,
    fst run = Ret saved
    /\ is_error saved = false /\ comment saved = None
    /\ uds_id saved = Some (str_of_ids (Some ids))
    /\ order_update_request saved = Some (snd upd)
    /\ order_update_response saved = Some (fst upd)
    /\ count_events is_http (trace (snd run)) = 6%nat
    /\ exists before put between post after,
         trace (snd run) = before ++ [put] ++ between ++ [post] ++ after
         /\ is_status_update put = true /\ is_chat_post post = true
         /\ count_events is_update_call (before ++ between ++ after) = 0%nat.
Proof.
  destruct upd as [response request_body].
  intros Hlabel Hupd Hres Hput Hchat. subst run order_id_.
  open_classified Hc evs Hevs.
  pose proof (dispatch_http evs ids Hevs Hlen) as Hcount.
  destruct (_update_order_status_details W (orderId (data body))
              RESPONSIBLE_DEPT_ID IN_PROGRESS ids [AI_USER_ID]
              (dispatch_state evs ids)) as [ru st3] eqn:Hu.
  pose proof (Hput _ Hcount) as Hru. rewrite Hu in Hru. cbn in Hru. subst ru.
  destruct (update_returned _ _ _ _ _ _ _ _ _ Hu)
    as (e1 & e2 & -> & He1 & He2 & Hput2).
  assert (Hcount4 : count_events is_http
                      (trace (extend (dispatch_state evs ids) [e1; e2]))
                    = 4%nat).
  { cbn [extend trace] in *. rewrite count_events_app, Hcount.
    unfold count_events. cbn. rewrite (read_only_http _ He1), He2.
    reflexivity. }
  destruct (_send_message_to_internal_chat W (orderId (data body))
              ORDER_PROCESSED_BY_AI_MESSAGE
              (extend (dispatch_state evs ids) [e1; e2])) as [rc st4] eqn:Hceq.
  pose proof (Hchat _ Hcount4) as Hrc. rewrite Hceq in Hrc. cbn in Hrc.
  subst rc.
  destruct (chat_returned _ _ _ _ _ _ Hceq)
    as (e3 & e4 & -> & He3 & He4 & Hnoput4 & Hpost4).
  unfold dispatch_state, classified_record in Hu, Hceq.
  eassert (Htry : try_block W fuel body client_ (initial_state body db_) = _).
  { to_classifier. unfold bind at 1. unfold bind at 1. rewrite Hu.
    unfold bind at 1. rewrite Hceq. reflexivity. }
  rewrite (run_of_try W fuel body client_ db_ (Ret tt) _ Htry);
    [|discriminate|reflexivity].
  eexists. split; [reflexivity|]. cbn [fst snd trace db history_record extend].
  do 5 (split; [reflexivity|]).
  pose proof (read_only_count_update _ Hevs) as Hnoupd.
  split.
  { rewrite !count_events_app, !count_retries_none by reflexivity.
    rewrite (count_events_all is_http evs), Hlen.
    - unfold count_events. cbn.
      rewrite (read_only_http _ He1), He2, (read_only_http _ He3), He4.
      reflexivity.
    - rewrite forallb_forall in *. intros e He.
      now apply read_only_http, Hevs. }
  match goal with
  | |- context [EvSave ?r ?c] =>
      exists ((evs ++ retries n (emergency_prompt cfg) client_
                        (_normalize_resident_request_string q)
               ++ [EvChain (emergency_prompt cfg) client_
                     (_normalize_resident_request_string q)]) ++ [e1]),
        e2, [e3], e4, [EvSave r c]
  end.
  split; [now rewrite <- !app_assoc|]. split; [exact Hput2|].
  split; [exact Hpost4|].
  rewrite !count_events_app, Hnoupd, !count_retries_none by reflexivity.
  unfold count_events. cbn.
  now rewrite (read_only_no_update _ He1), (read_only_no_update _ He3).
Qed.

(** X19. In a run with classification and order updating enabled, where the
    classifier answers the affirmative label and a responsible unit is
    found: if the status update fails with [e], the chat message is never
    posted; the saved record has its error flag set and the message of [e]
    as comment, keeps the unit found, and has no update request or
    response. *)
Theorem failed_update_skips_chat (ids : list Z) (e : Exn) :
  strip (lower label) = EMERGENCY_LABEL ->
  is_use_order_updating cfg = true ->
  _get_responsible_users_ids_by_order_address a = Some ids ->
  (forall st, count_events is_http (trace st) = 2%nat ->
     fst (_update_order_status_details W order_id_ RESPONSIBLE_DEPT_ID
            IN_PROGRESS ids [AI_USER_ID] st) = Raise e) ->
  exists saved,
    fst run = Ret saved
    /\ is_error saved = true /\ comment saved = Some (message e)
    /\ uds_id saved = Some (str_of_ids (Some ids))
    /\ order_update_request saved = None
    /\ order_update_response saved = None
    /\ count_events is_chat_post (trace (snd run)) = 0%nat.
Proof.
  intros Hlabel Hupd Hres Hput. subst run order_id_.
  open_classified Hc evs Hevs.
  pose proof (dispatch_http evs ids Hevs Hlen) as Hcount.
  destruct (Frame_update_no_chat W (orderId (data body)) RESPONSIBLE_DEPT_ID
              IN_PROGRESS ids [AI_USER_ID] (dispatch_state evs ids))
    as (ru & uevs & Hu & _ & Huevs & _).
  pose proof (Hput _ Hcount) as Hru. rewrite Hu in Hru. cbn in Hru. subst ru.
  unfold dispatch_state, classified_record in Hu.
  eassert (Htry : try_block W fuel body client_ (initial_state body db_) = _).
  { to_classifier. unfold bind at 1. unfold bind at 1. rewrite Hu.
    reflexivity. }
  rewrite (run_of_try W fuel body client_ db_ (Raise e) _ Htry);
    [|discriminate|reflexivity].
  eexists. split; [reflexivity|]. cbn [fst snd trace db history_record extend].
  do 5 (split; [reflexivity|]).
  rewrite !count_events_app, count_retries_none by reflexivity.
  rewrite (count_events_none is_chat_post read_only evs);
    [| | exact Hevs].
  2: { intros ev Hev. apply read_only_no_update in Hev.
       unfold is_update_call in Hev. now apply orb_false_iff in Hev as [_ ->]. }
  rewrite (count_events_none is_chat_post
             (fun e => is_http e && negb (is_chat_post e)) uevs);
    [reflexivity| | exact Huevs].
  intros ev Hev. apply andb_true_iff in Hev as [_ Hev].
  now apply negb_true_iff in Hev.
Qed.

End Dispatch.

(* ================================================================== *)
(** * Further properties of every run *)

Lemma find_app_last {A} (p : A -> bool) (l : list A) (x : A) :
  p x = true ->
  exists y, find p (l ++ [x]) = Some y
            /\ (find p l = None -> y = x)
            /\ (forall z, find p l = Some z -> y = z).
Proof.
  intros Hx. induction l as [|z l IH]; cbn.
  - rewrite Hx. exists x. repeat split; intros; congruence.
  - destruct (p z).
    + exists z. repeat split; intros; congruence.
    + exact IH.
Qed.

Section Identity.

Context {I : Imports} (W : World).
Variables (fuel : nat) (body : OrderClassificationRequest) (client_ : str).
Variable db_ : Store.

Let order_id_ := orderId (data body).
Let st0 := initial_state body db_.
Let run := get_emergency_class W fuel body client_ db_.

(** The [try] block never touches the fields that identify the request. *)
Lemma try_block_of_request :
  chain_bounded W fuel ->
  Spec not_save (of_request body) (try_block W fuel body client_).
Proof.
  intros Hb. unfold try_block. cbv zeta. repeat spec_step.
Qed.

(** Every run, as a function of the record its [try] block leaves. *)
Lemma run_returns :
  chain_bounded W fuel ->
  exists r evs,
    of_request body r
    /\ run = (Ret (stored db_ client_ r),
              {| history_record := stored db_ client_ r;
                 db := db_ ++ [stored db_ client_ r];
                 trace := evs ++ [EvSave r client_] |}).
Proof.
  intros Hb.
  assert (H0 : of_request body (history_record st0)) by (repeat split).
  destruct (try_block_of_request Hb st0 H0)
    as (res & st1 & evs & Htry & Hres & Hdb & Htr & _ & HQ).
  subst run.
  rewrite (run_of_try W fuel body client_ db_ res st1 Htry Hres (proj1 HQ)).
  rewrite Hdb, Htr. subst st0. cbn [db trace initial_state app].
  eexists _, evs. split; [|reflexivity].
  destruct res as [[]|e|]; try exact HQ.
  destruct (history_record st1). exact HQ.
Qed.

(** X21. Provided the retry ends, in every run the record that is handed
    to the save as the last event of the run, and the record that is
    returned, carry the alert id, alert type, timestamp, order id and order
    status of the request, whatever happened in between: no stage of the run
    overwrites them. *)
Theorem returned_record_identifies_request :
  chain_bounded W fuel ->
  exists r saved evs,
    trace (snd run) = evs ++ [EvSave r client_]
    /\ fst run = Ret saved
    /\ (alert_id r = alertId body
        /\ alert_type_id r = alertTypeId body
        /\ alert_timestamp r = timestamp body
        /\ order_id r = orderId (data body)
        /\ order_status_id r = orderStatusId (data body))
    /\ (alert_id saved = alertId body
        /\ alert_type_id saved = alertTypeId body
        /\ alert_timestamp saved = timestamp body
        /\ order_id saved = orderId (data body)
        /\ order_status_id saved = orderStatusId (data body)).
Proof.
  intros Hb. destruct (run_returns Hb) as (r & evs & HQ & ->).
  destruct HQ as (_ & _ & H1 & H2 & H3 & H4 & H5).
  exists r, (stored db_ client_ r), evs. cbn [fst snd trace].
  split; [reflexivity|]. split; [reflexivity|].
  split; [now repeat split|].
  destruct r. cbn in *. now repeat split.
Qed.

(** X20. Provided the retry ends, a run always leaves a record of its order
    in the store, also when it failed; so any later run for the same order
    and client, whatever the outside then answers, stops at the idempotency
    gate: it makes no request at all and returns a record whose comment is
    the Conflict message naming the first record stored for the order. *)
Theorem every_run_blocks_the_next (Wnext : World) (fuel_next : nat)
    (body_next : OrderClassificationRequest) :
  chain_bounded W fuel ->
  orderId (data body_next) = orderId (data body) ->
  exists first again,
    get_saved_record_by_order_id (db (snd run)) order_id_ client_ = Some first
    /\ fst (get_emergency_class Wnext fuel_next body_next client_
              (db (snd run))) = Ret again
    /\ is_error again = true
    /\ comment again = Some (already_classified_detail order_id_ first)
    /\ count_events is_http
         (trace (snd (get_emergency_class Wnext fuel_next body_next client_
                        (db (snd run))))) = 0%nat.
Proof.
  intros Hb Hsame. destruct (run_returns Hb) as (r & evs & HQ & ->).
  cbn [snd db].
  destruct (find_app_last
              (fun r => (order_id r =? order_id_)
                        && opt_str_eqb (client r) client_)
              db_ (stored db_ client_ r)) as (first & Hfirst & _).
  { destruct HQ as (_ & _ & _ & _ & _ & Hoid & _). destruct r. cbn in *.
    subst order_id_. now rewrite Hoid, Z.eqb_refl, str_eqb_refl. }
  fold (get_saved_record_by_order_id (db_ ++ [stored db_ client_ r])
          order_id_ client_) in Hfirst.
  exists first. eexists. split; [exact Hfirst|].
  subst order_id_. rewrite <- Hsame in *.
  rewrite (run_of_try Wnext fuel_next body_next client_ _ _ _
             (try_block_conflict Wnext fuel_next body_next client_ _ first
                Hfirst));
    [|discriminate|reflexivity].
  cbn [fst snd trace]. repeat split.
Qed.

End Identity.

(* ================================================================== *)
(** * The requests of a run are bounded *)

Section SendsRules.

Variable p : Event -> bool.

Lemma Sends_ret {A} (a : A) : Sends 0 p (ret a).
Proof. intros st. unfold ret. cbn [snd]. lia. Qed.

Lemma Sends_raise {A} (e : Exn) : Sends 0 p (@raise A e).
Proof. intros st. unfold raise. cbn [snd]. lia. Qed.

Lemma Sends_lift {A} (o : Outcome A) : Sends 0 p (lift o).
Proof. destruct o; [apply Sends_ret | apply Sends_raise]. Qed.

Lemma Sends_assign (f : OrderClassificationRecord -> OrderClassificationRecord) :
  Sends 0 p (assign f).
Proof. intros st. unfold assign. cbn [snd trace]. lia. Qed.

Lemma Sends_find (order_id_ : Z) (client_ : str) :
  Sends 0 p (find_saved order_id_ client_).
Proof. intros st. unfold find_saved. cbn [snd]. lia. Qed.

Lemma Sends_emit (e : Event) : p e = false -> Sends 0 p (emit e).
Proof.
  intros He st. cbn [emit snd trace]. rewrite count_events_app.
  unfold count_events at 2. cbn. rewrite He. cbn. lia.
Qed.

Lemma Sends_weaken {A} (n m : nat) (c : M A) :
  (n <= m)%nat -> Sends n p c -> Sends m p c.
Proof. intros Hnm Hc st. specialize (Hc st). lia. Qed.

Lemma Sends_bind {A B} (n m : nat) (c : M A) (k : A -> M B) :
  Sends n p c -> (forall a, Sends m p (k a)) -> Sends (n + m) p (bind c k).
Proof.
  intros Hc Hk st. unfold bind. specialize (Hc st).
  destruct (c st) as [[a|e|] st']; cbn [snd] in *; [|lia|lia].
  specialize (Hk a st'). lia.
Qed.

Lemma Sends_when (n : nat) (b : bool) (c : M unit) :
  Sends n p c -> Sends n p (when_ b c).
Proof.
  intros Hc. destruct b; [exact Hc|].
  apply (Sends_weaken 0); [lia | apply Sends_ret].
Qed.

Lemma Sends_if {A} (n m : nat) (b : bool) (c1 c2 : M A) :
  Sends n p c1 -> Sends m p c2 ->
  Sends (Nat.max n m) p (if b then c1 else c2).
Proof.
  intros H1 H2. destruct b;
    [apply (Sends_weaken n) | apply (Sends_weaken m)]; (lia || assumption).
Qed.

Lemma Sends_option {A B} (n m : nat) (o : option B) (f : B -> M A) (c : M A) :
  (forall x, Sends n p (f x)) -> Sends m p c ->
  Sends (Nat.max n m) p (match o with Some x => f x | None => c end).
Proof.
  intros H1 H2. destruct o;
    [apply (Sends_weaken n) | apply (Sends_weaken m)]; (lia || auto).
Qed.

Lemma Sends_try {A} (n m : nat) (c : M A) (handler : Exn -> M A) :
  Sends n p c -> (forall e, Sends m p (handler e)) ->
  Sends (n + m) p (try_except c handler).
Proof.
  intros Hc Hh st. unfold try_except. specialize (Hc st).
  destruct (c st) as [[a|e|] st']; cbn [snd] in *; [lia| |lia].
  specialize (Hh e st'). lia.
Qed.

(** What a [Frame] allows to send of another kind of events: nothing. *)
Lemma Frame_Sends {A} (P : Event -> bool) (n : nat) (c : M A) :
  (forall e, P e = true -> p e = false) -> Frame P n c -> Sends 0 p c.
Proof.
  intros HP Hc st. destruct (Hc st) as (res & evs & -> & _ & Hevs & _).
  cbn [snd extend trace]. rewrite count_events_app.
  rewrite (count_events_none p P evs HP Hevs). lia.
Qed.

End SendsRules.

Section Budget.

Context {I : Imports} (W : World).

(** An operation sends the authentication request and at most one more. *)
Lemma operation_trace {A} (m : Method) (url_ : str) (body : option PyVal)
    (prefix : str) (finish : PyVal -> M A) (st : State) :
  (forall v st, trace (snd (finish v st)) = trace st) ->
  exists evs,
    trace (snd (operation W m url_ body prefix finish st))
    = trace st ++ EvHttp auth_request :: evs
    /\ (length evs <= 1)%nat.
Proof.
  intros Hfin. destruct (auth_token_outcomes W st) as (res & Heq & _).
  destruct res as [token|e|].
  - exists [EvHttp (authorized_request m url_ body token)].
    rewrite (operation_sends W m url_ body prefix finish Hfin
               st token _ Heq).
    cbn [extend trace]. rewrite <- app_assoc. split; [reflexivity | cbn; lia].
  - exists []. rewrite (operation_auth_first W m url_ body prefix finish
                          st e _ Heq).
    split; [reflexivity | cbn; lia].
  - exists []. unfold operation, bind. rewrite Heq.
    split; [reflexivity | cbn; lia].
Qed.

Lemma count_events_le_length (p : Event -> bool) (evs : list Event) :
  (count_events p evs <= length evs)%nat.
Proof. unfold count_events. apply filter_length_le. Qed.

Lemma operations_send_two (p : Event -> bool) :
  each_operation W (fun A c _ _ _ _ => Sends 2 p c).
Proof.
  apply each_operation_intro. intros A m url_ body prefix finish Hfin st.
  destruct (operation_trace m url_ body prefix finish st Hfin)
    as (evs & -> & Hlen).
  rewrite count_events_app.
  pose proof (count_events_le_length p (EvHttp auth_request :: evs)).
  cbn [length] in *. lia.
Qed.

Lemma operations_send_one (p : Event -> bool) :
  p (EvHttp auth_request) = false ->
  each_operation W (fun A c _ _ _ _ => Sends 1 p c).
Proof.
  intros Hauth.
  apply each_operation_intro. intros A m url_ body prefix finish Hfin st.
  destruct (operation_trace m url_ body prefix finish st Hfin)
    as (evs & -> & Hlen).
  rewrite count_events_app. unfold count_events at 2. cbn [filter].
  rewrite Hauth. fold (count_events p evs).
  pose proof (count_events_le_length p evs). lia.
Qed.

Section Generic.

Variable p : Event -> bool.
Variables nd nu nc : nat.

Hypothesis Hchain : forall prompt client_ query,
    p (EvChain prompt client_ query) = false.
Hypothesis Hsleep : forall seconds, p (EvSleep seconds) = false.
Hypothesis Hsave : forall r client_, p (EvSave r client_) = false.
Hypothesis Hdetails : forall order_id_,
    Sends nd p (_get_order_details_by_id W order_id_).
Hypothesis Hupdate : forall order_id_ dept status users inspectors,
    Sends nu p
      (_update_order_status_details W order_id_ dept status users inspectors).
Hypothesis Hchat : forall order_id_ msg,
    Sends nc p (_send_message_to_internal_chat W order_id_ msg).

Lemma Sends_engine (fuel : nat) (prompt client_ query : str) :
  Sends 0 p (_get_order_emergency W fuel prompt client_ query).
Proof.
  induction fuel as [|fuel IH]; [apply Sends_raise|].
  change (Sends 0 p
            (try_except (run_chain W prompt client_ query)
               (fun error =>
                  match error with
                  | RateLimitError _ =>
                      sleep WAIT_TIME_IN_SEC ;;;
                      _get_order_emergency W fuel prompt client_ query
                  | _ => raise error
                  end))).
  apply (Sends_try p 0 0).
  - unfold run_chain. intros st.
    apply (Sends_bind p 0 0); [now apply Sends_emit | intros; apply Sends_lift].
  - intros [status detail|msg|msg]; try apply Sends_raise.
    apply (Sends_bind p 0 0); [now apply Sends_emit | intros; exact IH].
Qed.

Ltac sends_step :=
  lazymatch goal with
  | |- Sends _ _ (bind _ _) => eapply Sends_bind; [|intros]
  | |- Sends _ _ (ret _) => apply Sends_ret
  | |- Sends _ _ (raise _) => apply Sends_raise
  | |- Sends _ _ (assign _) => apply Sends_assign
  | |- Sends _ _ (find_saved _ _) => apply Sends_find
  | |- Sends _ _ (when_ _ _) => apply Sends_when
  | |- Sends _ _ (_get_order_details_by_id _ _) => apply Hdetails
  | |- Sends _ _ (_update_order_status_details _ _ _ _ _ _) => apply Hupdate
  | |- Sends _ _ (_send_message_to_internal_chat _ _ _) => apply Hchat
  | |- Sends _ _ (_get_order_emergency _ _ _ _ _) => apply Sends_engine
  | |- Sends _ _ (if _ then _ else _) => eapply Sends_if
  | |- Sends _ _ (match _ with Some _ => _ | None => _ end) =>
      eapply Sends_option; [intros|]
  | |- Sends _ _ (match ?x with pair _ _ => _ end) => destruct x
  end.

Lemma try_block_sends (fuel : nat) (body : OrderClassificationRequest)
    (client_ : str) :
  Sends (nd + nu + nc) p (try_block W fuel body client_).
Proof.
  eapply Sends_weaken; cycle 1.
  - unfold try_block. cbv zeta. repeat sends_step.
  - cbn. lia.
Qed.

Lemma run_sends (fuel : nat) (body : OrderClassificationRequest)
    (client_ : str) (db_ : Store) :
  (count_events p (trace (snd (get_emergency_class W fuel body client_ db_)))
   <= nd + nu + nc)%nat.
Proof.
  unfold get_emergency_class.
  assert (H : Sends (nd + nu + nc + 0 + 0) p
                (try_except (try_block W fuel body client_) except_handler ;;;
                 save client_)).
  { apply Sends_bind.
    - apply Sends_try; [apply try_block_sends|]. intros e.
      unfold except_handler.
      apply (Sends_bind p 0 0); intros; apply Sends_assign.
    - intros _ st. unfold save.
      destruct (save_order_classification_record _ _ _) as [db' saved].
      cbn [snd trace]. rewrite count_events_app.
      unfold count_events at 2. cbn. rewrite Hsave. cbn. lia. }
  specialize (H (initial_state body db_)). cbn [initial_state trace] in H.
  unfold count_events at 2 in H. cbn in H. lia.
Qed.

End Generic.

(** X22. Whatever the request, the store and the outside answer, and however
    often the classifier is retried, a run sends at most six requests to the
    order-management system, at most one status update and at most one chat
    message. *)
Theorem requests_are_bounded (fuel : nat) (body : OrderClassificationRequest)
    (client_ : str) (db_ : Store) :
  let t := trace (snd (get_emergency_class W fuel body client_ db_)) in
  (count_events is_http t <= 6)%nat
  /\ (count_events is_status_update t <= 1)%nat
  /\ (count_events is_chat_post t <= 1)%nat.
Proof.
  intros t. subst t.
  destruct (operations_send_two is_http) as (Hd2 & _ & _ & Hu2 & Hc2).
  destruct (operations_send_one is_status_update eq_refl)
    as (_ & _ & _ & Hu1 & _).
  destruct (operations_send_one is_chat_post eq_refl)
    as (_ & _ & _ & _ & Hc1).
  split; [|split].
  - apply (run_sends is_http 2 2 2); try reflexivity; assumption.
  - apply (run_sends is_status_update 0 1 0); try reflexivity;
      try assumption.
    + intros. apply (Frame_Sends _ read_only 2); [|apply Frame_details].
      intros e He. apply read_only_no_update in He.
      unfold is_update_call in He. now apply orb_false_iff in He as [-> _].
    + intros.
      apply (Frame_Sends _ (fun e => is_http e && negb (is_status_update e)) 2);
        [|apply Frame_chat_no_put].
      intros e [_ He]%andb_true_iff. now apply negb_true_iff in He.
  - apply (run_sends is_chat_post 0 0 1); try reflexivity; try assumption.
    + intros. apply (Frame_Sends _ read_only 2); [|apply Frame_details].
      intros e He. apply read_only_no_update in He.
      unfold is_update_call in He. now apply orb_false_iff in He as [_ ->].
    + intros.
      apply (Frame_Sends _ (fun e => is_http e && negb (is_chat_post e)) 2);
        [|apply Frame_update_no_chat].
      intros e [_ He]%andb_true_iff. now apply negb_true_iff in He.
Qed.

End Budget.

(* ================================================================== *)
(** * Properties of [HTTP_NER.predict] *)

Section NerProperties.

Variable post : nat -> str -> PyVal -> Z -> Outcome Response.
Variable self : HTTP_NER.

(** The slice of the second iteration is empty: its stop is the chunk size,
    which is also its start. *)
Lemma ner_loop_stops (nomenclatures : list str) (noms_chunk_size : Z)
    (rest : list Z) (noms_brands_list : list PyVal) (sent : list (list str)) :
  ner_loop post self nomenclatures noms_chunk_size (noms_chunk_size :: rest)
    noms_brands_list sent
  = (noms_brands_list, sent).
Proof.
  cbn [ner_loop]. unfold slice. now rewrite Z.sub_diag.
Qed.

Lemma range_from_zero_positive (stop step : Z) :
  0 < stop -> 0 < step ->
  exists rest,
    range_from_zero stop step = Returns (0 :: rest)
    /\ (rest = [] \/ exists rest', rest = step :: rest').
Proof.
  intros Hstop Hstep. unfold range_from_zero.
  destruct (step =? 0) eqn:E; [lia|]. destruct (step <? 0) eqn:E'; [lia|].
  assert (Hm : 1 <= (stop + step - 1) / step).
  { apply Z.div_le_lower_bound; lia. }
  destruct (Z.to_nat ((stop + step - 1) / step)) as [|m] eqn:Em; [lia|].
  cbn [seq map]. eexists. split; [reflexivity|].
  destruct m as [|m]; [now left|]. right. cbn [seq map].
  eexists. f_equal. lia.
Qed.

(** X23. With a positive [k], [predict] never raises and sends at most one
    request: nothing for an empty list, and otherwise only the first
    [len // k + 1] nomenclatures, because every later slice stops where it
    starts. The list returned holds the brands of that one response, and is
    empty when the request or the decoding of its response fails. With [k]
    larger than the number of nomenclatures, only the first one is sent. *)
Theorem predict_sends_first_chunk_only (nomenclatures : list str) :
  0 < ner_k self ->
  let noms_chunk :=
    firstn (Z.to_nat (Z.of_nat (length nomenclatures) / ner_k self + 1))
      nomenclatures in
  predict post self nomenclatures
  = match nomenclatures with
    | [] => (Returns [], [])
    | _ :: _ =>
        (Returns match ner_chunk post self 0 noms_chunk with
                 | Returns response_brands => response_brands
                 | Raises _ => []
                 end,
         [noms_chunk])
    end
  /\ (Z.of_nat (length nomenclatures) < ner_k self ->
      noms_chunk = firstn 1 nomenclatures).
Proof.
  intros Hk noms_chunk. split.
  2: { intros Hlt. subst noms_chunk. now rewrite Z.div_small by lia. }
  subst noms_chunk. unfold predict. destruct (ner_k self =? 0) eqn:E; [lia|].
  destruct nomenclatures as [|nom noms].
  { cbn [length Z.of_nat]. rewrite Z.div_0_l by lia. reflexivity. }
  cbv iota. remember (nom :: noms) as l eqn:Hl.
  assert (Hcount : 0 < Z.of_nat (length l)) by (subst l; cbn [length]; lia).
  assert (Hsize : 0 < Z.of_nat (length l) / ner_k self + 1).
  { pose proof (Z.div_pos (Z.of_nat (length l)) (ner_k self)). lia. }
  destruct (range_from_zero_positive (Z.of_nat (length l))
              (Z.of_nat (length l) / ner_k self + 1) Hcount Hsize)
    as (rest & -> & Hrest).
  cbn [ner_loop]. unfold slice.
  rewrite Z.sub_0_r. cbn [Z.to_nat skipn].
  set (noms_chunk := firstn _ l).
  assert (Hlen : (length noms_chunk =? 0)%nat = false).
  { apply Nat.eqb_neq. subst noms_chunk l.
    destruct (Z.to_nat _) eqn:En; [lia|]. cbn. lia. }
  rewrite Hlen. cbn [length app].
  destruct (ner_chunk post self 0 noms_chunk) as [response_brands|e];
    destruct Hrest as [->|(rest' & ->)];
    rewrite ?ner_loop_stops; reflexivity.
Qed.

(** X24. Without a positive [k], [predict] never sends a request. With
    [k = 0] it raises the division error for every input, also the empty
    list. With a negative [k] it returns the empty list, except for one to
    [-k] nomenclatures, where the chunk size is zero and the range raises. *)
Theorem predict_without_positive_k (nomenclatures : list str) :
  ner_k self <= 0 ->
  let count := Z.of_nat (length nomenclatures) in
  snd (predict post self nomenclatures) = []
  /\ (ner_k self = 0 ->
      fst (predict post self nomenclatures)
      = Raises (OtherError (py "integer division or modulo by zero")))
  /\ (ner_k self < 0 -> 0 < count <= - ner_k self ->
      fst (predict post self nomenclatures)
      = Raises (OtherError (py "range() arg 3 must not be zero")))
  /\ (ner_k self < 0 -> count = 0 \/ - ner_k self < count ->
      fst (predict post self nomenclatures) = Returns []).
Proof.
  intros Hk count. unfold predict. fold count.
  destruct (ner_k self =? 0) eqn:E.
  { split; [reflexivity|]. split; [reflexivity|]. split; intros; lia. }
  assert (Hneg : ner_k self < 0) by lia.
  assert (Hcount : 0 <= count) by (subst count; lia).
  pose proof (Z.div_mod count (ner_k self) ltac:(lia)) as Hdm.
  pose proof (Z.mod_neg_bound count (ner_k self) Hneg) as Hmod.
  unfold range_from_zero.
  destruct (count / ner_k self + 1 =? 0) eqn:Ez.
  - split; [reflexivity|]. split; [lia|]. split; [reflexivity|].
    intros _ Hrange. exfalso. nia.
  - destruct (count / ner_k self + 1 <? 0) eqn:El.
    + split; [reflexivity|]. split; [lia|]. split; [|reflexivity].
      intros _ Hrange. exfalso. nia.
    + assert (Hzero : count = 0) by nia.
      rewrite Hzero, Z.div_0_l by lia. cbn.
      split; [reflexivity|]. split; [lia|]. split; [lia | reflexivity].
Qed.

End NerProperties.

(* ================================================================== *)
(** * Properties of [parse_similar_queries] *)

Lemma split_char_cons (sep : Z) (s : str) :
  exists q qs, split_char sep s = q :: qs.
Proof.
  induction s as [|c s (q & qs & IH)]; cbn [split_char]; [now eexists _, _|].
  destruct (c =? sep); [now eexists _, _|]. rewrite IH. now eexists _, _.
Qed.

Lemma split_char_line (sep : Z) (q s : str) :
  ~ In sep q ->
  split_char sep (q ++ sep :: s) = q :: split_char sep s.
Proof.
  induction q as [|c q IH]; intros Hq; cbn [app split_char].
  - now rewrite Z.eqb_refl.
  - destruct (c =? sep) eqn:E; [apply Z.eqb_eq in E; cbn in Hq; tauto|].
    rewrite IH by (cbn in Hq; tauto). reflexivity.
Qed.

Lemma split_char_last (sep : Z) (q : str) :
  ~ In sep q -> split_char sep q = [q].
Proof.
  induction q as [|c q IH]; intros Hq; cbn [split_char]; [reflexivity|].
  destruct (c =? sep) eqn:E; [apply Z.eqb_eq in E; cbn in Hq; tauto|].
  rewrite IH by (cbn in Hq; tauto). reflexivity.
Qed.

Lemma split_join_char (sep : Z) (l : list str) :
  l <> [] -> Forall (fun q => ~ In sep q) l ->
  split_char sep (join_char sep l) = l.
Proof.
  induction l as [|q l IH]; [congruence|]. intros _ Hl.
  inversion Hl as [|? ? Hq Hrest]; subst. destruct l as [|q' l].
  - now apply split_char_last.
  - change (join_char sep (q :: q' :: l))
      with (q ++ sep :: join_char sep (q' :: l)).
    rewrite split_char_line by exact Hq. f_equal. now apply IH.
Qed.

(** X25. [parse_similar_queries] reads a numbered list back: for a text made
    of one or more lines, each a three-character prefix followed by an item,
    with no line break inside prefix or item and no line break after the
    last line, it returns the items in order. *)
Theorem parse_similar_queries_numbered_list (items : list (str * str)) :
  items <> [] -> Forall numbered items ->
  parse_similar_queries
    (join_char LF (map (fun line => fst line ++ snd line) items))
  = map snd items.
Proof.
  intros Hne Hitems. unfold parse_similar_queries.
  rewrite split_join_char.
  - rewrite map_map. apply map_ext_Forall.
    eapply Forall_impl; [|exact Hitems].
    intros [pre q] (Hlen & _ & _). cbn [fst snd] in *.
    destruct pre as [|a [|b [|c [|? ?]]]]; try discriminate. reflexivity.
  - destruct items; [congruence | discriminate].
  - apply Forall_map. eapply Forall_impl; [|exact Hitems].
    intros [pre q] (_ & Hpre & Hq) [H|H]%in_app_or; cbn [fst snd] in *; tauto.
Qed.

(** X26. [parse_similar_queries] returns one item for each line of the text,
    one more than the line breaks in it, so never an empty list: the empty
    text gives one empty item. No item contains a line break, and an item is
    the rest of its line after the first three characters, empty when the
    line is shorter. *)
Theorem parse_similar_queries_items (similar_queries : str) :
  length (parse_similar_queries similar_queries)
  = S (count_occ Z.eq_dec similar_queries LF)
  /\ Forall (fun q => ~ In LF q) (parse_similar_queries similar_queries)
  /\ exists lines,
       similar_queries = join_char LF lines
       /\ Forall (fun q => ~ In LF q) lines
       /\ parse_similar_queries similar_queries = map (skipn 3) lines.
Proof.
  unfold parse_similar_queries. rewrite length_map.
  assert (H : length (split_char LF similar_queries)
              = S (count_occ Z.eq_dec similar_queries LF)
              /\ Forall (fun q => ~ In LF q) (split_char LF similar_queries)
              /\ similar_queries
                 = join_char LF (split_char LF similar_queries)).
  { induction similar_queries as [|c s (IH1 & IH2 & IH3)].
    - cbn. repeat split. constructor; [tauto | constructor].
    - cbn [split_char count_occ]. destruct (c =? LF) eqn:E.
      + apply Z.eqb_eq in E. subst c.
        destruct (Z.eq_dec LF LF) as [_|]; [|congruence].
        cbn [length]. rewrite IH1. split; [reflexivity|].
        split; [constructor; [tauto | exact IH2]|].
        destruct (split_char_cons LF s) as (q & qs & Hs).
        rewrite Hs in *.
        change (join_char LF ([] :: q :: qs))
          with ([] ++ LF :: join_char LF (q :: qs)).
        cbn [app]. now rewrite <- IH3.
      + apply Z.eqb_neq in E.
        destruct (Z.eq_dec c LF) as [|_]; [congruence|].
        destruct (split_char_cons LF s) as (q & qs & Hs).
        rewrite Hs in *. cbn [length] in *. split; [exact IH1|].
        apply Forall_cons_iff in IH2 as [Hq Hqs].
        split; [constructor; [cbn; intros [?|?]; congruence || tauto
                             | exact Hqs]|].
        rewrite IH3 at 1. destruct qs; reflexivity. }
  destruct H as (H1 & H2 & H3). split; [exact H1|]. split.
  - apply Forall_map. eapply Forall_impl; [|exact H2].
    intros q Hq Hin. apply Hq.
    rewrite <- (firstn_skipn 3 q). apply in_or_app. now right.
  - exists (split_char LF similar_queries). now repeat split.
Qed.

(* ================================================================== *)
(** * The further properties at concrete deployments *)

(** X8 at an order-management system that refuses the authentication. *)
Lemma operations_authenticate_first_witness :
  let I := sample_imports sample_uds in
  let W := sample_world (only 0) 0 EMERGENCY_LABEL true true in
  @_send_message_to_internal_chat I W 42 (py "hello") (after_requests 0)
  = (Raise (HTTPException 500 (py "Domyland Auth: {'error': 'down'}")),
     extend (after_requests 0) [EvHttp (@auth_request I)]).
Proof.
  intros I W.
  apply (proj2 (proj2 (proj2 (proj2 (@operations_authenticate_first I W))))
           42 (py "hello")).
  vm_compute. reflexivity.
Defined.

(** X9 at an order-management system that answers every request. *)
Lemma operations_send_one_request_with_token_witness :
  let I := sample_imports sample_uds in
  let W := sample_world never 0 EMERGENCY_LABEL true true in
  trace (snd (@_get_order_status_details I W 42 (after_requests 0)))
  = [EvHttp (@auth_request I);
     EvHttp {| method := GET;
               url := DOMYLAND_API_BASE_URL ++ py "/orders/42/status";
               json_body := None;
               headers := VDict [(py "AppName", VStr DOMYLAND_APP_NAME);
                                 (py "Authorization", VStr (py "t0k3n"))] |}].
Proof.
  intros I W.
  refine (eq_trans
            (proj1 (proj1 (proj2 (proj2 (@operations_send_one_request_with_token
                                           I W)))
                      42 (after_requests 0) (VStr (py "t0k3n"))
                      (extend (after_requests 0) [EvHttp (@auth_request I)]) _)
               (py "t0k3n") eq_refl) _);
    vm_compute; reflexivity.
Defined.

(** X10 at a gateway that answers the order lookup with an HTML page and
    status 502: the error raised is the one of the decoder. *)
Lemma operations_decode_before_status_witness :
  let I := sample_imports sample_uds in
  fst (@_get_order_details_by_id I sample_world_gateway 42 (after_requests 0))
  = Raise (OtherError (py "Expecting value: line 1 column 1 (char 0)")).
Proof.
  intros I.
  apply (proj1 (@operations_decode_before_status I sample_world_gateway)
           42 (after_requests 0) (VStr (py "t0k3n"))
           (extend (after_requests 0) [EvHttp (@auth_request I)])
           gateway_error);
    vm_compute; reflexivity.
Defined.

(** X11 at an order-management system that refuses the status update with
    status 500 and a JSON body. *)
Lemma operations_report_upstream_status_witness :
  let I := sample_imports sample_uds in
  let W := sample_world (only 1) 0 EMERGENCY_LABEL true true in
  fst (@_update_order_status_details I W 42 38 2 [7] [15698] (after_requests 0))
  = Raise (HTTPException 500 (py "Order status UPDATE: {'error': 'down'}")).
Proof.
  intros I W.
  refine (eq_trans
            (proj1 (proj2 (proj2 (proj2 (@operations_report_upstream_status I W))))
               42 38 2 [7] [15698] (after_requests 0) (VStr (py "t0k3n"))
               (extend (after_requests 0) [EvHttp (@auth_request I)])
               {| ok := false; status_code := 500;
                  text := sample_repr (VDict [(py "error", VStr (py "down"))]);
                  json := Returns (VDict [(py "error", VStr (py "down"))]) |}
               (VDict [(py "error", VStr (py "down"))]) _ _ _ _) _);
    vm_compute; reflexivity.
Defined.

(** X12 at a client without a default configuration. *)
Lemma missing_configuration_is_recorded_witness :
  let I := sample_imports sample_uds in
  let run := @get_emergency_class I sample_world_unconfigured 1
               (sample_request 1) sample_client [] in
  option_map is_error (returned run) = Some true
  /\ option_map comment (returned run)
     = Some (Some (py "Default order classification config (for user with ID 1 and client vysota) not found"))
  /\ count_events is_http (trace (snd run)) = 0%nat.
Proof.
  intros I run.
  destruct (@missing_configuration_is_recorded I sample_world_unconfigured 1
              (sample_request 1) sample_client [] eq_refl eq_refl eq_refl)
    as (_ & Hrun & Herr & Hcomment & _).
  unfold run, returned. rewrite Hrun. cbn [fst snd option_map trace].
  rewrite Herr, Hcomment.
  split; [reflexivity|]. split; vm_compute; reflexivity.
Defined.

(** X13 at an alert of type 2 for an order in status [PENDING]. *)
Lemma wrong_alert_type_is_recorded_witness :
  let I := sample_imports sample_uds in
  let W := sample_world never 0 EMERGENCY_LABEL true true in
  let run := @get_emergency_class I W 1 (sample_alert 2) sample_client [] in
  2 <> @NEW_ORDER I
  /\ option_map is_error (returned run) = Some true
  /\ option_map comment (returned run)
     = Some (Some (py "Order with ID 42 has alert type ID 2, but status ID 1 required"))
  /\ count_events is_http (trace (snd run)) = 0%nat.
Proof.
  intros I W run.
  assert (Halert : 2 <> @NEW_ORDER I) by discriminate.
  split; [exact Halert|].
  destruct (@wrong_alert_type_is_recorded I W 1 (sample_alert 2) sample_client
              [] eq_refl eq_refl (sample_config true true) eq_refl eq_refl
              Halert)
    as (_ & Hrun & Herr & Hcomment).
  unfold run, returned. rewrite Hrun. cbn [fst snd option_map trace].
  rewrite Herr, Hcomment.
  split; [reflexivity|]. split; vm_compute; reflexivity.
Defined.

(** X14 at an order whose comment is a line break and a space. *)
Lemma blank_comment_is_unprocessable_witness :
  let I := sample_imports sample_uds in
  let W := sample_world_serving
             (sample_order_with (VStr [LF; SP]) (VStr sample_address)) in
  let run := @get_emergency_class I W 1 (sample_request 1) sample_client [] in
  option_map is_error (returned run) = Some true
  /\ option_map comment (returned run)
     = Some (Some (py "Order with ID 42 has no comment, cannot classify emergency"))
  /\ option_map order_query (returned run) = Some (Some [LF; SP])
  /\ count_events is_chain (trace (snd run)) = 0%nat.
Proof.
  intros I W run.
  destruct (@blank_comment_is_unprocessable I W 1 (sample_request 1)
              sample_client [] (sample_config true true)
              {| service_orderForm :=
                   [{| type := py "text"; title := py "Комментарий";
                       value := Some [LF; SP] |}];
                 order_summary :=
                   [{| type := []; title := py "Объект";
                       value := Some sample_address |}] |}
              eq_refl eq_refl eq_refl eq_refl eq_refl)
    as (saved & Hfst & Herr & Hcomment & _ & Hquery & _ & _ & Hchain & _).
  - vm_compute. reflexivity.
  - vm_compute. reflexivity.
  - unfold run, returned. rewrite Hfst. cbn [option_map].
    rewrite Herr, Hcomment, Hquery, Hchain.
    split; [reflexivity|]. split; [vm_compute; reflexivity|].
    split; [vm_compute; reflexivity | reflexivity].
Defined.

(** X15 at an order that has a comment and no address value. *)
Lemma blank_address_is_unprocessable_witness :
  let I := sample_imports sample_uds in
  let W := sample_world_serving
             (sample_order_with (VStr sample_comment) VNone) in
  let run := @get_emergency_class I W 1 (sample_request 1) sample_client [] in
  option_map is_error (returned run) = Some true
  /\ option_map comment (returned run)
     = Some (Some (py "Order with ID 42 has no address, cannot find responsible UDS"))
  /\ option_map order_address (returned run) = Some None
  /\ count_events is_chain (trace (snd run)) = 0%nat.
Proof.
  intros I W run.
  destruct (@blank_address_is_unprocessable I W 1 (sample_request 1)
              sample_client [] (sample_config true true)
              {| service_orderForm :=
                   [{| type := py "text"; title := py "Комментарий";
                       value := Some sample_comment |}];
                 order_summary :=
                   [{| type := []; title := py "Объект"; value := None |}] |}
              eq_refl eq_refl eq_refl eq_refl eq_refl)
    with (q := sample_comment)
    as (saved & Hfst & Herr & Hcomment & _ & Haddr & _ & _ & Hchain & _).
  - vm_compute. reflexivity.
  - vm_compute. reflexivity.
  - vm_compute. reflexivity.
  - vm_compute. exact Logic.I.
  - unfold run, returned. rewrite Hfst. cbn [option_map].
    rewrite Herr, Hcomment, Haddr, Hchain.
    split; [reflexivity|]. split; [vm_compute; reflexivity|].
    split; [vm_compute; reflexivity | reflexivity].
Defined.

(** X17 at a classifier that answers ["обычная"]. *)
Lemma other_label_is_not_dispatched_witness :
  let I := sample_imports sample_uds in
  let W := sample_world never 2 (py "обычная") true true in
  let run := @get_emergency_class I W 3 (sample_request 1) sample_client [] in
  option_map is_error (returned run) = Some false
  /\ option_map uds_id (returned run) = Some None
  /\ option_map order_update_request (returned run) = Some None
  /\ count_events is_http (trace (snd run)) = 2%nat.
Proof.
  intros I W run.
  destruct (@other_label_is_not_dispatched I W 3 (sample_request 1)
              sample_client [] _ _ _ _ _ _
              (sample_classified sample_uds never true (py "обычная")
                 eq_refl eq_refl))
    as (saved & Hfst & _ & Herr & _ & Huds & Hreq & _ & Hhttp & _).
  - vm_compute. discriminate.
  - unfold run, returned. rewrite Hfst. cbn [option_map].
    rewrite Herr, Huds, Hreq.
    split; [reflexivity|]. split; [reflexivity|]. split; [reflexivity|].
    exact Hhttp.
Defined.

(** X18 at an order-management system that answers every request. *)
Lemma dispatch_succeeds_witness :
  let I := sample_imports sample_uds in
  let W := sample_world never 2 EMERGENCY_LABEL true true in
  let run := @get_emergency_class I W 3 (sample_request 1) sample_client [] in
  option_map is_error (returned run) = Some false
  /\ option_map order_update_request (returned run)
     = Some (Some (VDict [(py "responsibleDeptId", VInt 38);
                          (py "orderStatusId", VInt 2);
                          (py "responsibleUserIds", VList [VInt 7]);
                          (py "inspectorIds", VList [VInt 15698])]))
  /\ option_map order_update_response (returned run) = Some (Some (VDict []))
  /\ count_events is_http (trace (snd run)) = 6%nat.
Proof.
  intros I W run.
  destruct (@dispatch_succeeds I W 3 (sample_request 1) sample_client []
              _ _ _ _ _ _
              (sample_classified sample_uds never true EMERGENCY_LABEL
                 eq_refl eq_refl)
              [7]
              (VDict [],
               VDict [(py "responsibleDeptId", VInt 38);
                      (py "orderStatusId", VInt 2);
                      (py "responsibleUserIds", VList [VInt 7]);
                      (py "inspectorIds", VList [VInt 15698])])
              (VDict [],
               VDict [(py "orderId", VInt 42);
                      (py "text", VStr ORDER_PROCESSED_BY_AI_MESSAGE);
                      (py "isImportant", VBool false)])
              eq_refl eq_refl eq_refl)
    as (saved & Hfst & Herr & _ & _ & Hreq & Hresp & Hhttp & _).
  - intros st Hst.
    rewrite (fst_update_by_count W _ _ _ _ _ st (after_requests 2))
      by (rewrite Hst; reflexivity).
    vm_compute. reflexivity.
  - intros st Hst.
    rewrite (fst_chat_by_count W _ _ st (after_requests 4))
      by (rewrite Hst; reflexivity).
    vm_compute. reflexivity.
  - unfold run, returned. rewrite Hfst. cbn [option_map].
    rewrite Herr, Hreq, Hresp.
    split; [reflexivity|]. split; [reflexivity|]. split; [reflexivity|].
    exact Hhttp.
Defined.

(** X19 at a run whose fourth request, the status update, is refused. *)
Lemma failed_update_skips_chat_witness :
  let I := sample_imports sample_uds in
  let W := sample_world (only 3) 2 EMERGENCY_LABEL true true in
  let run := @get_emergency_class I W 3 (sample_request 1) sample_client [] in
  option_map is_error (returned run) = Some true
  /\ option_map comment (returned run)
     = Some (Some (py "Order status UPDATE: {'error': 'down'}"))
  /\ option_map order_update_request (returned run) = Some None
  /\ count_events is_chat_post (trace (snd run)) = 0%nat.
Proof.
  intros I W run.
  destruct (@failed_update_skips_chat I W 3 (sample_request 1) sample_client []
              _ _ _ _ _ _
              (sample_classified sample_uds (only 3) true EMERGENCY_LABEL
                 eq_refl eq_refl)
              [7]
              (HTTPException 500 (py "Order status UPDATE: {'error': 'down'}"))
              eq_refl eq_refl eq_refl)
    as (saved & Hfst & Herr & Hcomment & _ & Hreq & _ & Hchat).
  - intros st Hst.
    rewrite (fst_update_by_count W _ _ _ _ _ st (after_requests 2))
      by (rewrite Hst; reflexivity).
    vm_compute. reflexivity.
  - unfold run, returned. rewrite Hfst. cbn [option_map].
    rewrite Herr, Hcomment, Hreq.
    split; [reflexivity|]. split; [reflexivity|]. split; [reflexivity|].
    exact Hchat.
Defined.

(** X20 at a run whose order lookup is refused: the next run for order 42,
    against an order-management system that answers, is a Conflict. *)
Lemma every_run_blocks_the_next_witness :
  let I := sample_imports sample_uds in
  let W := sample_world (only 1) 2 EMERGENCY_LABEL true true in
  let Wnext := sample_world never 0 EMERGENCY_LABEL true true in
  let run := @get_emergency_class I W 3 (sample_request 1) sample_client [] in
  let next := @get_emergency_class I Wnext 1 (sample_request 1) sample_client
                (db (snd run)) in
  chain_bounded W 3
  /\ option_map is_error (returned run) = Some true
  /\ option_map is_error (returned next) = Some true
  /\ option_map comment (returned next)
     = Some (Some (py "Order with ID 42 was already classified, history record ID 1"))
  /\ count_events is_http (trace (snd next)) = 0%nat.
Proof.
  intros I W Wnext run next.
  assert (Hb : chain_bounded W 3) by (apply sample_chain_bounded; lia).
  split; [exact Hb|].
  destruct (@every_run_blocks_the_next I W 3 (sample_request 1) sample_client
              [] Wnext 1%nat (sample_request 1) Hb eq_refl)
    as (first & again & Hfirst & Hfst & Herr & Hcomment & Hhttp).
  fold run in Hfirst, Hfst, Hhttp. fold next in Hfst, Hhttp.
  split; [vm_compute; reflexivity|].
  unfold returned. rewrite Hfst. cbn [option_map]. rewrite Herr, Hcomment.
  split; [reflexivity|]. split; [|exact Hhttp].
  assert (E : first
              = stored [] sample_client
                  (failed (HTTPException 500
                             (py "OrderDetails GET: {'error': 'down'}"))
                     (new_record (sample_request 1)))).
  { assert (E' : Some first = Some (stored [] sample_client
                  (failed (HTTPException 500
                             (py "OrderDetails GET: {'error': 'down'}"))
                     (new_record (sample_request 1)))));
      [|now injection E'].
    rewrite <- Hfirst. vm_compute. reflexivity. }
  rewrite E. vm_compute. reflexivity.
Defined.

(** X21 at a run whose order lookup is refused. *)
Lemma returned_record_identifies_request_witness :
  let I := sample_imports sample_uds in
  let W := sample_world (only 1) 2 EMERGENCY_LABEL true true in
  let run := @get_emergency_class I W 3 (sample_request 1) sample_client [] in
  chain_bounded W 3
  /\ option_map is_error (returned run) = Some true
  /\ option_map order_id (returned run) = Some 42
  /\ option_map order_status_id (returned run) = Some 1
  /\ option_map alert_id (returned run) = Some (py "a-1")
  /\ option_map alert_type_id (returned run) = Some 1
  /\ option_map alert_timestamp (returned run) = Some 1700000000.
Proof.
  intros I W run.
  assert (Hb : chain_bounded W 3) by (apply sample_chain_bounded; lia).
  split; [exact Hb|].
  destruct (@returned_record_identifies_request I W 3 (sample_request 1)
              sample_client [] Hb)
    as (r & saved & evs & _ & Hfst & _ & Ha & Hat & Hts & Hoid & Hst).
  fold run in Hfst.
  split; [vm_compute; reflexivity|].
  unfold returned. rewrite Hfst. cbn [option_map].
  rewrite Ha, Hat, Hts, Hoid, Hst. repeat split.
Defined.

(** X23 at three nomenclatures and the default [k] of 100: only the first
    nomenclature is sent, and one brand comes back. *)
Lemma predict_sends_first_chunk_only_witness :
  let noms := [py "дрель Bosch"; py "пила Makita"; py "молоток"] in
  predict sample_ner_post (sample_ner 100) noms
  = (Returns [VStr (py "Bosch")], [[py "дрель Bosch"]]).
Proof.
  intros noms.
  refine (eq_trans
            (proj1 (predict_sends_first_chunk_only sample_ner_post
                      (sample_ner 100) noms _)) _).
  - reflexivity.
  - vm_compute. reflexivity.
Defined.

(** X24 at [k = -2]: one nomenclature raises, three return nothing. *)
Lemma predict_without_positive_k_witness :
  fst (predict sample_ner_post (sample_ner (-2)) [py "дрель Bosch"])
  = Raises (OtherError (py "range() arg 3 must not be zero"))
  /\ predict sample_ner_post (sample_ner (-2))
       [py "дрель Bosch"; py "пила Makita"; py "молоток"]
     = (Returns [], []).
Proof.
  split.
  - apply (predict_without_positive_k sample_ner_post (sample_ner (-2))
             [py "дрель Bosch"]); cbn; lia.
  - destruct (predict_without_positive_k sample_ner_post (sample_ner (-2))
                [py "дрель Bosch"; py "пила Makita"; py "молоток"])
      as (Hsent & _ & _ & Hret); [cbn; lia|].
    rewrite (surjective_pairing (predict _ _ _)), Hsent, Hret;
      [reflexivity | cbn; lia | cbn; lia].
Defined.

(** X25 at a numbered list of two questions. *)
Lemma parse_similar_queries_numbered_list_witness :
  parse_similar_queries
    (py "1. Сколько заявок?" ++ LF :: py "2. Кто исполнитель?")
  = [py "Сколько заявок?"; py "Кто исполнитель?"].
Proof.
  pose (items := [(py "1. ", py "Сколько заявок?");
                  (py "2. ", py "Кто исполнитель?")]).
  assert (H : Forall numbered items).
  { repeat constructor; vm_compute; intros H;
      repeat (destruct H as [H|H]; [discriminate H|]); exact H. }
  assert (E1 : join_char LF (map (fun line => fst line ++ snd line) items)
               = py "1. Сколько заявок?" ++ LF :: py "2. Кто исполнитель?")
    by (vm_compute; reflexivity).
  assert (E2 : map snd items = [py "Сколько заявок?"; py "Кто исполнитель?"])
    by (vm_compute; reflexivity).
  rewrite <- E1, <- E2.
  apply (parse_similar_queries_numbered_list items); [discriminate | exact H].
Defined.
